(** * beandatev: conversion between beancount ledgers and DATEV batches

    A shallow embedding of [beandatev.py] and the properties of its two
    converters ([beancount2datev], [datev2beancount]) and of the account
    dictionary ([expand_asterisk_wildcard], [load_account_dictionary]).

    Conventions of the embedding.
    - Python [str] is [string]; a character is an [ascii], read as the
      code point of the same number (0..255).
    - A Python exception is a value of [exn]; a function that can raise
      returns a [result].
    - A Python [dict] is an association list in insertion order with
      unique keys ([PyDict]): the order decides which number a name
      keeps when the dictionary is inverted.
    - Decimal amounts are integers counted in a unit fine enough for
      every number that occurs.  Python's [float(..)] is not fixed by the
      embedding: it is a parameter ([PyFloat]), and what a statement needs
      of it is a hypothesis of the statement.
    - The files themselves (the beancount loader, the DATEV reader and
      writer, the csv reader) are outside: the functions take the parsed
      records and return the records they would write.
    - A batch of the pydatev library is a record of its header fields and
      the list of its rows; the library stores what it is given. *)

From Stdlib Require Import List String Ascii ZArith Lia Bool Arith.
From Stdlib Require Import Permutation Sorted FinFun.
Import ListNotations.

Local Open Scope string_scope.
Local Open Scope list_scope.
Local Open Scope nat_scope.

(** ** Exceptions and results *)

Inductive exn : Type :=
| ValueError (msg : string)
| IOError (msg : string)
| KeyError (key : string)
| IndexError
| TypeError
| AttributeError
| OverflowError.

Inductive result (A : Type) : Type :=
| OK (a : A)
| Raise (e : exn).

Arguments OK {A} a.
Arguments Raise {A} e.

Definition bind {A B : Type} (r : result A) (f : A -> result B) : result B :=
  match r with
  | OK a => f a
  | Raise e => Raise e
  end.

Notation "x <- r ;; k" := (bind r (fun x => k))
  (at level 61, r at next level, right associativity).

Definition raises {A : Type} (r : result A) : Prop :=
  exists e, r = Raise e.

(** ** Python dictionaries *)

Module PyDict.

Definition items (V : Type) : Type := list (string * V).

Section Items.
Context {V : Type}.

Fixpoint get (d : items V) (k : string) : option V :=
  match d with
  | [] => None
  | (k', v) :: rest => if String.eqb k' k then Some v else get rest k
  end.

(** [d[k] = v]: an existing key keeps its place, a new one goes last. *)
Fixpoint set (d : items V) (k : string) (v : V) : items V :=
  match d with
  | [] => [(k, v)]
  | (k', v') :: rest =>
      if String.eqb k' k then (k', v) :: rest
      else (k', v') :: set rest k v
  end.

Definition keys (d : items V) : list string := map fst d.

End Items.

End PyDict.

(** A [dict] ([default_factory = None]) or a [defaultdict] whose factory
    returns a constant name. *)
Record pydict : Type := mkdict {
  table : PyDict.items string;
  default_factory : option string
}.

(** [d[k]].  On a [defaultdict] a missing key is also stored with the
    default; every later lookup of it reads that same default, so the
    store is not threaded through the callers. *)
Definition getitem (d : pydict) (k : string) : result string :=
  match PyDict.get (table d) k with
  | Some v => OK v
  | None =>
      match default_factory d with
      | Some v => OK v
      | None => Raise (KeyError k)
      end
  end.

Definition setitem (d : pydict) (k v : string) : pydict :=
  mkdict (PyDict.set (table d) k v) (default_factory d).

(** ** Wildcard expansion *)

(** [str.isdigit] on the code points 0..255: the ten decimal digits and
    the superscripts U+00B2, U+00B3, U+00B9. *)
Definition isdigit (c : ascii) : bool :=
  let n := nat_of_ascii c in
  ((48 <=? n) && (n <=? 57)) || (n =? 178) || (n =? 179) || (n =? 185).

Definition is_decimal_digit (c : ascii) : bool :=
  let n := nat_of_ascii c in (48 <=? n) && (n <=? 57).

Definition asterisk : ascii := "*"%char.

(** [str(digit)] for [digit] in [range(10)]. *)
Definition str_digit (digit : nat) : ascii := ascii_of_nat (48 + digit).

(** [c2 = c[:]; c2[i] = x] *)
Fixpoint list_set {A : Type} (c : list A) (i : nat) (x : A) : list A :=
  match c, i with
  | [], _ => []
  | _ :: rest, O => x :: rest
  | y :: rest, S j => y :: list_set rest j x
  end.

Definition range (n : nat) : list nat := seq 0 n.

(** The body of the inner loop for one partial string [c]. *)
Definition expand_at (account_number : string) (i : nat) (c : list ascii)
  : result (list (list ascii)) :=
  match nth_error c i with
  | None => Raise IndexError
  | Some ch =>
      if isdigit ch then OK [c]
      else if Ascii.eqb ch asterisk then
        OK (map (fun digit => list_set c i (str_digit digit)) (range 10))
      else Raise (IOError account_number)
  end.

(** [for c in collection: ...] building [collection_new]. *)
Fixpoint expand_position (account_number : string) (i : nat)
    (collection : list (list ascii)) : result (list (list ascii)) :=
  match collection with
  | [] => OK []
  | c :: rest =>
      new <- expand_at account_number i c ;;
      more <- expand_position account_number i rest ;;
      OK (new ++ more)
  end.

(** [for i in range(len(account_number)): ...] *)
Fixpoint expand_positions (account_number : string) (positions : list nat)
    (collection : list (list ascii)) : result (list (list ascii)) :=
  match positions with
  | [] => OK collection
  | i :: rest =>
      collection_new <- expand_position account_number i collection ;;
      expand_positions account_number rest collection_new
  end.

Definition expand_asterisk_wildcard (account_number : string)
  : result (list string) :=
  collection <- expand_positions account_number
                  (range (String.length account_number))
                  [list_ascii_of_string account_number] ;;
  OK (map string_of_list_ascii collection).

(** ** Loading the account dictionary *)

(** ['*' in a] *)
Definition has_asterisk (a : string) : bool :=
  existsb (Ascii.eqb asterisk) (list_ascii_of_string a).

Definition store_all (d1 : pydict) (numbers : list string) (b : string)
  : pydict :=
  fold_left (fun d an => setitem d an b) numbers d1.

(** [for a, b in reader: ...]: a record is the list of its fields. *)
Fixpoint load_records (allow_wildcards : bool) (reader : list (list string))
    (d1 : pydict) : result pydict :=
  match reader with
  | [] => OK d1
  | [a; b] :: rest =>
      match String.get 0 a with
      | None => Raise IndexError
      | Some a0 =>
          if Ascii.eqb a0 "#"%char then
            load_records allow_wildcards rest d1
          else if has_asterisk a then
            if allow_wildcards then
              numbers <- expand_asterisk_wildcard a ;;
              load_records allow_wildcards rest (store_all d1 numbers b)
            else Raise (IOError "Wildcards not allowed.")
          else load_records allow_wildcards rest (setitem d1 a b)
      end
  | _ :: _ => Raise (ValueError "unpack")
  end.

(** [for key in d1.keys(): d2[d1[key]] = key] *)
Fixpoint invert_into (d1 : pydict) (keys : list string) (d2 : pydict)
  : result pydict :=
  match keys with
  | [] => OK d2
  | key :: rest =>
      name <- getitem d1 key ;;
      invert_into d1 rest (setitem d2 name key)
  end.

Definition load_account_dictionary (reader : list (list string))
    (allow_wildcards : bool) (default_account_name : option string)
  : result (pydict * pydict) :=
  d1 <- load_records allow_wildcards reader (mkdict [] default_account_name) ;;
  d2 <- invert_into d1 (PyDict.keys (table d1)) (mkdict [] None) ;;
  OK (d1, d2).

(** ** Dates *)

Record Date : Type := mkdate { year : Z; month : Z; day : Z }.

Definition is_leap (y : Z) : bool :=
  ((y mod 4 =? 0) && negb (y mod 100 =? 0) || (y mod 400 =? 0))%Z.

Definition days_in_month (y m : Z) : Z :=
  (if m =? 2 then (if is_leap y then 29 else 28)
   else if (m =? 4) || (m =? 6) || (m =? 9) || (m =? 11) then 30
   else 31)%Z.

(** A Python integer that fits a C [int]. *)
Definition c_int (y : Z) : bool := ((- 2 ^ 31 <=? y) && (y <? 2 ^ 31))%Z.

(** [datetime.date(y, m, d)]: the arguments are turned into C integers
    first, then checked against the calendar. *)
Definition datetime_date (y m d : Z) : result Date :=
  (if negb (c_int y && c_int m && c_int d) then Raise OverflowError
   else if negb ((1 <=? y) && (y <=? 9999)) then
     Raise (ValueError "year is out of range")
   else if negb ((1 <=? m) && (m <=? 12)) then
     Raise (ValueError "month must be in 1..12")
   else if negb ((1 <=? d) && (d <=? days_in_month y m)) then
     Raise (ValueError "day is out of range for month")
   else OK (mkdate y m d))%Z.

(** [a <= b] on dates *)
Definition date_leb (a b : Date) : bool :=
  ((year a <? year b)
   || ((year a =? year b)
       && ((month a <? month b)
           || ((month a =? month b) && (day a <=? day b)))))%Z.

(** ** Stable sorting: [sorted(l, key = ...)] *)

Section StableSort.
Context {A : Type} (leb : A -> A -> bool).

Fixpoint insert_sorted (x : A) (l : list A) : list A :=
  match l with
  | [] => [x]
  | y :: rest =>
      if leb x y then x :: y :: rest else y :: insert_sorted x rest
  end.

(** An element goes in front of the first later element it is not
    greater than, so equal keys keep their order. *)
Fixpoint sorted (l : list A) : list A :=
  match l with
  | [] => []
  | x :: rest => insert_sorted x (sorted rest)
  end.
End StableSort.

(** ** The ledger side (beancount) *)

(** The number a row of the batch holds, a Python [float]: the finite
    number that [str()] shows of it, or the negative zero, which [str()]
    shows as ["-0.0"].  Infinities and NaN are left out. *)
Inductive betrag : Type :=
| Zahl (v : Z)
| MinusNull.

Definition wert (x : betrag) : Z :=
  match x with
  | Zahl v => v
  | MinusNull => 0%Z
  end.

(** [x < 0] *)
Definition negative (x : betrag) : bool :=
  match x with
  | Zahl v => (v <? 0)%Z
  | MinusNull => false
  end.

(** [str(x)] starts with a minus sign. *)
Definition minus_sign (x : betrag) : bool :=
  match x with
  | Zahl v => (v <? 0)%Z
  | MinusNull => true
  end.

(** [float(x)] of a Decimal: what it rounds to is Python's business. *)
Class PyFloat : Type := { float : Z -> betrag }.

(** The values of fields and of metadata; [FObjekt] is the batch object
    where it is itself a value. *)
Inductive feld : Type :=
| FZahl (z : Z)
| FBetrag (x : betrag)
| FText (s : string)
| FDatum (d : Date)
| FNone
| FObjekt.

Record Amount : Type := mkAmount { number : Z; currency : string }.

Record Posting : Type := mkPosting { account : string; units : Amount }.

(** [narration] is [None] where Python has [None] in place of a string. *)
Record Transaction : Type := mkTransaction {
  meta : PyDict.items feld;
  date : Date;
  flag : string;
  payee : string;
  narration : option string;
  postings : list Posting
}.

Inductive directive : Type :=
| Txn (t : Transaction)
| Open (account_name : string)
| OtherDirective.

(** [[e for e in entries if isinstance(e, data.Transaction)]] *)
Fixpoint transactions_of (entries : list directive) : list Transaction :=
  match entries with
  | [] => []
  | Txn t :: rest => t :: transactions_of rest
  | _ :: rest => transactions_of rest
  end.

(** ** The batch side (pydatev) *)

(** A row of the batch: the fields the converters read or write, and the
    other fields that are set, by name. *)
Record Buchung : Type := mkBuchung {
  umsatz : betrag;
  soll_haben : string;
  wkz_umsatz : option string;
  konto : string;
  gegenkonto : string;
  belegdatum : Date;
  buchungstext : option string;
  weitere : PyDict.items feld
}.

Record Buchungsstapel : Type := mkBuchungsstapel {
  berater : Z;
  mandant : Z;
  wirtschaftsjahr_beginn : Date;
  sachkontennummernlaenge : Z;
  datum_von : Date;
  datum_bis : Date;
  waehrungskennzeichen : string;
  data : list Buchung
}.

(** [entry[key]]: a field that is not set reads as [None]. *)
Definition buchung_getitem (entry : Buchung) (key : string) : option feld :=
  if String.eqb key "Umsatz (ohne Soll/Haben-Kz)" then
    Some (FBetrag (umsatz entry))
  else if String.eqb key "Soll/Haben-Kennzeichen" then
    Some (FText (soll_haben entry))
  else if String.eqb key "WKZ Umsatz" then
    option_map FText (wkz_umsatz entry)
  else if String.eqb key "Kontonummer" then
    Some (FText (konto entry))
  else if String.eqb key "Gegenkonto (ohne BU-Schlüssel)" then
    Some (FText (gegenkonto entry))
  else if String.eqb key "Belegdatum" then
    Some (FDatum (belegdatum entry))
  else if String.eqb key "Buchungstext" then
    option_map FText (buchungstext entry)
  else PyDict.get (weitere entry) key.

(** [buchungsstapel.add_buchung(umsatz = .., soll_haben = .., ...)]
    followed by the assignments to the row it returns.  The row handle is
    the row stored in the batch, so the assignments reach the batch; here
    the row is completed first and then appended. *)
Definition add_buchung (b : Buchungsstapel) (row : Buchung) : Buchungsstapel :=
  mkBuchungsstapel (berater b) (mandant b) (wirtschaftsjahr_beginn b)
    (sachkontennummernlaenge b) (datum_von b) (datum_bis b)
    (waehrungskennzeichen b) (data b ++ [row]).

(** ** Account converters: a dictionary or a callable *)

Inductive converter : Type :=
| ConvDict (d : pydict)
| ConvCallable (f : string -> result string).

Definition convert (c : converter) (x : string) : result string :=
  match c with
  | ConvDict d => getitem d x
  | ConvCallable f => f x
  end.

(** ** beancount2datev *)

Definition within_year_msg : string :=
  "Start and stop date need to be within the year.".

Definition skip_warning : string :=
  "Warning: Skip transaction. Dealing with transactions which have more the two postings is not yet implemented.".

(** [if d is None: d = datetime.date(year, m, dd) else: check the year] *)
Definition date_or_default (d : option Date) (y m dd : Z) : result Date :=
  match d with
  | None => datetime_date y m dd
  | Some d0 =>
      if negb (year d0 =? y)%Z then Raise (ValueError within_year_msg)
      else OK d0
  end.

(** [collections.Counter]: the counts, in order of first occurrence. *)
Fixpoint counter_add (c : list (string * nat)) (x : string)
  : list (string * nat) :=
  match c with
  | [] => [(x, 1)]
  | (k, n) :: rest =>
      if String.eqb k x then (k, S n) :: rest
      else (k, n) :: counter_add rest x
  end.

Definition Counter (l : list string) : list (string * nat) :=
  fold_left counter_add l [].

(** [most_common()]: by count, largest first, ties in order of first
    occurrence. *)
Definition most_common (c : list (string * nat)) : list (string * nat) :=
  sorted (fun a b => snd b <=? snd a) c.

(** [[t.postings[0].units.currency for t in transactions]] *)
Fixpoint first_currencies (transactions : list Transaction)
  : result (list string) :=
  match transactions with
  | [] => OK []
  | t :: rest =>
      match postings t with
      | [] => Raise IndexError
      | p :: _ =>
          cs <- first_currencies rest ;;
          OK (currency (units p) :: cs)
      end
  end.

(** [s[:n]] *)
Definition slice_to (n : nat) (s : string) : string := String.substring 0 n s.

(** [#filter and sort transactions] *)
Definition filter_and_sort (transactions : list Transaction)
    (date_start date_stop : Date) : list Transaction :=
  let transactions :=
    filter (fun t => date_leb date_start (date t)
                     && date_leb (date t) date_stop) transactions in
  sorted (fun a b => date_leb (date a) (date b)) transactions.

(** [#find currency] *)
Definition find_currency (transactions : list Transaction) : result string :=
  firsts <- first_currencies transactions ;;
  match most_common (Counter firsts) with
  | [] => Raise IndexError
  | (default_currency, _) :: _ => OK default_currency
  end.

(** The row of one transaction: the body of the loop after the check of
    the number of postings. *)
Definition buchung_of `{PyFloat} (conv : converter)
    (default_currency : string) (t : Transaction) : result Buchung :=
  match postings t with
  | [p1; p2] =>
      let (p1, p2) :=
        if negative (float (number (units p1))) then (p2, p1)
        else (p1, p2) in
      k <- convert conv (account p1) ;;
      gk <- convert conv (account p2) ;;
      match narration t with
      | None => Raise TypeError
      | Some text =>
          OK (mkBuchung (float (number (units p1))) "S"
                (if String.eqb (currency (units p1)) default_currency
                 then None
                 else Some (currency (units p1)))
                k gk (date t) (Some (slice_to 60 text)) [])
      end
  | _ => Raise (ValueError "not enough values to unpack")
  end.

(** The loop over the transactions; the second component is what was
    printed. *)
Fixpoint add_transactions `{PyFloat} (conv : converter)
    (default_currency : string) (transactions : list Transaction)
    (buchungsstapel : Buchungsstapel) (out : list string)
  : result Buchungsstapel * list string :=
  match transactions with
  | [] => (OK buchungsstapel, out)
  | t :: rest =>
      if 2 <? List.length (postings t) then
        add_transactions conv default_currency rest buchungsstapel
          (out ++ [skip_warning])
      else
        match buchung_of conv default_currency t with
        | Raise e => (Raise e, out)
        | OK buchung =>
            add_transactions conv default_currency rest
              (add_buchung buchungsstapel buchung) out
        end
  end.

(** [entries] is what [loader.load_file] returned; writing the batch to
    [filename_datev] is left to the caller. *)
Definition beancount2datev `{PyFloat} (entries : list directive)
    (conv : converter) (year : Z) (date_start date_stop : option Date)
  : result Buchungsstapel * list string :=
  let transactions := transactions_of entries in
  match date_or_default date_start year 1 1 with
  | Raise e => (Raise e, [])
  | OK date_start =>
  match date_or_default date_stop year 12 31 with
  | Raise e => (Raise e, [])
  | OK date_stop =>
  let transactions := filter_and_sort transactions date_start date_stop in
  match find_currency transactions with
  | Raise e => (Raise e, [])
  | OK default_currency =>
  match datetime_date year 1 1 with
  | Raise e => (Raise e, [])
  | OK beginn =>
      add_transactions conv default_currency transactions
        (mkBuchungsstapel 1001 1 beginn 4 date_start date_stop
           default_currency [])
        []
  end end end end.

(** ** datev2beancount *)

(** The head of the message of [D]; the literal and the cause that follow
    it are left out. *)
Definition decimal_error : string :=
  "Impossible to create Decimal instance".

(** [D(sign + str(u))] for [sign] empty or ["-"].  A second minus sign in
    front of a number that [str()] shows with one is no decimal literal;
    beancount's [D] turns the error of the decimal module into a
    [ValueError]. *)
Definition D_signed (sign : string) (u : betrag) : result Z :=
  if String.eqb sign "" then OK (wert u)
  else if minus_sign u then Raise (ValueError decimal_error)
  else OK (- wert u)%Z.

(** [data.new_metadata(filename, lineno, kvlist = kvlist)]: the two fixed
    entries, then [meta.update(kvlist)]. *)
Definition new_metadata (filename lineno : feld)
    (kvlist : PyDict.items feld) : PyDict.items feld :=
  fold_left (fun meta kv => PyDict.set meta (fst kv) (snd kv)) kvlist
    [("filename", filename); ("lineno", lineno)].

(** [for key, value in metadata.items(): ...] *)
Fixpoint collect_metadata (entry : Buchung) (items : list (string * string))
    (kvl : PyDict.items feld) : PyDict.items feld :=
  match items with
  | [] => kvl
  | (key, value) :: rest =>
      match buchung_getitem entry key with
      | Some v => collect_metadata entry rest (PyDict.set kvl value v)
      | None => collect_metadata entry rest kvl
      end
  end.

(** The body of the loop for one row.  [datev_file] is the argument of
    that name as a value: the file name ([FText]) or the batch itself
    ([FObjekt]). *)
Definition transaction_of_entry (datev_file : feld) (conv : converter)
    (default_currency : string) (flag_ : string)
    (metadata : option (PyDict.items string))
    (payee_ : string) (entry : Buchung) : result Transaction :=
  let sign1 := if String.eqb (soll_haben entry) "S" then "" else "-" in
  let sign2 := if String.eqb (soll_haben entry) "S" then "-" else "" in
  k <- convert conv (konto entry) ;;
  gk <- convert conv (gegenkonto entry) ;;
  let currency_ :=
    match wkz_umsatz entry with
    | Some c => c
    | None => default_currency
    end in
  n1 <- D_signed sign1 (umsatz entry) ;;
  n2 <- D_signed sign2 (umsatz entry) ;;
  let p1 := mkPosting k (mkAmount n1 currency_) in
  let p2 := mkPosting gk (mkAmount n2 currency_) in
  match metadata with
  | None => Raise AttributeError
  | Some items =>
      let kvl := collect_metadata entry items [] in
      let meta_ := new_metadata datev_file FNone kvl in
      OK (mkTransaction meta_ (belegdatum entry) flag_ payee_
            (buchungstext entry) [p1; p2])
  end.

Fixpoint transactions_of_entries (datev_file : feld) (conv : converter)
    (default_currency : string) (flag_ : string)
    (metadata : option (PyDict.items string))
    (payee_ : string) (rows : list Buchung) : result (list Transaction) :=
  match rows with
  | [] => OK []
  | entry :: rest =>
      txn <- transaction_of_entry datev_file conv default_currency flag_
               metadata payee_ entry ;;
      more <- transactions_of_entries datev_file conv default_currency flag_
                metadata payee_ rest ;;
      OK (txn :: more)
  end.

(** [buchungsstapel] is the batch that [datev_file] is or names;
    appending to a beancount file and printing are left to the caller. *)
Definition datev2beancount (datev_file : feld)
    (buchungsstapel : Buchungsstapel)
    (conv : converter) (flag_ : string)
    (metadata : option (PyDict.items string)) (payee_ : string)
  : result (list Transaction) :=
  beancount_entries <-
    transactions_of_entries datev_file conv
      (waehrungskennzeichen buchungsstapel)
      flag_ metadata payee_ (data buchungsstapel) ;;
  OK (sorted (fun a b => date_leb (date a) (date b)) beancount_entries).

(** ** Account numbers out of account names *)

(** [s.split(sep)] for a separator of one character: the pieces between
    the separators, one more than there are separators. *)
Fixpoint str_split (sep : ascii) (s : string) : list string :=
  match s with
  | EmptyString => [EmptyString]
  | String c rest =>
      if Ascii.eqb c sep then EmptyString :: str_split sep rest
      else
        match str_split sep rest with
        | piece :: pieces => String c piece :: pieces
        | [] => [String c EmptyString]
        end
  end.

(** [l[i]] *)
Definition subscript {A : Type} (l : list A) (i : nat) : result A :=
  match nth_error l i with
  | Some x => OK x
  | None => Raise IndexError
  end.

(** [lambda account_name: account_name.split(':')[2].split('-')[0]] *)
Definition convert_function (account_name : string) : result string :=
  part <- subscript (str_split ":"%char account_name) 2 ;;
  subscript (str_split "-"%char part) 0.

(** ** What the functions do to the outside *)

Inductive effect : Type :=
| Print (line : string)
| PrintEntries (txns : list Transaction)
| AppendEntries (path : string) (txns : list Transaction)
| SaveBatch (path : string) (b : Buchungsstapel)
| WriteFile (path : string) (text : string).

(** ** create_account_dictionary *)

Definition header : string :=
  "#account number (datev), account name (beancount)".

(** [[e.account for e in entries if isinstance(e, data.Open)]] *)
Fixpoint open_accounts (entries : list directive) : list string :=
  match entries with
  | [] => []
  | Open a :: rest => a :: open_accounts rest
  | _ :: rest => open_accounts rest
  end.

(** [[f(a) for a in l]] *)
Fixpoint map_result {A B : Type} (f : A -> result B) (l : list A)
  : result (list B) :=
  match l with
  | [] => OK []
  | a :: rest =>
      b <- f a ;;
      bs <- map_result f rest ;;
      OK (b :: bs)
  end.

(** ["{},{}".format(an, a)] *)
Definition format_record (an a : string) : string :=
  (an ++ "," ++ a)%string.

Definition newline : string := String (ascii_of_nat 10) EmptyString.

(** [entries] is what [loader.load_file] returned, [isfile] what
    [os.path.isfile] answers. *)
Definition create_account_dictionary (isfile : string -> bool)
    (entries : list directive) (convert : string -> result string)
    (dict_filename : option string) : result (list effect) :=
  let accounts := open_accounts entries in
  account_numbers <- map_result convert accounts ;;
  let lines :=
    header :: map (fun r => format_record (fst r) (snd r))
                (combine account_numbers accounts) in
  match dict_filename with
  | None => OK (map Print lines)
  | Some path =>
      if isfile path then OK [Print "Error: File exists"]
      else OK [WriteFile path
                 (String.concat ""
                    (map (fun line => (line ++ newline)%string) lines))]
  end.

(** ** The converters on files *)

(** [datev_file]: a file name, a loaded batch, or anything else. *)
Inductive datev_input : Type :=
| DatevPath (filename : string)
| DatevLoaded (b : Buchungsstapel)
| DatevOther.

Section CommandLine.

(** The collaborators: the file system, the beancount loader, the csv
    reader on an opened dictionary file, the DATEV reader, the clock. *)
Variable isfile : string -> bool.
Variable splitext : string -> string * string.
Variable load_file : string -> list directive.
Variable csv_reader : string -> result (list (list string)).
Variable read_datev : string -> result Buchungsstapel.
Variable today_year : Z.
Context `{PyFloat}.

(** [beancount2datev] with its file names: the batch is saved once the
    loop has ended. *)
Definition beancount2datev_files (filename_beancount filename_datev : string)
    (conv : converter) (year_ : Z) (date_start date_stop : option Date)
  : list effect * result Buchungsstapel :=
  match beancount2datev (load_file filename_beancount) conv year_
          date_start date_stop with
  | (OK b, out) => (map Print out ++ [SaveBatch filename_datev b], OK b)
  | (Raise e, out) => (map Print out, Raise e)
  end.

(** [datev2beancount] with its input and outputs. *)
Definition datev2beancount_files (datev_file : datev_input)
    (conv : converter) (filename_beancount : option string)
    (flag_ : string) (metadata : option (PyDict.items string))
    (payee_ : string) (print_result : bool)
  : list effect * result (list Transaction) :=
  let loaded :=
    match datev_file with
    | DatevPath filename => read_datev filename
    | DatevLoaded b => OK b
    | DatevOther => Raise (IOError "")
    end in
  let value :=
    match datev_file with
    | DatevPath filename => FText filename
    | _ => FObjekt
    end in
  match loaded with
  | Raise e => ([], Raise e)
  | OK buchungsstapel =>
      match datev2beancount value buchungsstapel conv flag_ metadata
              payee_ with
      | Raise e => ([], Raise e)
      | OK beancount_entries =>
          ((match filename_beancount with
            | Some path => [AppendEntries path beancount_entries]
            | None => []
            end)
           ++ (if print_result then [PrintEntries beancount_entries]
               else []),
           OK beancount_entries)
      end
  end.

(** [load_account_dictionary] on a file name. *)
Definition load_account_dictionary_file (filename : string)
    (allow_wildcards : bool) (default_account_name : option string)
  : result (pydict * pydict) :=
  reader <- csv_reader filename ;;
  load_account_dictionary reader allow_wildcards default_account_name.

(** ** main *)

(** What [parser.parse_args()] returns. *)
Record arguments : Type := mkarguments {
  arg_out : option string;
  arg_filename : string;
  arg_create_account_dictionary : bool;
  arg_account_dictionary : option string;
  arg_year : option Z
}.

(** The return value is [Some] code, or [None] where the function ends
    without a [return]. *)
Definition main (args : arguments) : list effect * result (option Z) :=
  let missing :=
    if negb (isfile (arg_filename args))
    then [Print "Error: Input file not found."] else [] in
  let ext := snd (splitext (arg_filename args)) in
  if match arg_out args with
     | Some out => isfile out
     | None => false
     end
  then (missing ++ [Print "Error: Output file exists."], OK (Some 1%Z))
  else if String.eqb ext ".beancount" then
    if arg_create_account_dictionary args then
      match create_account_dictionary isfile
              (load_file (arg_filename args)) convert_function
              (arg_out args) with
      | OK effects => (missing ++ effects, OK (Some 0%Z))
      | Raise e => (missing, Raise e)
      end
    else
      match arg_out args with
      | None =>
          (missing ++ [Print "Error: parameter --out missing."],
           OK (Some 1%Z))
      | Some out =>
          let year_ :=
            match arg_year args with
            | None => today_year
            | Some y => y
            end in
          match arg_account_dictionary args with
          | None =>
              (missing ++ [Print "Error: account dictionary required."],
               OK (Some 1%Z))
          | Some dictionary =>
              match load_account_dictionary_file dictionary false None with
              | Raise e => (missing, Raise e)
              | OK (d1, d2) =>
                  match beancount2datev_files (arg_filename args) out
                          (ConvDict d2) year_ None None with
                  | (effects, OK _) => (missing ++ effects, OK (Some 0%Z))
                  | (effects, Raise e) => (missing ++ effects, Raise e)
                  end
              end
          end
      end
  else if String.eqb ext ".csv" then
    match arg_account_dictionary args with
    | None =>
        (missing ++ [Print "Error: account dictionary required."],
         OK (Some 1%Z))
    | Some dictionary =>
        match load_account_dictionary_file dictionary true None with
        | Raise e => (missing, Raise e)
        | OK (d1, d2) =>
            match datev2beancount_files (DatevPath (arg_filename args))
                    (ConvDict d1) (arg_out args) "txn" None "" true with
            | (effects, OK _) => (missing ++ effects, OK (Some 0%Z))
            | (effects, Raise e) => (missing ++ effects, Raise e)
            end
        end
    end
  else (missing, OK None).

End CommandLine.

(** ** Vocabulary of the statements *)

(** The characters of a number pattern. *)
Definition pattern_char (c : ascii) : bool :=
  isdigit c || Ascii.eqb c asterisk.

Definition is_pattern (s : string) : Prop :=
  forallb pattern_char (list_ascii_of_string s) = true.

(** [w]: the number of wildcard characters of a pattern. *)
Definition wildcards (s : string) : nat :=
  List.length (filter (Ascii.eqb asterisk) (list_ascii_of_string s)).

(** One position of a concrete number against the same position of the
    pattern: a decimal digit under a wildcard, the pattern's own character
    anywhere else. *)
Definition agrees (pc sc : ascii) : Prop :=
  if Ascii.eqb pc asterisk then is_decimal_digit sc = true else sc = pc.

Definition instance_of (pattern s : string) : Prop :=
  Forall2 agrees (list_ascii_of_string pattern) (list_ascii_of_string s).

Definition decimal_digits : list ascii := map str_digit (range 10).

(** The expansion read off the pattern from left to right; the proofs
    show that the loops of [expand_asterisk_wildcard] compute it. *)
Fixpoint expansions (pattern : list ascii) : list (list ascii) :=
  match pattern with
  | [] => [[]]
  | ch :: rest =>
      if isdigit ch then map (cons ch) (expansions rest)
      else flat_map (fun d => map (cons d) (expansions rest)) decimal_digits
  end.

(** A record of the dictionary file that is skipped as a comment. *)
Definition is_comment (a : string) : bool :=
  match String.get 0 a with
  | Some c => Ascii.eqb c "#"%char
  | None => false
  end.

(** The number [k] is one a record [a, b] stands for: [a] itself or one
    of the numbers the pattern [a] expands to. *)
Definition stands_for (a k : string) : bool :=
  String.eqb k a
  || (has_asterisk a
      && match expand_asterisk_wildcard a with
         | OK numbers => existsb (String.eqb k) numbers
         | Raise _ => false
         end).

(** The number [k] is listed in the dictionary file. *)
Definition listed (reader : list (list string)) (k : string) : bool :=
  existsb (fun record =>
             match record with
             | [a; _] => negb (is_comment a) && stands_for a k
             | _ => false
             end) reader.

(** Every entry of the inverted table points at a key of [d1] that reads
    the entry's name. *)
Definition inverts (d1 d2 : pydict) : Prop :=
  forall n k, PyDict.get (table d2) n = Some k ->
              PyDict.get (table d1) k = Some n.

(** The date a bound of the range stands for: the one given, or the
    first respectively last day of the year. *)
Definition bound_or (d : option Date) (fallback : Date) : Date :=
  match d with
  | Some d0 => d0
  | None => fallback
  end.

Definition in_year (y : Z) (d : option Date) : bool :=
  match d with
  | Some d0 => (year d0 =? y)%Z
  | None => true
  end.

Definition valid_year (y : Z) : bool := ((1 <=? y) && (y <=? 9999))%Z.

Definition by_date (a b : Transaction) : bool := date_leb (date a) (date b).

Definition has_two (t : Transaction) : bool :=
  List.length (postings t) =? 2.

Definition more_than_two (t : Transaction) : bool :=
  2 <? List.length (postings t).

Definition is_ok {A : Type} (r : result A) : bool :=
  match r with
  | OK _ => true
  | Raise _ => false
  end.

(** Both accounts of the transaction resolve and the narration is a
    string: nothing but the number of postings can stop its row. *)
Definition resolvable (conv : converter) (t : Transaction) : bool :=
  forallb (fun p => is_ok (convert conv (account p))) (postings t)
  && match narration t with
     | Some _ => true
     | None => false
     end.

(** The row can be turned into a transaction: both account numbers
    resolve and the amount carries no sign. *)
Definition unsigned_and_resolved (conv : converter) (row : Buchung) : bool :=
  is_ok (convert conv (konto row))
  && is_ok (convert conv (gegenkonto row))
  && negb (minus_sign (umsatz row)).

(** Ascending by date. *)
Definition date_ordered (l : list Transaction) : Prop :=
  StronglySorted (fun a b => date_leb (date a) (date b) = true) l.

(** The name table [conv] and the number table [inv] are inverse on the
    account [a]: the number of [a] is read back as [a]. *)
Definition resolves_back (conv inv : converter) (a : string) : bool :=
  match convert conv a with
  | OK n =>
      match convert inv n with
      | OK a' => String.eqb a' a
      | Raise _ => false
      end
  | Raise _ => false
  end.

(** Two postings of equal magnitude and opposite sign in one currency,
    on accounts the two tables are inverse on. *)
Definition balanced_pair (conv inv : converter) (t : Transaction) : bool :=
  match postings t, narration t with
  | [p; q], Some _ =>
      (number (units q) =? - number (units p))%Z
      && String.eqb (currency (units q)) (currency (units p))
      && resolves_back conv inv (account p)
      && resolves_back conv inv (account q)
  | _, _ => false
  end.

(** The amounts of the postings are numbers that [float()] gives back
    as they are. *)
Definition betrag_eqb (x y : betrag) : bool :=
  match x, y with
  | Zahl v, Zahl w => (v =? w)%Z
  | MinusNull, MinusNull => true
  | _, _ => false
  end.

Definition exact_amounts `{PyFloat} (t : Transaction) : bool :=
  forallb (fun p => betrag_eqb (float (number (units p)))
                      (Zahl (number (units p))))
    (postings t).

(** The transactions of the date range, in the order of the loop. *)
Definition selected (entries : list directive) (y : Z)
    (date_start date_stop : option Date) : list Transaction :=
  filter_and_sort (transactions_of entries)
    (bound_or date_start (mkdate y 1 1))
    (bound_or date_stop (mkdate y 12 31)).

(** ** Sample data *)

(** [float()] on the amounts of the samples, which are in hundredths.
    1234567890123456.78 has more digits than a float holds: the float
    next to it is shown by [str()] as 1234567890123456.8.  The other
    sample amounts have at most 15 significant digits and come back from
    [float()] and [str()] as they are. *)
Definition sample_float (n : Z) : betrag :=
  if (n =? 123456789012345678)%Z then Zahl 123456789012345680
  else if (n =? - 123456789012345678)%Z then Zahl (- 123456789012345680)
  else Zahl n.

#[export] Instance sample_floats : PyFloat := {| float := sample_float |}.

Definition posting (a : string) (n : Z) (c : string) : Posting :=
  mkPosting a (mkAmount n c).

Definition sample_txn (d : Date) (text : string) (ps : list Posting)
  : Transaction :=
  mkTransaction [] d "*" "" (Some text) ps.

Definition sample_names : converter :=
  ConvDict (mkdict [("Assets:Bank", "1200"); ("Expenses:Food", "4650");
                    ("Income:Sales", "8400")] None).

Definition sample_numbers : converter :=
  ConvDict (mkdict [("1200", "Assets:Bank"); ("4650", "Expenses:Food");
                    ("8400", "Income:Sales")] None).

Definition lunch (d : Z) : Transaction :=
  sample_txn (mkdate 2021 3 d) "Lunch"
    [posting "Expenses:Food" 1250 "EUR"; posting "Assets:Bank" (-1250) "EUR"].

Definition split_sale : Transaction :=
  sample_txn (mkdate 2021 3 4) "Sale, partly paid in cash"
    [posting "Assets:Bank" 7000 "EUR"; posting "Expenses:Food" 3000 "EUR";
     posting "Income:Sales" (-10000) "EUR"].

Definition single_posting : Transaction :=
  sample_txn (mkdate 2021 3 6) "Empty correction"
    [posting "Assets:Bank" 0 "EUR"].

(** Nine transactions of two postings and one of three. *)
Definition nine_and_one : list directive :=
  Open "Assets:Bank"
  :: map Txn (map lunch [9; 8; 7; 6; 5]%Z
              ++ [split_sale] ++ map lunch [4; 3; 2; 1]%Z).

(** A purchase priced in another currency: 100.00 EUR bought for
    118.00 USD. *)
Definition priced_purchase : Transaction :=
  sample_txn (mkdate 2021 3 5) "Exchange"
    [posting "Assets:Bank" 10000 "EUR";
     posting "Income:Sales" (-10000) "USD"].

(** A batch of two rows that are not in the order of their dates: the
    first is a credit booking with a currency of its own. *)
Definition unsorted_batch : Buchungsstapel :=
  mkBuchungsstapel 1001 1 (mkdate 2021 1 1) 4 (mkdate 2021 1 1)
    (mkdate 2021 12 31) "EUR"
    [mkBuchung (Zahl 11800) "H" (Some "USD") "1200" "8400" (mkdate 2021 3 9)
       (Some "Refund") [("Belegfeld 1", FText "R-17")];
     mkBuchung (Zahl 1250) "S" None "4650" "1200" (mkdate 2021 3 2)
       (Some "Lunch") []].

(** A record number that is stored as it stands: not empty, no comment,
    no wildcard. *)
Definition plain_number (a : string) : bool :=
  match String.get 0 a with
  | Some c => negb (Ascii.eqb c "#"%char) && negb (has_asterisk a)
  | None => false
  end.

(** The records of a dictionary file that lists the pairs [recs]. *)
Definition records_of (recs : list (string * string)) : list (list string) :=
  map (fun r => [fst r; snd r]) recs.

(** The inversion loop over a list of (number, name) pairs. *)
Definition invert_items (items : list (string * string)) (d2 : pydict)
  : pydict :=
  fold_left (fun d kv => setitem d (snd kv) (fst kv)) items d2.

(** The date lies in the range of the conversion. *)
Definition in_range (y : Z) (date_start date_stop : option Date)
    (t : Transaction) : bool :=
  date_leb (bound_or date_start (mkdate y 1 1)) (date t)
  && date_leb (date t) (bound_or date_stop (mkdate y 12 31)).

(** Ascending by booking date. *)
Definition rows_ordered (rows : list Buchung) : Prop :=
  StronglySorted
    (fun r1 r2 => date_leb (belegdatum r1) (belegdatum r2) = true) rows.

(** A transaction of two positive postings and one of two negative ones:
    neither balances, both pass the loader's parser. *)
Definition both_positive : Transaction :=
  sample_txn (mkdate 2021 4 1) "Two debits"
    [posting "Assets:Bank" 500 "EUR"; posting "Expenses:Food" 300 "EUR"].

(** A purchase of 1234567890123456.78 EUR. *)
Definition machine_purchase : Transaction :=
  sample_txn (mkdate 2021 4 5) "Machine"
    [posting "Expenses:Food" 123456789012345678 "EUR";
     posting "Assets:Bank" (-123456789012345678) "EUR"].

Definition both_negative : Transaction :=
  sample_txn (mkdate 2021 4 2) "Two credits"
    [posting "Assets:Bank" (-500) "EUR"; posting "Expenses:Food" (-300) "EUR"].

(** The lunch next to a transaction of two debits and one of three
    postings. *)
Definition mixed_ledger : list directive :=
  [Txn both_positive; Txn split_sale; Txn (lunch 1)].

(** A transaction on an account the sample table does not list, and one
    without postings. *)
Definition unlisted_account : Transaction :=
  sample_txn (mkdate 2021 4 3) "Rent"
    [posting "Expenses:Rent" 90000 "EUR"; posting "Assets:Bank" (-90000) "EUR"].

Definition no_postings : Transaction :=
  sample_txn (mkdate 2021 4 4) "Note" [].

(** The count a counter holds for [k]; [0] where it holds none. *)
Definition countv (c : list (string * nat)) (k : string) : nat :=
  match PyDict.get c k with
  | Some n => n
  | None => 0
  end.

(** How often [c] occurs in a list of currencies. *)
Definition occurrences (l : list string) (c : string) : nat :=
  count_occ string_dec l c.

(** Four bookings, two with a first posting in USD and two in EUR; the
    earliest one is in USD. *)
Definition tied_currencies : list directive :=
  [Txn (sample_txn (mkdate 2021 5 2) "Coffee"
          [posting "Expenses:Food" 300 "EUR";
           posting "Assets:Bank" (-300) "EUR"]);
   Txn (sample_txn (mkdate 2021 5 1) "Bagel"
          [posting "Expenses:Food" 500 "USD";
           posting "Assets:Bank" (-500) "USD"]);
   Txn (sample_txn (mkdate 2021 5 4) "Pretzel"
          [posting "Expenses:Food" 200 "USD";
           posting "Assets:Bank" (-200) "USD"]);
   Txn (sample_txn (mkdate 2021 5 3) "Cake"
          [posting "Expenses:Food" 350 "EUR";
           posting "Assets:Bank" (-350) "EUR"])].

(** The character [c] occurs in [s]; how often it does. *)
Fixpoint has_char (c : ascii) (s : string) : bool :=
  match s with
  | EmptyString => false
  | String c' rest => Ascii.eqb c' c || has_char c rest
  end.

Fixpoint count_char (c : ascii) (s : string) : nat :=
  match s with
  | EmptyString => 0
  | String c' rest =>
      (if Ascii.eqb c' c then 1 else 0) + count_char c rest
  end.

(** A field that the csv reader returns as it is written: no comma and
    no quotation mark in it. *)
Definition quotation_mark : ascii := ascii_of_nat 34.

Definition csv_plain (s : string) : bool :=
  negb (has_char ","%char s) && negb (has_char quotation_mark s).

(** The path an effect writes to. *)
Definition written_path (e : effect) : option string :=
  match e with
  | Print _ | PrintEntries _ => None
  | AppendEntries path _ | SaveBatch path _ | WriteFile path _ => Some path
  end.

(** A ledger that opens two accounts with numbers in their names. *)
Definition two_accounts : list directive :=
  [Open "Assets:Bank:1200-Giro"; Txn (lunch 1); Open "Expenses:Food:4650"].

(** A small world for the command line: a ledger, a dictionary with a
    wildcard, a batch. *)
Definition sample_isfile (path : string) : bool :=
  String.eqb path "ledger.beancount" || String.eqb path "accounts.csv"
  || String.eqb path "batch.csv".

Definition sample_splitext (path : string) : string * string :=
  if String.eqb path "ledger.beancount" then ("ledger", ".beancount")
  else if String.eqb path "batch.csv" then ("batch", ".csv")
  else (path, "").

Definition sample_load_file (path : string) : list directive :=
  if String.eqb path "ledger.beancount" then two_accounts else [].

Definition sample_csv_reader (path : string) : result (list (list string)) :=
  if String.eqb path "accounts.csv" then
    OK [["#number"; "name"]; ["1200"; "Assets:Bank"];
        ["4650"; "Expenses:Food"]; ["84**"; "Income:Sales"]]
  else Raise (IOError path).

Definition sample_read_datev (path : string) : result Buchungsstapel :=
  if String.eqb path "batch.csv" then OK unsorted_batch
  else Raise (IOError path).

Definition sample_main : arguments -> list effect * result (option Z) :=
  main sample_isfile sample_splitext sample_load_file sample_csv_reader
    sample_read_datev 2021.

(** ** Results about results *)

Lemma bind_OK {A B : Type} (r : result A) (f : A -> result B) (b : B) :
  bind r f = OK b -> exists a, r = OK a /\ f a = OK b.
Proof.
  destruct r as [a|e]; simpl; intros H; [eauto | discriminate].
Qed.

Ltac inv_bind H :=
  let a := fresh "a" in
  let Ha := fresh "Ha" in
  apply bind_OK in H; destruct H as (a & Ha & H).

(** ** Wildcard expansion computes [expansions] *)

Section ExpandFacts.
Variable account_number : string.

Lemma nth_error_middle {A : Type} (p s : list A) (x : A) :
  nth_error (p ++ x :: s) (List.length p) = Some x.
Proof.
  induction p; simpl; auto.
Qed.

Lemma list_set_middle {A : Type} (p s : list A) (x y : A) :
  list_set (p ++ x :: s) (List.length p) y = p ++ y :: s.
Proof.
  induction p; simpl; [reflexivity | now rewrite IHp].
Qed.

Lemma asterisk_not_digit : isdigit asterisk = false.
Proof. reflexivity. Qed.

(** One position holding a digit leaves the collection as it is. *)
Lemma expand_position_digit (k : nat) (ch : ascii) (s : list ascii)
      (prefixes : list (list ascii)) :
  Forall (fun p => List.length p = k) prefixes ->
  isdigit ch = true ->
  expand_position account_number k (map (fun p => p ++ ch :: s) prefixes)
  = OK (map (fun p => p ++ ch :: s) prefixes).
Proof.
  intros Hlen Hd.
  induction Hlen as [|p ps Hp _ IH]; simpl; [reflexivity|].
  unfold expand_at. subst k.
  rewrite nth_error_middle, Hd. simpl.
  rewrite IH. reflexivity.
Qed.

(** One position holding the wildcard puts ten strings in the place of
    each one. *)
Lemma expand_position_asterisk (k : nat) (s : list ascii)
      (prefixes : list (list ascii)) :
  Forall (fun p => List.length p = k) prefixes ->
  expand_position account_number k
    (map (fun p => p ++ asterisk :: s) prefixes)
  = OK (flat_map (fun p => map (fun d => p ++ d :: s) decimal_digits)
          prefixes).
Proof.
  intros Hlen.
  induction Hlen as [|p ps Hp _ IH]; [reflexivity|].
  cbn [map expand_position]. unfold expand_at. subst k.
  rewrite nth_error_middle, asterisk_not_digit, Ascii.eqb_refl.
  cbn [bind]. rewrite IH. cbn [bind flat_map]. f_equal. f_equal.
  unfold decimal_digits. rewrite map_map.
  apply map_ext. intros d. apply list_set_middle.
Qed.

Lemma flat_map_map {A B C : Type} (f : A -> B) (g : B -> list C)
      (l : list A) :
  flat_map g (map f l) = flat_map (fun x => g (f x)) l.
Proof.
  induction l; simpl; [reflexivity | now rewrite IHl].
Qed.

Lemma flat_map_flat_map {A B C : Type} (f : A -> list B) (g : B -> list C)
      (l : list A) :
  flat_map g (flat_map f l) = flat_map (fun x => flat_map g (f x)) l.
Proof.
  induction l; simpl; [reflexivity|].
  now rewrite flat_map_app, IHl.
Qed.

Lemma map_flat_map {A B C : Type} (f : A -> list B) (g : B -> C)
      (l : list A) :
  map g (flat_map f l) = flat_map (fun x => map g (f x)) l.
Proof.
  induction l; simpl; [reflexivity|].
  now rewrite map_app, IHl.
Qed.

(** The positions from [k] on, over strings that share the rest [s] of
    the pattern. *)
Lemma expand_positions_suffix (s : list ascii) :
  forallb pattern_char s = true ->
  forall (k : nat) (prefixes : list (list ascii)),
    Forall (fun p => List.length p = k) prefixes ->
    expand_positions account_number (seq k (List.length s))
      (map (fun p => p ++ s) prefixes)
    = OK (flat_map (fun p => map (app p) (expansions s)) prefixes).
Proof.
  induction s as [|ch s IH]; intros Hs k prefixes Hlen.
  - simpl. f_equal.
  - simpl in Hs. apply andb_true_iff in Hs. destruct Hs as [Hch Hs].
    change (seq k (List.length (ch :: s)))
      with (k :: seq (S k) (List.length s)).
    cbn [expand_positions expansions].
    destruct (isdigit ch) eqn:Hd.
    + rewrite (expand_position_digit k ch s prefixes Hlen Hd). cbn [bind].
      replace (map (fun p => p ++ ch :: s) prefixes)
        with (map (fun p => p ++ s) (map (fun p => p ++ [ch]) prefixes)).
      2:{ rewrite map_map. apply map_ext. intros p.
          now rewrite <- app_assoc. }
      rewrite (IH Hs (S k)).
      2:{ apply Forall_map. eapply Forall_impl; [|exact Hlen].
          simpl. intros p Hp. rewrite length_app. simpl. lia. }
      f_equal. rewrite flat_map_map.
      apply flat_map_ext. intros p. rewrite map_map.
      apply map_ext. intros e. now rewrite <- app_assoc.
    + unfold pattern_char in Hch. rewrite Hd in Hch. simpl in Hch.
      apply Ascii.eqb_eq in Hch. subst ch.
      rewrite (expand_position_asterisk k s prefixes Hlen). cbn [bind].
      replace (flat_map (fun p => map (fun d => p ++ d :: s) decimal_digits)
                 prefixes)
        with (map (fun p => p ++ s)
                (flat_map (fun p => map (fun d => p ++ [d]) decimal_digits)
                   prefixes)).
      2:{ rewrite map_flat_map. apply flat_map_ext. intros p.
          rewrite map_map. apply map_ext. intros d.
          now rewrite <- app_assoc. }
      rewrite (IH Hs (S k)).
      2:{ apply Forall_forall. intros q Hq.
          apply in_flat_map in Hq. destruct Hq as (p & Hp & Hq).
          apply in_map_iff in Hq. destruct Hq as (d & <- & _).
          rewrite Forall_forall in Hlen. rewrite length_app.
          rewrite (Hlen p Hp). simpl. lia. }
      f_equal. rewrite flat_map_flat_map.
      apply flat_map_ext. intros p.
      rewrite flat_map_map, map_flat_map.
      apply flat_map_ext. intros d. rewrite map_map.
      apply map_ext. intros e. now rewrite <- app_assoc.
Qed.

End ExpandFacts.

Lemma length_list_ascii_of_string (s : string) :
  List.length (list_ascii_of_string s) = String.length s.
Proof.
  induction s; simpl; [reflexivity | now rewrite IHs].
Qed.

Lemma expand_asterisk_wildcard_expansions (pattern : string) :
  is_pattern pattern ->
  expand_asterisk_wildcard pattern
  = OK (map string_of_list_ascii (expansions (list_ascii_of_string pattern))).
Proof.
  intros Hp. unfold expand_asterisk_wildcard, range.
  rewrite <- length_list_ascii_of_string.
  pose proof (expand_positions_suffix pattern (list_ascii_of_string pattern)
                Hp 0 [[]]) as H.
  simpl in H. rewrite H by (constructor; auto).
  simpl. now rewrite app_nil_r, map_id.
Qed.

(** ** What [expansions] holds *)

Lemma decimal_digits_are_digits :
  Forall (fun c => is_decimal_digit c = true) decimal_digits.
Proof.
  repeat constructor.
Qed.

Lemma decimal_digits_NoDup : NoDup decimal_digits.
Proof.
  repeat (constructor; [simpl; intuition discriminate|]). constructor.
Qed.

Lemma length_choices {A : Type} (ds : list A) (E : list (list A)) :
  List.length (flat_map (fun d => map (cons d) E) ds)
  = List.length ds * List.length E.
Proof.
  induction ds as [|d ds IH]; simpl; [reflexivity|].
  now rewrite length_app, length_map, IH.
Qed.

Lemma NoDup_choices {A : Type} (ds : list A) (E : list (list A)) :
  NoDup ds -> NoDup E -> NoDup (flat_map (fun d => map (cons d) E) ds).
Proof.
  intros Hds HE. induction Hds as [|d ds Hd _ IH]; simpl; [constructor|].
  apply NoDup_app.
  - apply Injective_map_NoDup; [|exact HE].
    intros x y Hxy. now inversion Hxy.
  - exact IH.
  - intros e He Hin.
    apply in_map_iff in He. destruct He as (x & <- & _).
    apply in_flat_map in Hin. destruct Hin as (d' & Hd' & Hin).
    apply in_map_iff in Hin. destruct Hin as (y & Hy & _).
    inversion Hy; subst. contradiction.
Qed.

Lemma length_expansions (s : list ascii) :
  forallb pattern_char s = true ->
  List.length (expansions s)
  = 10 ^ List.length (filter (Ascii.eqb asterisk) s).
Proof.
  induction s as [|ch s IH]; intros Hs; [reflexivity|].
  simpl in Hs. apply andb_true_iff in Hs. destruct Hs as [Hch Hs].
  cbn [expansions filter].
  destruct (isdigit ch) eqn:Hd.
  - destruct (Ascii.eqb_spec asterisk ch) as [<-|_].
    + rewrite asterisk_not_digit in Hd. discriminate.
    + rewrite length_map. auto.
  - unfold pattern_char in Hch. rewrite Hd in Hch. simpl in Hch.
    rewrite Ascii.eqb_sym in Hch. rewrite Hch.
    rewrite length_choices, (IH Hs). cbn [List.length].
    rewrite Nat.pow_succ_r'. reflexivity.
Qed.

Lemma NoDup_expansions (s : list ascii) : NoDup (expansions s).
Proof.
  induction s as [|ch s IH]; cbn [expansions].
  - repeat constructor. intros [].
  - destruct (isdigit ch).
    + apply Injective_map_NoDup; [|exact IH].
      intros x y Hxy. now inversion Hxy.
    + apply NoDup_choices; [apply decimal_digits_NoDup | exact IH].
Qed.

Lemma expansions_agree (s : list ascii) :
  forallb pattern_char s = true ->
  Forall (Forall2 agrees s) (expansions s).
Proof.
  induction s as [|ch s IH]; intros Hs.
  - repeat constructor.
  - simpl in Hs. apply andb_true_iff in Hs. destruct Hs as [Hch Hs].
    specialize (IH Hs). rewrite Forall_forall in IH.
    apply Forall_forall. intros e He. cbn [expansions] in He.
    destruct (isdigit ch) eqn:Hd.
    + apply in_map_iff in He. destruct He as (x & <- & Hx).
      constructor; [|auto].
      unfold agrees. destruct (Ascii.eqb_spec ch asterisk) as [->|_].
      * rewrite asterisk_not_digit in Hd. discriminate.
      * reflexivity.
    + unfold pattern_char in Hch. rewrite Hd in Hch. simpl in Hch.
      apply in_flat_map in He. destruct He as (d & Hdd & He).
      apply in_map_iff in He. destruct He as (x & <- & Hx).
      constructor; [|auto].
      unfold agrees. rewrite Hch.
      pose proof decimal_digits_are_digits as Hall.
      rewrite Forall_forall in Hall. auto.
Qed.

(** A pattern without wildcard stands for itself. *)
Lemma expansions_no_asterisk (s : list ascii) :
  forallb pattern_char s = true ->
  existsb (Ascii.eqb asterisk) s = false ->
  expansions s = [s].
Proof.
  induction s as [|ch s IH]; intros Hs Hno; [reflexivity|].
  cbn [forallb existsb] in Hs, Hno.
  apply andb_true_iff in Hs. destruct Hs as [Hch Hs].
  apply orb_false_iff in Hno. destruct Hno as [Hne Hno].
  cbn [expansions]. unfold pattern_char in Hch.
  rewrite Ascii.eqb_sym in Hne. rewrite Hne, orb_false_r in Hch.
  rewrite Hch, (IH Hs Hno). reflexivity.
Qed.

(** ** Dictionary facts *)

Lemma get_set_same {V : Type} (d : PyDict.items V) (k : string) (v : V) :
  PyDict.get (PyDict.set d k v) k = Some v.
Proof.
  induction d as [|[k' v'] d IH]; simpl.
  - now rewrite String.eqb_refl.
  - destruct (String.eqb k' k) eqn:E; simpl; rewrite E; auto.
Qed.

Lemma get_set_other {V : Type} (d : PyDict.items V) (k k' : string) (v : V) :
  k <> k' -> PyDict.get (PyDict.set d k v) k' = PyDict.get d k'.
Proof.
  intros Hne. induction d as [|[k0 v0] d IH]; simpl.
  - destruct (String.eqb_spec k k'); [contradiction | reflexivity].
  - destruct (String.eqb_spec k0 k) as [->|Hk]; simpl.
    + destruct (String.eqb_spec k k'); [contradiction | reflexivity].
    + destruct (String.eqb k0 k'); auto.
Qed.

Lemma keys_get {V : Type} (d : PyDict.items V) (k : string) :
  In k (PyDict.keys d) -> exists v, PyDict.get d k = Some v.
Proof.
  induction d as [|[k' v'] d IH]; simpl; [intros []|].
  intros [->|Hin].
  - rewrite String.eqb_refl. eauto.
  - destruct (String.eqb k' k); eauto.
Qed.

Lemma get_keys {V : Type} (d : PyDict.items V) (k : string) (v : V) :
  PyDict.get d k = Some v -> In k (PyDict.keys d).
Proof.
  induction d as [|[k' v'] d IH]; simpl; [discriminate|].
  destruct (String.eqb_spec k' k) as [->|_]; auto.
Qed.

Lemma default_factory_store_all (d : pydict) (numbers : list string)
      (b : string) :
  default_factory (store_all d numbers b) = default_factory d.
Proof.
  unfold store_all. revert d.
  induction numbers as [|n ns IH]; intros d; cbn [fold_left]; auto.
  now rewrite IH.
Qed.

Lemma table_store_all (d : pydict) (numbers : list string) (b s : string) :
  In s numbers \/ PyDict.get (table d) s = Some b ->
  PyDict.get (table (store_all d numbers b)) s = Some b.
Proof.
  unfold store_all. revert d.
  induction numbers as [|n ns IH]; intros d H; cbn [fold_left].
  - destruct H as [[]|H]; exact H.
  - apply IH. destruct (string_dec n s) as [->|Hne].
    + right. simpl. apply get_set_same.
    + destruct H as [[Heq|Hin]|Hget]; [contradiction | auto |].
      right. simpl. now rewrite get_set_other.
Qed.

Lemma store_all_other (d : pydict) (numbers : list string) (b s : string) :
  ~ In s numbers ->
  PyDict.get (table (store_all d numbers b)) s = PyDict.get (table d) s.
Proof.
  unfold store_all. revert d.
  induction numbers as [|n ns IH]; intros d H; cbn [fold_left]; auto.
  rewrite IH by (simpl in H; tauto).
  simpl. apply get_set_other. simpl in H. tauto.
Qed.

Lemma invert_into_total (d1 : pydict) (keys : list string) (d2 : pydict) :
  (forall k, In k keys -> In k (PyDict.keys (table d1))) ->
  exists d2', invert_into d1 keys d2 = OK d2'.
Proof.
  revert d2. induction keys as [|k ks IH]; intros d2 H; simpl; eauto.
  destruct (keys_get (table d1) k) as [v Hv]; [apply H; now left|].
  unfold getitem. rewrite Hv. simpl. apply IH.
  intros k' Hk'. apply H. now right.
Qed.

Lemma load_records_app (aw : bool) (pre post : list (list string))
      (d : pydict) :
  load_records aw (pre ++ post) d
  = (d' <- load_records aw pre d ;; load_records aw post d').
Proof.
  revert d. induction pre as [|row pre IH]; intros d; [reflexivity|].
  destruct row as [|a [|b [|c row]]]; try reflexivity.
  cbn [app load_records].
  destruct (String.get 0 a) as [a0|]; [|reflexivity].
  destruct (Ascii.eqb a0 "#"%char); [apply IH|].
  destruct (has_asterisk a); [|apply IH].
  destruct aw; [|reflexivity].
  destruct (expand_asterisk_wildcard a); simpl; [apply IH | reflexivity].
Qed.

(** Loading never fails once the records are read: every key of [d1] is
    in [d1]. *)
Lemma load_account_dictionary_of_records (reader : list (list string))
      (aw : bool) (dflt : option string) (d1 : pydict) :
  load_records aw reader (mkdict [] dflt) = OK d1 ->
  exists d2, load_account_dictionary reader aw dflt = OK (d1, d2).
Proof.
  intros H. unfold load_account_dictionary. rewrite H. simpl.
  destruct (invert_into_total d1 (PyDict.keys (table d1)) (mkdict [] None))
    as [d2 Hd2]; [auto|].
  rewrite Hd2. simpl. eauto.
Qed.

(** ** Wildcard expansion: the theorem *)

Lemma string_of_list_ascii_inj : Injective string_of_list_ascii.
Proof.
  intros x y H.
  rewrite <- (list_ascii_of_string_of_list_ascii x),
          <- (list_ascii_of_string_of_list_ascii y).
  now rewrite H.
Qed.

Lemma load_records_last_pattern (pattern name : string) (d : pydict) :
  is_pattern pattern -> pattern <> "" ->
  load_records true [[pattern; name]] d
  = OK (store_all d
          (map string_of_list_ascii
             (expansions (list_ascii_of_string pattern))) name).
Proof.
  intros Hp Hne. cbn [load_records].
  destruct pattern as [|c rest]; [contradiction|].
  cbn [String.get].
  assert (Hc : pattern_char c = true).
  { unfold is_pattern in Hp. simpl in Hp.
    apply andb_true_iff in Hp. tauto. }
  destruct (Ascii.eqb_spec c "#"%char) as [->|_]; [discriminate|].
  destruct (has_asterisk (String c rest)) eqn:Hast.
  - rewrite (expand_asterisk_wildcard_expansions _ Hp). reflexivity.
  - unfold has_asterisk in Hast.
    rewrite (expansions_no_asterisk _ Hp Hast).
    cbn [map]. rewrite string_of_list_ascii_of_string. reflexivity.
Qed.

(** C2.  A pattern over digits and ['*'] with [w] wildcards expands to
    exactly [10 ^ w] pairwise distinct strings; each has the length of the
    pattern, carries the pattern's character at every position that is no
    wildcard and a decimal digit at every wildcard; and a dictionary file
    whose last record maps the pattern to a name maps every one of these
    numbers to that name. *)
Theorem expand_asterisk_wildcard_count (pattern : string) :
  is_pattern pattern ->
  exists numbers,
    expand_asterisk_wildcard pattern = OK numbers /\
    List.length numbers = 10 ^ wildcards pattern /\
    NoDup numbers /\
    Forall (fun s => String.length s = String.length pattern
                     /\ instance_of pattern s) numbers /\
    (pattern <> "" ->
     forall (name : string) (dflt : option string)
            (pre : list (list string)) (d1' d2' : pydict),
       load_account_dictionary pre true dflt = OK (d1', d2') ->
       exists d1 d2,
         load_account_dictionary (pre ++ [[pattern; name]]) true dflt
         = OK (d1, d2) /\
         Forall (fun s => getitem d1 s = OK name) numbers).
Proof.
  intros Hp.
  exists (map string_of_list_ascii (expansions (list_ascii_of_string pattern))).
  split; [now apply expand_asterisk_wildcard_expansions|].
  split; [rewrite length_map; now apply length_expansions|].
  split.
  { apply Injective_map_NoDup;
      [apply string_of_list_ascii_inj | apply NoDup_expansions]. }
  split.
  { apply Forall_map.
    eapply Forall_impl; [|apply (expansions_agree _ Hp)].
    intros e He. unfold instance_of.
    rewrite list_ascii_of_string_of_list_ascii. split; [|exact He].
    rewrite <- !length_list_ascii_of_string,
            list_ascii_of_string_of_list_ascii.
    symmetry. eapply Forall2_length; eauto. }
  intros Hne name dflt pre d1' d2' Hpre.
  unfold load_account_dictionary in Hpre.
  inv_bind Hpre. rename a into dpre. clear Hpre.
  set (numbers :=
         map string_of_list_ascii (expansions (list_ascii_of_string pattern))).
  assert (Hload : load_records true (pre ++ [[pattern; name]])
                    (mkdict [] dflt)
                  = OK (store_all dpre numbers name)).
  { rewrite load_records_app, Ha. cbn [bind].
    now apply load_records_last_pattern. }
  destruct (load_account_dictionary_of_records _ _ _ _ Hload) as [d2 Hd2].
  exists (store_all dpre numbers name), d2. split; [exact Hd2|].
  apply Forall_forall. intros s Hs. unfold getitem.
  rewrite table_store_all; auto.
Qed.

(** The pattern ["52*"]: ten distinct numbers of three characters, which
    differ in the last position only and all read the name of the record. *)
Lemma expand_asterisk_wildcard_count_52 :
  exists numbers,
    expand_asterisk_wildcard "52*" = OK numbers /\
    List.length numbers = 10 /\
    NoDup numbers /\
    Forall (fun s => String.length s = 3 /\ instance_of "52*" s) numbers /\
    exists d1 d2,
      load_account_dictionary [["52*"; "Assets:Bank"]] true None
      = OK (d1, d2) /\
      Forall (fun s => getitem d1 s = OK "Assets:Bank") numbers.
Proof.
  destruct (expand_asterisk_wildcard_count "52*" eq_refl)
    as (numbers & H1 & H2 & H3 & H4 & H5).
  exists numbers. repeat (split; [assumption|]).
  apply (H5 ltac:(discriminate) "Assets:Bank" None []
            (mkdict [] None) (mkdict [] None) eq_refl).
Defined.

Example expand_52 :
  expand_asterisk_wildcard "52*"
  = OK ["520"; "521"; "522"; "523"; "524"; "525"; "526"; "527"; "528"; "529"].
Proof. reflexivity. Qed.

Example load_52 :
  exists d2,
    load_account_dictionary [["52*"; "Assets:Bank"]] true None
    = OK (mkdict
            [("520", "Assets:Bank"); ("521", "Assets:Bank");
             ("522", "Assets:Bank"); ("523", "Assets:Bank");
             ("524", "Assets:Bank"); ("525", "Assets:Bank");
             ("526", "Assets:Bank"); ("527", "Assets:Bank");
             ("528", "Assets:Bank"); ("529", "Assets:Bank")] None, d2).
Proof. eexists. reflexivity. Qed.

(** ** The two tables of the dictionary *)

Lemma load_records_default_factory (aw : bool) (reader : list (list string)) :
  forall d d1,
    load_records aw reader d = OK d1 ->
    default_factory d1 = default_factory d.
Proof.
  induction reader as [|row reader IH]; intros d d1 H.
  - now inversion H.
  - destruct row as [|a [|b [|c row]]]; try discriminate.
    cbn [load_records] in H.
    destruct (String.get 0 a) as [a0|]; [|discriminate].
    destruct (Ascii.eqb a0 "#"%char); [now apply IH|].
    destruct (has_asterisk a).
    + destruct aw; [|discriminate].
      inv_bind H. rewrite (IH _ _ H).
      apply default_factory_store_all.
    + now rewrite (IH _ _ H).
Qed.

Lemma existsb_eqb_false (k : string) (l : list string) :
  existsb (String.eqb k) l = false -> ~ In k l.
Proof.
  intros H Hin.
  assert (existsb (String.eqb k) l = true) as E.
  { apply existsb_exists. exists k. split; [exact Hin|].
    apply String.eqb_refl. }
  congruence.
Qed.

(** A number that is not listed is read from the table as before the
    file was loaded. *)
Lemma load_records_unlisted (aw : bool) (reader : list (list string))
      (k : string) :
  listed reader k = false ->
  forall d d1,
    load_records aw reader d = OK d1 ->
    PyDict.get (table d1) k = PyDict.get (table d) k.
Proof.
  induction reader as [|row reader IH]; intros Hl d d1 H.
  - now inversion H.
  - destruct row as [|a [|b [|c row]]]; try discriminate.
    cbn [load_records] in H. cbn [listed existsb] in Hl.
    apply orb_false_iff in Hl. destruct Hl as [Hrow Hl].
    specialize (IH Hl). unfold is_comment in Hrow.
    destruct (String.get 0 a) as [a0|]; [|discriminate].
    destruct (Ascii.eqb a0 "#"%char); [now apply IH|].
    cbn [negb andb] in Hrow. unfold stands_for in Hrow.
    apply orb_false_iff in Hrow. destruct Hrow as [Hka Hexp].
    apply String.eqb_neq in Hka.
    destruct (has_asterisk a).
    + destruct aw; [|discriminate].
      inv_bind H. rewrite Ha in Hexp. cbn [andb] in Hexp.
      rewrite (IH _ _ H).
      apply store_all_other. now apply existsb_eqb_false.
    + rewrite (IH _ _ H). simpl. apply get_set_other. congruence.
Qed.

(** C8.  With a default account name the number->name table answers a
    number that the dictionary file does not list with that default; with
    no default the same lookup raises [KeyError]. *)
Theorem default_account_name_lookup (reader : list (list string))
        (aw : bool) (dflt : option string) (d1 d2 : pydict) (k : string) :
  load_account_dictionary reader aw dflt = OK (d1, d2) ->
  listed reader k = false ->
  getitem d1 k = match dflt with
                 | Some name => OK name
                 | None => Raise (KeyError k)
                 end.
Proof.
  intros Hload Hk. unfold load_account_dictionary in Hload.
  inv_bind Hload. inv_bind Hload. inversion Hload; subst a d2.
  unfold getitem.
  rewrite (load_records_unlisted _ _ _ Hk _ _ Ha).
  rewrite (load_records_default_factory _ _ _ _ Ha). reflexivity.
Qed.

Lemma default_account_name_lookup_default :
  (exists d1 d2,
      load_account_dictionary
        [["#number"; "name"]; ["1200"; "Assets:Bank"]; ["52*"; "Income:Sales"]]
        true (Some "Expenses:Unknown") = OK (d1, d2)
      /\ getitem d1 "4711" = OK "Expenses:Unknown"
      /\ getitem d1 "527" = OK "Income:Sales")
  /\ (exists d1 d2,
        load_account_dictionary
          [["#number"; "name"]; ["1200"; "Assets:Bank"]; ["52*"; "Income:Sales"]]
          true None = OK (d1, d2)
        /\ getitem d1 "4711" = Raise (KeyError "4711")).
Proof.
  split.
  - eexists. eexists. split; [reflexivity|].
    split; [|reflexivity].
    apply (default_account_name_lookup
             [["#number"; "name"]; ["1200"; "Assets:Bank"];
              ["52*"; "Income:Sales"]]
             true (Some "Expenses:Unknown") _ _ "4711" eq_refl eq_refl).
  - eexists. eexists. split; [reflexivity|].
    apply (default_account_name_lookup
             [["#number"; "name"]; ["1200"; "Assets:Bank"];
              ["52*"; "Income:Sales"]]
             true None _ _ "4711" eq_refl eq_refl).
Defined.

Lemma invert_into_inverts (d1 : pydict) (keys : list string) :
  forall d2 d2',
    inverts d1 d2 -> default_factory d2 = None ->
    invert_into d1 keys d2 = OK d2' ->
    (forall k, In k keys -> In k (PyDict.keys (table d1))) ->
    inverts d1 d2' /\ default_factory d2' = None.
Proof.
  induction keys as [|key keys IH]; intros d2 d2' Hinv Hdf H Hkeys.
  - inversion H; subst. auto.
  - cbn [invert_into] in H. inv_bind H. rename a into name.
    apply (IH _ _) in H; auto.
    + intros n k. simpl.
      destruct (string_dec name n) as [->|Hne].
      * rewrite get_set_same. intros E. inversion E; subst k.
        destruct (keys_get (table d1) key) as [v Hv];
          [apply Hkeys; now left|].
        unfold getitem in Ha. rewrite Hv in Ha. now inversion Ha; subst.
      * rewrite get_set_other by assumption. apply Hinv.
    + intros k Hk. apply Hkeys. now right.
Qed.

(** C9.  The name->number table picks, for every name it holds, a number
    that the number->name table maps back to that name. *)
Theorem load_account_dictionary_inverse (reader : list (list string))
        (aw : bool) (dflt : option string) (d1 d2 : pydict) (n : string) :
  load_account_dictionary reader aw dflt = OK (d1, d2) ->
  In n (PyDict.keys (table d2)) ->
  exists k, getitem d2 n = OK k /\ getitem d1 k = OK n.
Proof.
  intros Hload Hn. unfold load_account_dictionary in Hload.
  inv_bind Hload. inv_bind Hload. inversion Hload; subst a a0. clear Hload.
  destruct (invert_into_inverts d1 (PyDict.keys (table d1))
              (mkdict [] None) d2) as [Hinv Hdf]; auto.
  { intros ? ? E. discriminate E. }
  destruct (keys_get _ _ Hn) as [k Hk].
  exists k. unfold getitem. rewrite Hk, (Hinv _ _ Hk). auto.
Qed.

Lemma load_account_dictionary_inverse_shared_name :
  exists d1 d2,
    load_account_dictionary
      [["52*"; "Assets:Bank"]; ["1000"; "Assets:Bank"]; ["1000"; "Equity"];
       ["1200"; "Assets:Bank"]]
      true None = OK (d1, d2)
    /\ exists k, getitem d2 "Assets:Bank" = OK k
                 /\ getitem d1 k = OK "Assets:Bank".
Proof.
  eexists. eexists. split; [reflexivity|].
  eapply (load_account_dictionary_inverse
            [["52*"; "Assets:Bank"]; ["1000"; "Assets:Bank"];
             ["1000"; "Equity"]; ["1200"; "Assets:Bank"]]
            true None _ _ "Assets:Bank" eq_refl).
  simpl. auto.
Defined.

(** ** Dates are totally ordered *)

Lemma date_leb_total (a b : Date) :
  date_leb a b = false -> date_leb b a = true.
Proof.
  unfold date_leb. destruct a as [ya ma da], b as [yb mb db]; simpl.
  intros H.
  repeat first
    [ rewrite orb_false_iff in H | rewrite andb_false_iff in H
    | rewrite Z.ltb_ge in H | rewrite Z.eqb_neq in H
    | rewrite Z.leb_gt in H ].
  repeat first
    [ rewrite orb_true_iff | rewrite andb_true_iff
    | rewrite Z.ltb_lt | rewrite Z.eqb_eq | rewrite Z.leb_le ].
  lia.
Qed.

Lemma date_leb_trans (a b c : Date) :
  date_leb a b = true -> date_leb b c = true -> date_leb a c = true.
Proof.
  unfold date_leb.
  destruct a as [ya ma da], b as [yb mb db], c as [yc mc dc]; simpl.
  intros H1 H2.
  repeat first
    [ rewrite orb_true_iff in H1 | rewrite andb_true_iff in H1
    | rewrite Z.ltb_lt in H1 | rewrite Z.eqb_eq in H1
    | rewrite Z.leb_le in H1 ].
  repeat first
    [ rewrite orb_true_iff in H2 | rewrite andb_true_iff in H2
    | rewrite Z.ltb_lt in H2 | rewrite Z.eqb_eq in H2
    | rewrite Z.leb_le in H2 ].
  repeat first
    [ rewrite orb_true_iff | rewrite andb_true_iff
    | rewrite Z.ltb_lt | rewrite Z.eqb_eq | rewrite Z.leb_le ].
  lia.
Qed.

(** ** The stable sort *)

Section SortFacts.
Context {A : Type} (leb : A -> A -> bool).
Hypothesis leb_total : forall a b, leb a b = false -> leb b a = true.
Hypothesis leb_trans :
  forall a b c, leb a b = true -> leb b c = true -> leb a c = true.

Lemma insert_sorted_perm (x : A) (l : list A) :
  Permutation (x :: l) (insert_sorted leb x l).
Proof.
  induction l as [|y l IH]; simpl; [auto|].
  destruct (leb x y); [auto|].
  eapply perm_trans; [apply perm_swap|]. now constructor.
Qed.

Lemma sorted_perm (l : list A) : Permutation l (sorted leb l).
Proof.
  induction l as [|x l IH]; simpl; [auto|].
  eapply perm_trans; [|apply insert_sorted_perm]. now constructor.
Qed.

Lemma insert_sorted_StronglySorted (x : A) (l : list A) :
  StronglySorted (fun a b => leb a b = true) l -> StronglySorted (fun a b => leb a b = true) (insert_sorted leb x l).
Proof.
  induction l as [|y l IH]; intros Hs; simpl.
  - repeat constructor.
  - inversion Hs as [|? ? Hl Hy]; subst.
    destruct (leb x y) eqn:E.
    + constructor; [exact Hs|].
      constructor; [exact E|].
      eapply Forall_impl; [|exact Hy].
      intros z Hz. eapply leb_trans; eauto.
    + constructor; [auto|].
      assert (Hin : Forall (fun b => leb y b = true) (x :: l)).
      { constructor; [now apply leb_total | exact Hy]. }
      rewrite Forall_forall in *. intros z Hz. apply Hin.
      eapply Permutation_in; [|exact Hz].
      apply Permutation_sym, insert_sorted_perm.
Qed.

Lemma sorted_StronglySorted (l : list A) : StronglySorted (fun a b => leb a b = true) (sorted leb l).
Proof.
  induction l as [|x l IH]; simpl; [constructor|].
  now apply insert_sorted_StronglySorted.
Qed.

(** A list that is in order is left as it is. *)
Lemma sorted_fixed (l : list A) : StronglySorted (fun a b => leb a b = true) l -> sorted leb l = l.
Proof.
  induction 1 as [|x l Hl IH Hx]; simpl; [reflexivity|].
  rewrite IH. destruct l as [|y l]; [reflexivity|].
  simpl. inversion Hx; subst.
  now match goal with H : leb x y = true |- _ => rewrite H end.
Qed.

Lemma sorted_nonempty (l : list A) : l <> [] -> sorted leb l <> [].
Proof.
  intros Hl E. apply Hl.
  apply Permutation_nil. rewrite <- E. apply Permutation_sym, sorted_perm.
Qed.
End SortFacts.

Lemma by_date_total (a b : Transaction) :
  by_date a b = false -> by_date b a = true.
Proof. apply date_leb_total. Qed.

Lemma by_date_trans (a b c : Transaction) :
  by_date a b = true -> by_date b c = true -> by_date a c = true.
Proof. apply date_leb_trans. Qed.

(** ** datev2beancount without a metadata mapping *)

Lemma transaction_of_entry_None {datev_file : feld} (conv : converter)
      (dc fl py : string)
      (entry : Buchung) :
  raises (transaction_of_entry datev_file conv dc fl None py entry).
Proof.
  unfold transaction_of_entry, raises.
  destruct (convert conv (konto entry)); simpl; eauto.
  destruct (convert conv (gegenkonto entry)); simpl; eauto.
  destruct (D_signed _ (umsatz entry)); simpl; eauto.
  destruct (D_signed _ (umsatz entry)); simpl; eauto.
Qed.

Lemma D_signed_unsigned (sign : string) (u : betrag) :
  minus_sign u = false ->
  D_signed sign u
  = OK (if String.eqb sign "" then wert u else (- wert u)%Z).
Proof.
  intros Hu. unfold D_signed. rewrite Hu.
  destruct (String.eqb sign ""); reflexivity.
Qed.

(** C10.  With [metadata] left at [None] a batch that has a row makes
    [datev2beancount] raise: no transaction list is returned.  When the
    first row's accounts resolve and its amount is unsigned, what is
    raised is the [AttributeError] of [metadata.items()]. *)
Theorem datev2beancount_metadata_None {datev_file : feld} (b : Buchungsstapel)
        (conv : converter)
        (flag_ payee_ : string) (entry : Buchung) (rest : list Buchung) :
  data b = entry :: rest ->
  raises (datev2beancount datev_file b conv flag_ None payee_)
  /\ (is_ok (convert conv (konto entry))
      && is_ok (convert conv (gegenkonto entry))
      && negb (minus_sign (umsatz entry)) = true ->
      datev2beancount datev_file b conv flag_ None payee_
      = Raise AttributeError).
Proof.
  intros Hdata. unfold datev2beancount. rewrite Hdata.
  cbn [transactions_of_entries]. split.
  - destruct (@transaction_of_entry_None datev_file conv
                (waehrungskennzeichen b) flag_ payee_ entry) as [e He].
    rewrite He. simpl. now exists e.
  - intros H. apply andb_true_iff in H. destruct H as [H Hu].
    apply andb_true_iff in H. destruct H as [Hk Hgk].
    apply negb_true_iff in Hu. unfold transaction_of_entry.
    destruct (convert conv (konto entry)); [|discriminate].
    destruct (convert conv (gegenkonto entry)); [|discriminate].
    cbn [bind]. rewrite !D_signed_unsigned by assumption. reflexivity.
Qed.

Lemma datev2beancount_metadata_None_one_row :
  datev2beancount FObjekt
    (mkBuchungsstapel 1001 1 (mkdate 2021 1 1) 4 (mkdate 2021 1 1)
       (mkdate 2021 12 31) "EUR"
       [mkBuchung (Zahl 10000) "S" None "1200" "4650" (mkdate 2021 3 5)
          (Some "Lunch") []])
    (ConvDict (mkdict [("1200", "Assets:Bank"); ("4650", "Expenses:Food")]
                 None))
    "txn" None ""
  = Raise AttributeError.
Proof.
  apply (datev2beancount_metadata_None
           (mkBuchungsstapel 1001 1 (mkdate 2021 1 1) 4 (mkdate 2021 1 1)
              (mkdate 2021 12 31) "EUR"
              [mkBuchung (Zahl 10000) "S" None "1200" "4650" (mkdate 2021 3 5)
                 (Some "Lunch") []])
           _ "txn" "" _ [] eq_refl).
  reflexivity.
Defined.

(** An empty batch never reaches the metadata. *)
Example datev2beancount_metadata_None_empty {datev_file : feld}
        (b : Buchungsstapel)
        (conv : converter) (flag_ payee_ : string) :
  data b = [] -> datev2beancount datev_file b conv flag_ None payee_ = OK [].
Proof.
  intros H. unfold datev2beancount. now rewrite H.
Qed.

(** ** The date range of beancount2datev *)

Lemma valid_year_c_int (y : Z) : valid_year y = true -> c_int y = true.
Proof.
  unfold valid_year, c_int. intros H.
  apply andb_true_iff in H. destruct H as [H1 H2].
  apply Z.leb_le in H1. apply Z.leb_le in H2.
  apply andb_true_iff. split; [apply Z.leb_le | apply Z.ltb_lt]; lia.
Qed.

Lemma datetime_date_valid (y : Z) :
  valid_year y = true ->
  datetime_date y 1 1 = OK (mkdate y 1 1)
  /\ datetime_date y 12 31 = OK (mkdate y 12 31).
Proof.
  intros H. unfold datetime_date. rewrite (valid_year_c_int y H).
  unfold valid_year in H. rewrite H.
  split; reflexivity.
Qed.

Lemma datetime_date_c_int (y m d : Z) :
  c_int y = true ->
  (exists x, datetime_date y m d = OK x)
  \/ (exists msg, datetime_date y m d = Raise (ValueError msg))
  \/ (datetime_date y m d = Raise OverflowError /\ c_int m && c_int d = false).
Proof.
  intros Hy. unfold datetime_date. rewrite Hy. cbn [andb].
  destruct (c_int m && c_int d) eqn:E; cbn [negb].
  - repeat match goal with
           | |- context [if ?c then _ else _] => destruct c
           end; eauto.
  - right. right. split; reflexivity.
Qed.

Lemma add_transactions_header {floats : PyFloat} (conv : converter)
      (dc : string) (transactions : list Transaction) :
  forall b out b' out',
    add_transactions conv dc transactions b out = (OK b', out') ->
    berater b' = berater b /\ mandant b' = mandant b
    /\ wirtschaftsjahr_beginn b' = wirtschaftsjahr_beginn b
    /\ sachkontennummernlaenge b' = sachkontennummernlaenge b
    /\ datum_von b' = datum_von b /\ datum_bis b' = datum_bis b.
Proof.
  induction transactions as [|t rest IH]; intros b out b' out' H.
  - inversion H; subst. repeat split.
  - cbn [add_transactions] in H.
    destruct (2 <? List.length (postings t)); [now apply IH in H|].
    destruct (buchung_of conv dc t); [|discriminate].
    apply IH in H. exact H.
Qed.

Lemma nine_and_one_converts :
  exists b out,
    beancount2datev nine_and_one sample_names 2021 None None = (OK b, out).
Proof.
  eexists. eexists. vm_compute. reflexivity.
Qed.

(** C7, as the code has it.  A supplied start date of another year than
    the target year is refused with the [ValueError] of the program.  A
    supplied stop date of another year is refused with a [ValueError] when
    a start date is supplied or the target year fits a C int.  In a year
    that [datetime.date] accepts, a date left out stands for the first
    respectively the last day of the target year: the run is the run with
    that day supplied, and the batch of a run without bounds spans January
    1 to December 31 of the year. *)
Theorem beancount2datev_date_range {floats : PyFloat}
        (entries : list directive) (conv : converter) (y : Z)
        (date_start date_stop : option Date) :
  (in_year y date_start = false ->
   fst (beancount2datev entries conv y date_start date_stop)
   = Raise (ValueError within_year_msg))
  /\ (in_year y date_stop = false ->
      match date_start with Some _ => true | None => c_int y end = true ->
      exists msg,
        fst (beancount2datev entries conv y date_start date_stop)
        = Raise (ValueError msg))
  /\ (valid_year y = true ->
      date_or_default None y 1 1 = OK (mkdate y 1 1)
      /\ date_or_default None y 12 31 = OK (mkdate y 12 31)
      /\ beancount2datev entries conv y None date_stop
         = beancount2datev entries conv y (Some (mkdate y 1 1)) date_stop
      /\ beancount2datev entries conv y date_start None
         = beancount2datev entries conv y date_start
             (Some (mkdate y 12 31))
      /\ forall b out,
           beancount2datev entries conv y None None = (OK b, out) ->
           datum_von b = mkdate y 1 1 /\ datum_bis b = mkdate y 12 31).
Proof.
  split; [|split].
  - destruct date_start as [d|]; [|discriminate].
    simpl. intros H. unfold beancount2datev. simpl. now rewrite H.
  - destruct date_stop as [d|]; [|discriminate].
    cbn [in_year]. intros H Hs. unfold beancount2datev.
    destruct date_start as [d0|]; cbn [date_or_default].
    + destruct (negb (year d0 =? y)%Z); cbn [fst]; [eauto|].
      rewrite H. cbn [negb fst]. eauto.
    + destruct (datetime_date_c_int y 1 1 Hs) as [[x E]|[[msg E]|[E F]]].
      * rewrite E, H. cbn [negb fst]. eauto.
      * rewrite E. cbn [fst]. eauto.
      * discriminate F.
  - intros Hy. destruct (datetime_date_valid y Hy) as [H1 H2].
    split; [exact H1|]. split; [exact H2|]. split; [|split].
    + unfold beancount2datev. cbn [date_or_default year].
      rewrite H1, Z.eqb_refl. reflexivity.
    + unfold beancount2datev. cbn [date_or_default year].
      rewrite H2, Z.eqb_refl. reflexivity.
    + intros b out H. unfold beancount2datev in H.
      cbn [date_or_default] in H. rewrite H1, H2 in H.
      destruct (find_currency _) as [dc|e]; [|discriminate].
      apply add_transactions_header in H.
      destruct H as (_ & _ & _ & _ & Hv & Hb). now rewrite Hv, Hb.
Qed.

Lemma beancount2datev_date_range_2021 :
  fst (beancount2datev nine_and_one sample_names 2021
         (Some (mkdate 2020 12 31)) None)
  = Raise (ValueError within_year_msg)
  /\ (exists msg,
        fst (beancount2datev nine_and_one sample_names 2021
               None (Some (mkdate 2022 1 1)))
        = Raise (ValueError msg))
  /\ date_or_default None 2021 1 1 = OK (mkdate 2021 1 1)
  /\ date_or_default None 2021 12 31 = OK (mkdate 2021 12 31)
  /\ beancount2datev nine_and_one sample_names 2021 None None
     = beancount2datev nine_and_one sample_names 2021
         (Some (mkdate 2021 1 1)) None
  /\ beancount2datev nine_and_one sample_names 2021 None None
     = beancount2datev nine_and_one sample_names 2021 None
         (Some (mkdate 2021 12 31))
  /\ exists b out,
       beancount2datev nine_and_one sample_names 2021 None None = (OK b, out)
       /\ datum_von b = mkdate 2021 1 1 /\ datum_bis b = mkdate 2021 12 31.
Proof.
  split; [|split].
  - apply (beancount2datev_date_range nine_and_one sample_names 2021
             (Some (mkdate 2020 12 31)) None).
    reflexivity.
  - apply (beancount2datev_date_range nine_and_one sample_names 2021
             None (Some (mkdate 2022 1 1))); reflexivity.
  - destruct (proj2 (proj2 (beancount2datev_date_range nine_and_one
                              sample_names 2021 None None)) eq_refl)
      as (D1 & D2 & E1 & E2 & Hb).
    repeat (split; [assumption|]).
    destruct nine_and_one_converts as (b & out & E).
    exists b, out. split; [exact E|]. exact (Hb b out E).
Defined.

(** C7, as the claim has it, fails with no start date and a target year
    beyond a C int: [datetime.date] raises [OverflowError] before the stop
    date of another year is looked at. *)
Lemma beancount2datev_date_range_overflow :
  in_year 2147483648 (Some (mkdate 2021 5 1)) = false
  /\ fst (beancount2datev nine_and_one sample_names 2147483648 None
            (Some (mkdate 2021 5 1)))
     = Raise OverflowError.
Proof.
  split; reflexivity.
Qed.

(** ** A date range that holds no transaction *)

Lemma filter_none {A : Type} (f : A -> bool) (l : list A) :
  (forall x, f x = false) -> filter f l = [].
Proof.
  intros H. induction l as [|x l IH]; simpl; [reflexivity|].
  now rewrite H.
Qed.

Lemma filter_and_sort_empty_range (transactions : list Transaction)
      (date_start date_stop : Date) :
  date_leb date_start date_stop = false ->
  filter_and_sort transactions date_start date_stop = [].
Proof.
  intros H. unfold filter_and_sort. rewrite filter_none; [reflexivity|].
  intros t.
  destruct (date_leb date_start (date t)) eqn:E1; [|reflexivity].
  destruct (date_leb (date t) date_stop) eqn:E2; [|reflexivity].
  rewrite (date_leb_trans _ _ _ E1 E2) in H. discriminate.
Qed.

(** C4 (the code's behaviour).  With a stop date before the start date no
    transaction is in the range, and [most_common()[0]] on the empty
    counter raises [IndexError]: no batch is returned. *)
Theorem beancount2datev_empty_range {floats : PyFloat}
        (entries : list directive)
        (conv : converter) :
  beancount2datev entries conv 2021
    (Some (mkdate 2021 6 1)) (Some (mkdate 2021 5 1))
  = (Raise IndexError, []).
Proof.
  assert (E : filter_and_sort (transactions_of entries)
                (mkdate 2021 6 1) (mkdate 2021 5 1) = []).
  { now apply filter_and_sort_empty_range. }
  unfold beancount2datev. simpl date_or_default. cbv beta iota.
  rewrite E. reflexivity.
Qed.

(** ** The loop of beancount2datev *)

Lemma date_or_default_OK (d : option Date) (y m dd : Z) (x : Date) :
  date_or_default d y m dd = OK x -> x = bound_or d (mkdate y m dd).
Proof.
  destruct d as [d0|]; simpl.
  - destruct (negb (year d0 =? y)%Z); intros H; now inversion H.
  - unfold datetime_date.
    repeat match goal with
           | |- (if ?c then _ else _) = _ -> _ => destruct c
           end; intros H; now inversion H.
Qed.

Lemma date_or_default_in_year (d : option Date) (y m dd : Z) :
  in_year y d = true ->
  datetime_date y m dd = OK (mkdate y m dd) ->
  date_or_default d y m dd = OK (bound_or d (mkdate y m dd)).
Proof.
  destruct d as [d0|]; simpl; intros H Hd; [now rewrite H | exact Hd].
Qed.

Lemma buchung_of_has_two {floats : PyFloat} (conv : converter) (dc : string)
      (t : Transaction)
      (row : Buchung) :
  buchung_of conv dc t = OK row -> has_two t = true.
Proof.
  unfold buchung_of, has_two.
  destruct (postings t) as [|p1 [|p2 [|p3 ps]]]; try discriminate.
  reflexivity.
Qed.

Lemma has_two_not_more (t : Transaction) :
  has_two t = true -> more_than_two t = false.
Proof.
  unfold has_two, more_than_two. intros H. apply Nat.eqb_eq in H.
  rewrite H. reflexivity.
Qed.

Lemma more_not_has_two (t : Transaction) :
  more_than_two t = true -> has_two t = false.
Proof.
  unfold has_two, more_than_two. intros H. apply Nat.ltb_lt in H.
  apply Nat.eqb_neq. lia.
Qed.

Lemma buchung_of_resolvable {floats : PyFloat} (conv : converter) (dc : string)
      (t : Transaction) :
  has_two t = true -> resolvable conv t = true ->
  exists row, buchung_of conv dc t = OK row.
Proof.
  unfold has_two, resolvable, buchung_of.
  destruct (postings t) as [|p1 [|p2 [|p3 ps]]]; try discriminate.
  intros _ H. cbn [forallb] in H.
  rewrite !andb_true_iff in H. destruct H as ((H1 & H2 & _) & Hn).
  destruct (narration t) as [text|]; [|discriminate].
  destruct (negative (float (number (units p1))));
    destruct (convert conv (account p1)); try discriminate;
    destruct (convert conv (account p2)); try discriminate;
    simpl; eauto.
Qed.

(** What a run of the loop that ends well has done: one row behind the
    other for the transactions of two postings, one warning for each
    transaction of more. *)
Lemma add_transactions_OK {floats : PyFloat} (conv : converter) (dc : string)
      (transactions : list Transaction) :
  forall b out b' out',
    add_transactions conv dc transactions b out = (OK b', out') ->
    exists rows,
      Forall2 (fun t row => buchung_of conv dc t = OK row)
        (filter has_two transactions) rows
      /\ data b' = data b ++ rows
      /\ waehrungskennzeichen b' = waehrungskennzeichen b
      /\ out' = out ++ repeat skip_warning
                         (List.length (filter more_than_two transactions)).
Proof.
  induction transactions as [|t rest IH]; intros b out b' out' H.
  - inversion H; subst. exists []. cbn.
    rewrite !app_nil_r. auto.
  - cbn [add_transactions] in H. cbn [filter].
    fold (more_than_two t) in H.
    destruct (more_than_two t) eqn:Hm.
    + rewrite (more_not_has_two _ Hm).
      destruct (IH _ _ _ _ H) as (rows & HF & Hd & Hw & Ho).
      exists rows. repeat (split; [assumption|]).
      rewrite Ho, <- app_assoc. reflexivity.
    + destruct (buchung_of conv dc t) as [row|e] eqn:Hrow; [|discriminate].
      rewrite (buchung_of_has_two _ _ _ _ Hrow).
      destruct (IH _ _ _ _ H) as (rows & HF & Hd & Hw & Ho).
      exists (row :: rows). split; [now constructor|].
      split; [rewrite Hd; simpl; now rewrite <- app_assoc|].
      split; assumption.
Qed.

Lemma add_transactions_total {floats : PyFloat} (conv : converter) (dc : string)
      (transactions : list Transaction) :
  forallb (fun t => more_than_two t || (has_two t && resolvable conv t))
    transactions = true ->
  forall b out,
    exists b' out', add_transactions conv dc transactions b out = (OK b', out').
Proof.
  induction transactions as [|t rest IH]; intros H b out.
  - simpl. eauto.
  - cbn [forallb] in H. apply andb_true_iff in H. destruct H as [Ht H].
    cbn [add_transactions]. fold (more_than_two t).
    destruct (more_than_two t); [now apply IH|].
    simpl in Ht. apply andb_true_iff in Ht. destruct Ht as [H2 Hr].
    destruct (buchung_of_resolvable conv dc t H2 Hr) as [row Hrow].
    rewrite Hrow. now apply IH.
Qed.

(** ** The default currency *)

Lemma counter_add_nonempty (c : list (string * nat)) (x : string) :
  counter_add c x <> [].
Proof.
  destruct c as [|[k n] c]; simpl; [discriminate|].
  destruct (String.eqb k x); discriminate.
Qed.

Lemma fold_counter_add_nonempty (l : list string) :
  forall c, c <> [] -> fold_left counter_add l c <> [].
Proof.
  induction l as [|z l IH]; intros c Hc; [exact Hc|].
  simpl. apply IH. apply counter_add_nonempty.
Qed.

Lemma Counter_nonempty (l : list string) : l <> [] -> Counter l <> [].
Proof.
  unfold Counter. destruct l as [|x l]; [contradiction|]. intros _.
  cbn [fold_left]. apply fold_counter_add_nonempty, counter_add_nonempty.
Qed.

Lemma find_currency_total (transactions : list Transaction) :
  transactions <> [] ->
  forallb (fun t => 1 <=? List.length (postings t)) transactions = true ->
  exists dc, find_currency transactions = OK dc.
Proof.
  intros Hne Hall. unfold find_currency.
  assert (exists cs, first_currencies transactions = OK cs /\ cs <> [])
    as (cs & Hcs & Hcne).
  { destruct transactions as [|t rest]; [contradiction|].
    clear Hne.
    assert (forall l, forallb (fun t => 1 <=? List.length (postings t)) l
                      = true ->
                      exists cs, first_currencies l = OK cs) as Hgen.
    { induction l as [|u l IH]; intros Hl; [simpl; eauto|].
      cbn [forallb] in Hl. apply andb_true_iff in Hl. destruct Hl as [Hu Hl].
      destruct (IH Hl) as [cs Hcs]. simpl.
      destruct (postings u); [discriminate|]. rewrite Hcs. simpl. eauto. }
    cbn [forallb] in Hall. apply andb_true_iff in Hall.
    destruct Hall as [Ht Hrest]. destruct (Hgen _ Hrest) as [cs Hcs].
    simpl. destruct (postings t) as [|p ps]; [discriminate|].
    rewrite Hcs. simpl. eexists. split; [reflexivity | discriminate]. }
  rewrite Hcs. cbn [bind].
  destruct (most_common (Counter cs)) as [|[dc n] more] eqn:E.
  - exfalso. revert E. apply sorted_nonempty. now apply Counter_nonempty.
  - eauto.
Qed.

(** ** beancount2datev as a whole *)

(** What a batch that was returned holds. *)
Lemma beancount2datev_OK {floats : PyFloat} (entries : list directive)
      (conv : converter)
      (y : Z) (date_start date_stop : option Date)
      (b : Buchungsstapel) (out : list string) :
  beancount2datev entries conv y date_start date_stop = (OK b, out) ->
  find_currency (selected entries y date_start date_stop)
  = OK (waehrungskennzeichen b)
  /\ Forall2 (fun t row => buchung_of conv (waehrungskennzeichen b) t = OK row)
       (filter has_two (selected entries y date_start date_stop)) (data b)
  /\ out = repeat skip_warning
             (List.length
                (filter more_than_two
                   (selected entries y date_start date_stop))).
Proof.
  unfold beancount2datev, selected. intros H.
  destruct (date_or_default date_start y 1 1) as [start|] eqn:Es;
    [|discriminate].
  destruct (date_or_default date_stop y 12 31) as [stop|] eqn:Ee;
    [|discriminate].
  apply date_or_default_OK in Es, Ee. subst start stop.
  destruct (find_currency _) as [dc|] eqn:Ec; [|discriminate].
  destruct (datetime_date y 1 1) as [beginn|]; [|discriminate].
  apply add_transactions_OK in H.
  destruct H as (rows & HF & Hd & Hw & Ho).
  simpl in Hd, Hw, Ho. subst rows. rewrite Hw. auto.
Qed.

(** When a batch is returned. *)
Lemma beancount2datev_total {floats : PyFloat} (entries : list directive)
      (conv : converter)
      (y : Z) (date_start date_stop : option Date) :
  valid_year y = true ->
  in_year y date_start = true ->
  in_year y date_stop = true ->
  selected entries y date_start date_stop <> [] ->
  forallb (fun t => more_than_two t || (has_two t && resolvable conv t))
    (selected entries y date_start date_stop) = true ->
  exists b out,
    beancount2datev entries conv y date_start date_stop = (OK b, out).
Proof.
  intros Hy Hs He Hne Hall.
  destruct (datetime_date_valid y Hy) as [H1 H2].
  unfold beancount2datev.
  rewrite (date_or_default_in_year _ _ _ _ Hs H1).
  rewrite (date_or_default_in_year _ _ _ _ He H2).
  fold (selected entries y date_start date_stop).
  destruct (find_currency_total _ Hne) as [dc Hdc].
  { eapply forallb_forall. intros t Ht.
    rewrite forallb_forall in Hall. specialize (Hall t Ht).
    unfold more_than_two, has_two in Hall.
    apply Nat.leb_le.
    apply orb_true_iff in Hall. destruct Hall as [Hm|H2'].
    - apply Nat.ltb_lt in Hm. lia.
    - apply andb_true_iff in H2'. destruct H2' as [H2' _].
      apply Nat.eqb_eq in H2'. lia. }
  rewrite Hdc, H1.
  apply add_transactions_total. exact Hall.
Qed.

(** C3, as the code has it.  Over a date range whose transactions all
    have two postings or more (and resolvable accounts where they have
    two), the conversion returns a batch: each transaction of more than
    two postings is skipped with one warning, and the rows are those of
    the transactions of exactly two postings, in their order. *)
Theorem beancount2datev_skips_more_than_two {floats : PyFloat}
        (entries : list directive)
        (conv : converter) (y : Z) (date_start date_stop : option Date) :
  valid_year y = true ->
  in_year y date_start = true ->
  in_year y date_stop = true ->
  selected entries y date_start date_stop <> [] ->
  forallb (fun t => more_than_two t || (has_two t && resolvable conv t))
    (selected entries y date_start date_stop) = true ->
  exists b out,
    beancount2datev entries conv y date_start date_stop = (OK b, out)
    /\ Forall2 (fun t row =>
                  buchung_of conv (waehrungskennzeichen b) t = OK row)
         (filter has_two (selected entries y date_start date_stop)) (data b)
    /\ List.length (data b)
       = List.length
           (filter has_two (selected entries y date_start date_stop))
    /\ out = repeat skip_warning
               (List.length
                  (filter more_than_two
                     (selected entries y date_start date_stop))).
Proof.
  intros Hy Hs He Hne Hall.
  destruct (beancount2datev_total entries conv y date_start date_stop
              Hy Hs He Hne Hall) as (b & out & H).
  exists b, out. split; [exact H|].
  destruct (beancount2datev_OK _ _ _ _ _ _ _ H) as (_ & HF & Ho).
  split; [exact HF|]. split; [|exact Ho].
  symmetry. eapply Forall2_length; eauto.
Qed.

(** Nine transactions of two postings and one of three: nine rows and
    one warning. *)
Lemma beancount2datev_nine_and_one :
  exists b out,
    beancount2datev nine_and_one sample_names 2021 None None = (OK b, out)
    /\ List.length (data b) = 9
    /\ out = [skip_warning].
Proof.
  destruct (beancount2datev_skips_more_than_two nine_and_one sample_names
              2021 None None eq_refl eq_refl eq_refl)
    as (b & out & H & _ & Hlen & Hout).
  - vm_compute. discriminate.
  - reflexivity.
  - exists b, out. split; [exact H|]. split; [exact Hlen | exact Hout].
Defined.

(** C3, as the claim has it, fails on a transaction of one posting: the
    unpacking [p1, p2 = t.postings] raises. *)
Lemma beancount2datev_single_posting_raises :
  has_two single_posting = false
  /\ beancount2datev [Txn (lunch 1); Txn single_posting; Txn (lunch 9)]
       sample_names 2021 None None
     = (Raise (ValueError "not enough values to unpack"), []).
Proof.
  split; reflexivity.
Qed.

(** ** The row of one transaction *)

Lemma slice_to_length (n : nat) (s : string) :
  String.length (slice_to n s) = Nat.min n (String.length s).
Proof.
  unfold slice_to. revert s.
  induction n as [|n IH]; intros s; destruct s as [|c s]; simpl; auto.
Qed.

Lemma slice_to_prefix (n : nat) (s : string) :
  String.prefix (slice_to n s) s = true.
Proof.
  unfold slice_to. revert s.
  induction n as [|n IH]; intros s; destruct s as [|c s]; simpl; auto.
  destruct (ascii_dec c c); [apply IH | contradiction].
Qed.

Lemma Forall2_In_l {A B : Type} (R : A -> B -> Prop) (l : list A)
      (l' : list B) (x : A) :
  Forall2 R l l' -> In x l -> exists y, In y l' /\ R x y.
Proof.
  induction 1 as [|a b l l' Hab _ IH]; intros Hin; [destruct Hin|].
  destruct Hin as [->|Hin].
  - exists b. split; [now left | exact Hab].
  - destruct (IH Hin) as (y & Hy & HR). exists y. split; [now right | exact HR].
Qed.

Lemma In_transactions_of (entries : list directive) (t : Transaction) :
  In t (transactions_of entries) <-> In (Txn t) entries.
Proof.
  induction entries as [|e entries IH]; simpl; [tauto|].
  destruct e as [u| |]; simpl; rewrite IH.
  - split; intros [H|H]; auto; left; congruence.
  - split; [auto | intros [H|H]; [discriminate | auto]].
  - split; [auto | intros [H|H]; [discriminate | auto]].
Qed.

Lemma In_filter_and_sort (transactions : list Transaction)
      (date_start date_stop : Date) (t : Transaction) :
  In t (filter_and_sort transactions date_start date_stop)
  <-> In t transactions
      /\ date_leb date_start (date t) = true
      /\ date_leb (date t) date_stop = true.
Proof.
  unfold filter_and_sort.
  rewrite <- andb_true_iff,
    <- (filter_In (fun t => date_leb date_start (date t)
                            && date_leb (date t) date_stop)).
  split; apply Permutation_in;
    [apply Permutation_sym |]; apply sorted_perm.
Qed.

(** C5, as the code has it.  A transaction of the date range with two
    postings of which exactly one is negative, both amounts being numbers
    that [float()] gives back as they are, has a row in the batch: the
    negative posting is the counter (credit) side whatever the order of
    the two, the amount is the absolute value of the debit posting's, the
    sign indicator is ['S'], the text is the first 60 characters of the
    narration, and the currency field is set exactly when the debit
    posting's currency is not the default currency of the batch. *)
Theorem beancount2datev_row {floats : PyFloat} (entries : list directive)
        (conv : converter) (y : Z) (date_start date_stop : option Date)
        (b : Buchungsstapel) (out : list string)
        (t : Transaction) (pa pb : Posting) :
  beancount2datev entries conv y date_start date_stop = (OK b, out) ->
  In (Txn t) entries ->
  date_leb (bound_or date_start (mkdate y 1 1)) (date t) = true ->
  date_leb (date t) (bound_or date_stop (mkdate y 12 31)) = true ->
  postings t = [pa; pb] ->
  xorb (number (units pa) <? 0)%Z (number (units pb) <? 0)%Z = true ->
  float (number (units pa)) = Zahl (number (units pa)) ->
  float (number (units pb)) = Zahl (number (units pb)) ->
  exists row debit credit text,
    In row (data b)
    /\ Permutation [debit; credit] [pa; pb]
    /\ (number (units credit) < 0)%Z
    /\ convert conv (account debit) = OK (konto row)
    /\ convert conv (account credit) = OK (gegenkonto row)
    /\ umsatz row = Zahl (Z.abs (number (units debit)))
    /\ soll_haben row = "S"
    /\ belegdatum row = date t
    /\ narration t = Some text
    /\ buchungstext row = Some (slice_to 60 text)
    /\ String.length (slice_to 60 text) = Nat.min 60 (String.length text)
    /\ String.prefix (slice_to 60 text) text = true
    /\ find_currency (selected entries y date_start date_stop)
       = OK (waehrungskennzeichen b)
    /\ ((wkz_umsatz row = Some (currency (units debit))
         /\ currency (units debit) <> waehrungskennzeichen b)
        \/ (wkz_umsatz row = None
            /\ currency (units debit) = waehrungskennzeichen b)).
Proof.
  intros H Hin Hlo Hhi Hps Hneg Hfa Hfb.
  destruct (beancount2datev_OK _ _ _ _ _ _ _ H) as (Hcur & HF & _).
  assert (Hsel : In t (filter has_two (selected entries y date_start
                                         date_stop))).
  { apply filter_In. split.
    - unfold selected. apply In_filter_and_sort.
      rewrite In_transactions_of. auto.
    - unfold has_two. now rewrite Hps. }
  destruct (Forall2_In_l _ _ _ _ HF Hsel) as (row & Hrow & Hb).
  unfold buchung_of in Hb. rewrite Hps in Hb.
  assert (Hcase :
            exists debit credit,
              (if negative (float (number (units pa)))
               then (pb, pa) else (pa, pb))
              = (debit, credit)
              /\ Permutation [debit; credit] [pa; pb]
              /\ (number (units credit) < 0)%Z
              /\ float (number (units debit))
                 = Zahl (Z.abs (number (units debit)))).
  { rewrite Hfa. cbn [negative].
    destruct (Z.ltb_spec (number (units pa)) 0);
      destruct (Z.ltb_spec (number (units pb)) 0); try discriminate.
    - exists pb, pa. repeat split; auto; [apply perm_swap|].
      rewrite Hfb. f_equal. symmetry. now apply Z.abs_eq.
    - exists pa, pb. repeat split; auto.
      rewrite Hfa. f_equal. symmetry. now apply Z.abs_eq. }
  destruct Hcase as (debit & credit & Hsw & Hperm & Hcneg & Hdabs).
  rewrite Hsw in Hb.
  inv_bind Hb. inv_bind Hb.
  destruct (narration t) as [text|]; [|discriminate].
  inversion Hb; subst row; clear Hb.
  eexists. exists debit, credit, text. cbn.
  split; [exact Hrow|].
  repeat (split; [first [assumption | reflexivity]|]).
  split; [apply slice_to_length|].
  split; [apply slice_to_prefix|].
  split; [exact Hcur|].
  destruct (String.eqb_spec (currency (units debit))
              (waehrungskennzeichen b)); [right | left]; auto.
Qed.

Lemma beancount2datev_row_lunch :
  exists b out row,
    beancount2datev nine_and_one sample_names 2021 None None = (OK b, out)
    /\ In row (data b)
    /\ konto row = "4650" /\ gegenkonto row = "1200"
    /\ umsatz row = Zahl 1250 /\ soll_haben row = "S"
    /\ belegdatum row = mkdate 2021 3 7
    /\ buchungstext row = Some "Lunch"
    /\ (wkz_umsatz row = None <-> waehrungskennzeichen b = "EUR").
Proof.
  destruct nine_and_one_converts as (b & out & Hrun).
  exists b, out.
  destruct (beancount2datev_row nine_and_one sample_names 2021 None None
              b out (lunch 7)
              (posting "Expenses:Food" 1250 "EUR")
              (posting "Assets:Bank" (-1250) "EUR") Hrun)
    as (row & debit & credit & text & Hin & Hperm & Hneg & Hk & Hgk
        & Hu & Hs & Hd & Hn & Ht & _ & _ & _ & Hw);
    try reflexivity.
  - simpl. auto 10.
  - assert (debit = posting "Expenses:Food" 1250 "EUR"
            /\ credit = posting "Assets:Bank" (-1250) "EUR") as [-> ->].
    { apply Permutation_length_2_inv in Hperm.
      destruct Hperm as [E|E]; inversion E; subst; simpl in Hneg;
        [auto | lia]. }
    exists row. split; [exact Hrun|]. split; [exact Hin|].
    simpl in Hk, Hgk, Hu, Hn, Hw. inversion Hk; inversion Hgk; inversion Hn.
    subst text. simpl in Ht.
    repeat (split; [first [assumption | reflexivity | congruence]|]).
    destruct Hw as [[Hw Hne]|[Hw He]]; split; congruence.
Defined.

(** C5, as the claim has it, fails on an amount of eighteen digits,
    which [float()] rounds: the row holds the float, which [str()] shows as
    1234567890123456.8, not the absolute value 1234567890123456.78 of the
    debit posting's amount. *)
Lemma beancount2datev_row_rounded :
  postings machine_purchase
  = [posting "Expenses:Food" 123456789012345678 "EUR";
     posting "Assets:Bank" (-123456789012345678) "EUR"]
  /\ exists row,
       beancount2datev [Txn machine_purchase] sample_names 2021 None None
       = (OK (mkBuchungsstapel 1001 1 (mkdate 2021 1 1) 4 (mkdate 2021 1 1)
                (mkdate 2021 12 31) "EUR" [row]), [])
       /\ konto row = "4650" /\ gegenkonto row = "1200"
       /\ umsatz row = Zahl 123456789012345680
       /\ umsatz row <> Zahl (Z.abs 123456789012345678).
Proof.
  split; [reflexivity|].
  eexists. split; [vm_compute; reflexivity|].
  cbn. repeat split. discriminate.
Qed.

(** ** datev2beancount *)

Lemma transaction_of_entry_OK {datev_file : feld} (conv : converter)
      (dc fl py : string)
      (md : PyDict.items string) (row : Buchung) :
  unsigned_and_resolved conv row = true ->
  exists k gk,
    convert conv (konto row) = OK k
    /\ convert conv (gegenkonto row) = OK gk
    /\ transaction_of_entry datev_file conv dc fl (Some md) py row
       = OK (mkTransaction
               (new_metadata datev_file FNone (collect_metadata row md []))
               (belegdatum row) fl py (buchungstext row)
               (let amount := if String.eqb (soll_haben row) "S"
                              then wert (umsatz row)
                              else (- wert (umsatz row))%Z in
                let cur := match wkz_umsatz row with
                           | Some c => c
                           | None => dc
                           end in
                [mkPosting k (mkAmount amount cur);
                 mkPosting gk (mkAmount (- amount)%Z cur)])).
Proof.
  unfold unsigned_and_resolved. intros H.
  rewrite !andb_true_iff in H. destruct H as ((Hk & Hgk) & Hu).
  apply negb_true_iff in Hu. unfold transaction_of_entry.
  destruct (convert conv (konto row)) as [k|]; [|discriminate].
  destruct (convert conv (gegenkonto row)) as [gk|]; [|discriminate].
  exists k, gk. split; [reflexivity|]. split; [reflexivity|].
  cbn [bind]. rewrite !D_signed_unsigned by assumption. cbn [bind].
  destruct (String.eqb (soll_haben row) "S"); cbn.
  - reflexivity.
  - now rewrite Z.opp_involutive.
Qed.

Lemma transactions_of_entries_OK {datev_file : feld} (conv : converter)
      (dc fl py : string)
      (md : PyDict.items string) (rows : list Buchung) :
  forallb (unsigned_and_resolved conv) rows = true ->
  exists txns,
    transactions_of_entries datev_file conv dc fl (Some md) py rows = OK txns
    /\ Forall2 (fun row txn =>
                  transaction_of_entry datev_file conv dc fl (Some md) py row
                  = OK txn)
         rows txns.
Proof.
  induction rows as [|row rows IH]; intros H.
  - exists []. split; [reflexivity | constructor].
  - cbn [forallb] in H. apply andb_true_iff in H. destruct H as [Hr H].
    destruct (IH H) as (txns & Ht & HF).
    destruct (transaction_of_entry_OK (datev_file := datev_file)
                conv dc fl py md row Hr)
      as (k & gk & _ & _ & Hrow).
    cbn [transactions_of_entries]. rewrite Hrow, Ht. cbn [bind].
    eexists. split; [reflexivity|]. constructor; assumption.
Qed.

(** C6.  Each row gives a transaction of two postings: the primary one
    with the unsigned amount, positive when the sign indicator is ['S']
    and negative otherwise, the counter one with the exact negation, both
    in the row's own currency when it has one and in the currency of the
    batch header otherwise; and the list returned is in ascending order of
    date whatever the order of the rows. *)
Theorem datev2beancount_postings {datev_file : feld} (b : Buchungsstapel)
        (conv : converter)
        (flag_ payee_ : string) (md : PyDict.items string) :
  forallb (unsigned_and_resolved conv) (data b) = true ->
  exists txns unsorted,
    datev2beancount datev_file b conv flag_ (Some md) payee_ = OK txns
    /\ date_ordered txns
    /\ Permutation unsorted txns
    /\ Forall2
         (fun row txn =>
            exists k gk,
              convert conv (konto row) = OK k
              /\ convert conv (gegenkonto row) = OK gk
              /\ date txn = belegdatum row
              /\ postings txn
                 = (let amount := if String.eqb (soll_haben row) "S"
                                  then wert (umsatz row)
                                  else (- wert (umsatz row))%Z in
                    let cur := match wkz_umsatz row with
                               | Some c => c
                               | None => waehrungskennzeichen b
                               end in
                    [mkPosting k (mkAmount amount cur);
                     mkPosting gk (mkAmount (- amount)%Z cur)]))
         (data b) unsorted.
Proof.
  intros H.
  destruct (transactions_of_entries_OK (datev_file := datev_file)
              conv (waehrungskennzeichen b)
              flag_ payee_ md (data b) H) as (unsorted & Hu & HF).
  exists (sorted by_date unsorted), unsorted.
  split; [unfold datev2beancount; rewrite Hu; reflexivity|].
  split; [apply (sorted_StronglySorted by_date by_date_total by_date_trans)|].
  split; [apply sorted_perm|].
  rewrite forallb_forall in H.
  clear Hu. induction HF as [|row txn rows txns Hrow HF IH];
    constructor.
  - destruct (transaction_of_entry_OK (datev_file := datev_file)
                conv (waehrungskennzeichen b)
                flag_ payee_ md row) as (k & gk & Hk & Hgk & Ht).
    { apply H. now left. }
    exists k, gk. rewrite Ht in Hrow. inversion Hrow; subst txn. auto.
  - apply IH. intros r Hr. apply H. now right.
Qed.

Lemma datev2beancount_postings_unsorted :
  datev2beancount FObjekt unsorted_batch sample_numbers "txn"
    (Some [("Belegfeld 1", "belegnummer")]) ""
  = OK [mkTransaction [("filename", FObjekt); ("lineno", FNone)]
          (mkdate 2021 3 2) "txn" "" (Some "Lunch")
          [posting "Expenses:Food" 1250 "EUR";
           posting "Assets:Bank" (-1250) "EUR"];
        mkTransaction
          [("filename", FObjekt); ("lineno", FNone);
           ("belegnummer", FText "R-17")]
          (mkdate 2021 3 9) "txn" "" (Some "Refund")
          [posting "Assets:Bank" (-11800) "USD";
           posting "Income:Sales" 11800 "USD"]]
  /\ exists txns unsorted,
       datev2beancount FObjekt unsorted_batch sample_numbers "txn"
         (Some [("Belegfeld 1", "belegnummer")]) "" = OK txns
       /\ date_ordered txns
       /\ Permutation unsorted txns
       /\ List.length unsorted = 2.
Proof.
  split; [reflexivity|].
  destruct (datev2beancount_postings (datev_file := FObjekt)
              unsorted_batch sample_numbers "txn" ""
              [("Belegfeld 1", "belegnummer")] eq_refl)
    as (txns & unsorted & H & Hs & Hp & HF).
  exists txns, unsorted. repeat (split; [assumption|]).
  apply Forall2_length in HF. now rewrite <- HF.
Defined.

(** ** Ledger to batch and back *)

Lemma resolves_back_OK (conv inv : converter) (a : string) :
  resolves_back conv inv a = true ->
  exists n, convert conv a = OK n /\ convert inv n = OK a.
Proof.
  unfold resolves_back.
  destruct (convert conv a) as [n|]; [|discriminate].
  destruct (convert inv n) as [a'|] eqn:E; [|discriminate].
  intros H. apply String.eqb_eq in H. subst a'. eauto.
Qed.

Lemma balanced_pair_resolvable (conv inv : converter) (t : Transaction) :
  balanced_pair conv inv t = true ->
  has_two t = true /\ resolvable conv t = true.
Proof.
  unfold balanced_pair, has_two, resolvable.
  destruct (postings t) as [|p [|q [|r ps]]]; try discriminate.
  destruct (narration t); [|discriminate].
  rewrite !andb_true_iff. intros (((_ & _) & Hp) & Hq).
  apply resolves_back_OK in Hp, Hq.
  destruct Hp as (n & Hp & _), Hq as (m & Hq & _).
  cbn. rewrite Hp, Hq. auto.
Qed.

Lemma In_selected (entries : list directive) (y : Z)
      (date_start date_stop : option Date) (t : Transaction) :
  In t (selected entries y date_start date_stop)
  <-> In (Txn t) entries /\ in_range y date_start date_stop t = true.
Proof.
  unfold selected, in_range.
  rewrite In_filter_and_sort, In_transactions_of, andb_true_iff. tauto.
Qed.

Lemma row_of_selected {floats : PyFloat} (entries : list directive)
      (conv : converter) (y : Z)
      (date_start date_stop : option Date) (b : Buchungsstapel)
      (out : list string) (t : Transaction) :
  beancount2datev entries conv y date_start date_stop = (OK b, out) ->
  In (Txn t) entries ->
  in_range y date_start date_stop t = true ->
  has_two t = true ->
  exists row,
    In row (data b) /\ buchung_of conv (waehrungskennzeichen b) t = OK row.
Proof.
  intros H Hin Hr H2.
  destruct (beancount2datev_OK _ _ _ _ _ _ _ H) as (_ & HF & _).
  apply (Forall2_In_l _ _ _ _ HF).
  apply filter_In. split; [|exact H2]. apply In_selected. auto.
Qed.

Lemma transactions_of_entries_Forall2 {datev_file : feld} (conv : converter)
      (dc fl py : string)
      (metadata : option (PyDict.items string)) (rows : list Buchung) :
  forall txns,
    transactions_of_entries datev_file conv dc fl metadata py rows = OK txns ->
    Forall2 (fun row txn =>
               transaction_of_entry datev_file conv dc fl metadata py row
               = OK txn)
      rows txns.
Proof.
  induction rows as [|row rows IH]; intros txns H.
  - inversion H. constructor.
  - cbn [transactions_of_entries] in H. inv_bind H. inv_bind H.
    inversion H; subst. constructor; auto.
Qed.

Lemma datev2beancount_OK {datev_file : feld} (b : Buchungsstapel)
      (conv : converter)
      (fl py : string) (metadata : option (PyDict.items string))
      (txns : list Transaction) :
  datev2beancount datev_file b conv fl metadata py = OK txns ->
  exists unsorted,
    Forall2 (fun row txn =>
               transaction_of_entry datev_file conv (waehrungskennzeichen b) fl
                 metadata py row = OK txn)
      (data b) unsorted
    /\ txns = sorted by_date unsorted.
Proof.
  unfold datev2beancount. intros H. inv_bind H. inversion H; subst.
  exists a. split; [|reflexivity].
  now apply transactions_of_entries_Forall2.
Qed.

Lemma betrag_eqb_eq (x y : betrag) : betrag_eqb x y = true -> x = y.
Proof.
  destruct x as [v|], y as [w|]; simpl; try discriminate; [|reflexivity].
  intros H. apply Z.eqb_eq in H. now subst.
Qed.

(** One transaction, to its row and back. *)
Lemma roundtrip_one {floats : PyFloat} (datev_file : feld)
      (conv inv : converter) (dc fl py : string)
      (md : PyDict.items string) (t : Transaction) (row : Buchung) :
  balanced_pair conv inv t = true ->
  exact_amounts t = true ->
  buchung_of conv dc t = OK row ->
  exists t',
    transaction_of_entry datev_file inv dc fl (Some md) py row = OK t'
    /\ date t' = date t
    /\ Permutation (postings t') (postings t).
Proof.
  unfold balanced_pair, exact_amounts, buchung_of.
  destruct (postings t) as [|p [|q [|r ps]]]; try discriminate.
  destruct (narration t) as [text|]; [|discriminate].
  rewrite !andb_true_iff. intros (((Hn & Hc) & Hp) & Hq) Hex.
  cbn [forallb] in Hex. rewrite !andb_true_iff in Hex.
  destruct Hex as (Hxp & Hxq & _).
  apply betrag_eqb_eq in Hxp, Hxq.
  apply Z.eqb_eq in Hn. apply String.eqb_eq in Hc.
  apply resolves_back_OK in Hp, Hq.
  destruct Hp as (np & Hp & Hp'), Hq as (nq & Hq & Hq').
  destruct p as [ap [xp cp]], q as [aq [xq cq]]. cbn in *. subst xq cq.
  rewrite Hxp. cbn [negative].
  destruct (Z.ltb_spec xp 0) as [Hneg|Hpos]; cbn;
    rewrite Hp, Hq; cbn; intros E; inversion E; subst row; clear E;
    unfold transaction_of_entry; cbn;
    rewrite ?Hp', ?Hq'; cbn; rewrite ?Hxp, ?Hxq;
    unfold D_signed; cbn.
  - destruct (Z.ltb_spec (- xp) 0) as [?|_]; [lia|].
    eexists. split; [reflexivity|]. cbn. split; [reflexivity|].
    rewrite Z.opp_involutive.
    destruct (String.eqb_spec cp dc) as [->|_]; apply perm_swap.
  - destruct (Z.ltb_spec xp 0) as [?|_]; [lia|].
    eexists. split; [reflexivity|]. cbn. split; [reflexivity|].
    destruct (String.eqb_spec cp dc) as [->|_]; apply Permutation_refl.
Qed.

Lemma StronglySorted_filter {A : Type} (R : A -> A -> Prop) (f : A -> bool)
      (l : list A) :
  StronglySorted R l -> StronglySorted R (filter f l).
Proof.
  induction 1 as [|x l Hl IH Hx]; simpl; [constructor|].
  destruct (f x); [|exact IH].
  constructor; [exact IH|].
  rewrite Forall_forall in *. intros y Hy.
  apply filter_In in Hy. apply Hx. tauto.
Qed.

Lemma date_ordered_transfer (l l' : list Transaction) :
  Forall2 (fun t t' => date t' = date t) l l' ->
  date_ordered l -> date_ordered l'.
Proof.
  unfold date_ordered.
  induction 1 as [|t t' l l' Ht HF IH]; intros Hs; [constructor|].
  inversion Hs as [|? ? Hl Hx]; subst.
  constructor; [auto|].
  clear IH Hs Hl. induction HF as [|u u' l l' Hu HF IH]; [constructor|].
  inversion Hx; subst. constructor; [|auto].
  now rewrite Ht, Hu.
Qed.

Lemma roundtrip_rows {floats : PyFloat} (datev_file : feld)
      (conv inv : converter) (dc fl py : string)
      (md : PyDict.items string) (l : list Transaction)
      (rows : list Buchung) :
  Forall (fun t => balanced_pair conv inv t && exact_amounts t = true) l ->
  Forall2 (fun t row => buchung_of conv dc t = OK row) l rows ->
  exists txns,
    transactions_of_entries datev_file inv dc fl (Some md) py rows = OK txns
    /\ Forall2 (fun t t' => date t' = date t
                            /\ Permutation (postings t') (postings t))
         l txns.
Proof.
  intros Hb HF. induction HF as [|t row l rows Hrow HF IH].
  - exists []. split; [reflexivity | constructor].
  - inversion Hb as [|? ? Ht Hl]; subst.
    apply andb_true_iff in Ht. destruct Ht as [Ht Hx].
    destruct (IH Hl) as (txns & Htx & HF').
    destruct (roundtrip_one datev_file conv inv dc fl py md t row Ht Hx Hrow)
      as (t' & Ht' & Hd & Hp).
    exists (t' :: txns). cbn [transactions_of_entries].
    rewrite Ht', Htx. split; [reflexivity|]. constructor; auto.
Qed.

Lemma mixed_ledger_converts :
  exists b out txns,
    beancount2datev mixed_ledger sample_names 2021 None None = (OK b, out)
    /\ datev2beancount FObjekt b sample_numbers "*" (Some []) "" = OK txns.
Proof.
  eexists. eexists. eexists. split; vm_compute; reflexivity.
Qed.

(** C1, as the code has it.  When both conversions return, a
    transaction of the date range with two postings of equal magnitude and
    opposite sign in one currency, with amounts that [float()] gives back
    as they are, on accounts the two tables are inverse on, comes back as
    a transaction of the same date with the same postings (account, signed
    amount, currency) up to the order of the two, hence the same account
    names.  Both conversions do return over a date range in which every
    transaction has more than two postings or is such a pair, and then
    these come back in their order. *)
Theorem ledger_batch_ledger {floats : PyFloat} (datev_file : feld)
        (entries : list directive) (conv inv : converter)
        (y : Z) (date_start date_stop : option Date)
        (flag_ payee_ : string) (md : PyDict.items string) :
  (forall b out txns t,
      beancount2datev entries conv y date_start date_stop = (OK b, out) ->
      datev2beancount datev_file b inv flag_ (Some md) payee_ = OK txns ->
      In (Txn t) entries ->
      in_range y date_start date_stop t = true ->
      balanced_pair conv inv t = true ->
      exact_amounts t = true ->
      exists t',
        In t' txns
        /\ date t' = date t
        /\ Permutation (postings t') (postings t)
        /\ Permutation (map account (postings t'))
             (map account (postings t)))
  /\ (valid_year y = true ->
      in_year y date_start = true ->
      in_year y date_stop = true ->
      selected entries y date_start date_stop <> [] ->
      forallb (fun t => more_than_two t
                        || (balanced_pair conv inv t && exact_amounts t))
        (selected entries y date_start date_stop) = true ->
      exists b out txns,
        beancount2datev entries conv y date_start date_stop = (OK b, out)
        /\ datev2beancount datev_file b inv flag_ (Some md) payee_ = OK txns
        /\ Forall2 (fun t t' =>
                      date t' = date t
                      /\ Permutation (postings t') (postings t)
                      /\ Permutation (map account (postings t'))
                           (map account (postings t)))
             (filter has_two (selected entries y date_start date_stop))
             txns).
Proof.
  split.
  - intros b out txns t Hrun Hback Hin Hr Hbal Hex.
    destruct (balanced_pair_resolvable _ _ _ Hbal) as [H2 _].
    destruct (row_of_selected _ _ _ _ _ _ _ _ Hrun Hin Hr H2)
      as (row & Hrow & Hb).
    destruct (datev2beancount_OK _ _ _ _ _ _ Hback)
      as (unsorted & HF & ->).
    destruct (Forall2_In_l _ _ _ _ HF Hrow) as (t1 & Ht1 & Hrt).
    destruct (roundtrip_one datev_file conv inv (waehrungskennzeichen b)
                flag_ payee_ md t row Hbal Hex Hb) as (t' & Ht' & Hd & Hp).
    rewrite Ht' in Hrt. inversion Hrt; subst t1.
    exists t'. split.
    + eapply Permutation_in; [apply sorted_perm | exact Ht1].
    + split; [exact Hd|]. split; [exact Hp|]. now apply Permutation_map.
  - intros Hy Hs He Hne Hall.
    assert (Hall' : forallb (fun t => more_than_two t
                                      || (has_two t && resolvable conv t))
                      (selected entries y date_start date_stop) = true).
    { rewrite forallb_forall in *. intros t Ht. specialize (Hall t Ht).
      apply orb_true_iff in Hall. apply orb_true_iff.
      destruct Hall as [Hm|Hb]; [now left | right].
      apply andb_true_iff in Hb. destruct Hb as [Hb _].
      apply balanced_pair_resolvable in Hb. apply andb_true_iff. exact Hb. }
    destruct (beancount2datev_total entries conv y date_start date_stop
                Hy Hs He Hne Hall') as (b & out & H).
    destruct (beancount2datev_OK _ _ _ _ _ _ _ H) as (_ & HF & _).
    assert (Hbal : Forall (fun t => balanced_pair conv inv t
                                    && exact_amounts t = true)
                     (filter has_two
                        (selected entries y date_start date_stop))).
    { apply Forall_forall. intros t Ht. apply filter_In in Ht.
      destruct Ht as [Ht H2]. rewrite forallb_forall in Hall.
      specialize (Hall t Ht). rewrite (has_two_not_more t H2) in Hall.
      exact Hall. }
    destruct (roundtrip_rows datev_file conv inv (waehrungskennzeichen b)
                flag_ payee_ md _ _ Hbal HF) as (txns & Htx & HR).
    exists b, out, txns. split; [exact H|]. split.
    + unfold datev2beancount. rewrite Htx. cbn [bind]. f_equal.
      apply (sorted_fixed by_date).
      apply (date_ordered_transfer
               (filter has_two (selected entries y date_start date_stop))).
      * eapply Forall2_impl; [|exact HR]. intros ? ? [E _]. exact E.
      * apply StronglySorted_filter.
        apply (sorted_StronglySorted by_date by_date_total by_date_trans).
    + eapply Forall2_impl; [|exact HR].
      intros t t' [Hd Hp]. split; [exact Hd|]. split; [exact Hp|].
      now apply Permutation_map.
Qed.

(** A ledger in which the lunch stands next to a transaction of two
    debits and one of three postings; and the nine lunches. *)
Lemma ledger_batch_ledger_lunches :
  (exists b out txns t',
      beancount2datev mixed_ledger sample_names 2021 None None = (OK b, out)
      /\ datev2beancount FObjekt b sample_numbers "*" (Some []) "" = OK txns
      /\ In t' txns
      /\ date t' = mkdate 2021 3 1
      /\ Permutation (postings t') (postings (lunch 1))
      /\ Permutation (map account (postings t'))
           ["Expenses:Food"; "Assets:Bank"])
  /\ exists b out txns,
       beancount2datev nine_and_one sample_names 2021 None None = (OK b, out)
       /\ datev2beancount FObjekt b sample_numbers "*" (Some []) "" = OK txns
       /\ Forall2 (fun t t' =>
                     date t' = date t
                     /\ Permutation (postings t') (postings t)
                     /\ Permutation (map account (postings t'))
                          (map account (postings t)))
            (map lunch [1; 2; 3; 4; 5; 6; 7; 8; 9]%Z) txns.
Proof.
  split.
  - destruct mixed_ledger_converts as (b & out & txns & Hrun & Hback).
    destruct (proj1 (ledger_batch_ledger FObjekt mixed_ledger sample_names
                       sample_numbers 2021 None None "*" "" [])
                b out txns (lunch 1) Hrun Hback)
      as (t' & Hin & Hd & Hp & Ha).
    + simpl. auto.
    + reflexivity.
    + reflexivity.
    + reflexivity.
    + exists b, out, txns, t'. auto 10.
  - apply (proj2 (ledger_batch_ledger FObjekt nine_and_one sample_names
                    sample_numbers 2021 None None "*" "" [])
             eq_refl eq_refl eq_refl).
    + vm_compute. discriminate.
    + reflexivity.
Defined.

(** C1, as the claim has it, fails in three places.  Where the two
    postings are in different currencies: the row has one currency field,
    and the counter posting comes back in the currency of the primary one.
    Where an amount has more digits than a float holds: it comes back
    rounded.  Where another transaction of the range makes the conversion
    raise: nothing comes back. *)
Lemma ledger_batch_ledger_two_currencies :
  (resolves_back sample_names sample_numbers "Assets:Bank" = true
   /\ resolves_back sample_names sample_numbers "Income:Sales" = true
   /\ postings priced_purchase
      = [posting "Assets:Bank" 10000 "EUR";
         posting "Income:Sales" (-10000) "USD"]
   /\ exists b t',
       beancount2datev [Txn priced_purchase] sample_names 2021 None None
       = (OK b, [])
       /\ datev2beancount FObjekt b sample_numbers "*" (Some []) ""
          = OK [t']
       /\ postings t'
          = [posting "Assets:Bank" 10000 "EUR";
             posting "Income:Sales" (-10000) "EUR"]
       /\ ~ Permutation (postings t') (postings priced_purchase))
  /\ (balanced_pair sample_names sample_numbers machine_purchase = true
      /\ exists b t',
          beancount2datev [Txn machine_purchase] sample_names 2021 None None
          = (OK b, [])
          /\ datev2beancount FObjekt b sample_numbers "*" (Some []) ""
             = OK [t']
          /\ postings t'
             = [posting "Expenses:Food" 123456789012345680 "EUR";
                posting "Assets:Bank" (-123456789012345680) "EUR"]
          /\ ~ Permutation (postings t') (postings machine_purchase))
  /\ (balanced_pair sample_names sample_numbers (lunch 1) = true
      /\ exact_amounts (lunch 1) = true
      /\ beancount2datev [Txn (lunch 1); Txn single_posting] sample_names
           2021 None None
         = (Raise (ValueError "not enough values to unpack"), [])).
Proof.
  split; [|split].
  - split; [reflexivity|]. split; [reflexivity|]. split; [reflexivity|].
    eexists. eexists. split; [reflexivity|]. split; [reflexivity|].
    split; [reflexivity|].
    intros Hp. apply Permutation_sym in Hp.
    assert (Hin : In (posting "Income:Sales" (-10000) "USD")
                    (postings priced_purchase)) by (simpl; auto).
    apply (Permutation_in _ Hp) in Hin. simpl in Hin.
    destruct Hin as [E|[E|[]]]; discriminate E.
  - split; [reflexivity|].
    eexists. eexists. split; [vm_compute; reflexivity|].
    split; [vm_compute; reflexivity|].
    split; [reflexivity|].
    intros Hp. apply Permutation_sym in Hp.
    assert (Hin : In (posting "Expenses:Food" 123456789012345678 "EUR")
                    (postings machine_purchase)) by (simpl; auto).
    apply (Permutation_in _ Hp) in Hin. simpl in Hin.
    destruct Hin as [E|[E|[]]]; discriminate E.
  - split; [reflexivity|]. split; reflexivity.
Qed.

(** ** Wildcard expansion: malformed and plain patterns *)

Lemma expand_position_invalid (account_number : string) (k : nat)
      (ch : ascii) (s : list ascii) (p : list ascii)
      (prefixes : list (list ascii)) :
  List.length p = k ->
  pattern_char ch = false ->
  expand_position account_number k
    (map (fun p => p ++ ch :: s) (p :: prefixes))
  = Raise (IOError account_number).
Proof.
  intros Hk Hch. cbn [map expand_position]. unfold expand_at. subst k.
  rewrite nth_error_middle.
  unfold pattern_char in Hch. apply orb_false_iff in Hch.
  destruct Hch as [Hd Ha]. rewrite Hd, Ha. reflexivity.
Qed.

Lemma expand_positions_invalid (account_number : string) (s : list ascii) :
  forallb pattern_char s = false ->
  forall (k : nat) (prefixes : list (list ascii)),
    prefixes <> [] ->
    Forall (fun p => List.length p = k) prefixes ->
    expand_positions account_number (seq k (List.length s))
      (map (fun p => p ++ s) prefixes)
    = Raise (IOError account_number).
Proof.
  induction s as [|ch s IH]; intros Hs k prefixes Hne Hlen; [discriminate|].
  cbn [forallb] in Hs.
  change (seq k (List.length (ch :: s)))
    with (k :: seq (S k) (List.length s)).
  cbn [expand_positions].
  destruct (pattern_char ch) eqn:Hch.
  - cbn [andb] in Hs.
    destruct (isdigit ch) eqn:Hd.
    + rewrite (expand_position_digit account_number k ch s prefixes Hlen Hd).
      cbn [bind].
      replace (map (fun p => p ++ ch :: s) prefixes)
        with (map (fun p => p ++ s) (map (fun p => p ++ [ch]) prefixes)).
      2:{ rewrite map_map. apply map_ext. intros p.
          now rewrite <- app_assoc. }
      apply (IH Hs (S k)).
      * destruct prefixes; [contradiction | discriminate].
      * apply Forall_map. eapply Forall_impl; [|exact Hlen].
        simpl. intros p Hp. rewrite length_app. simpl. lia.
    + unfold pattern_char in Hch. rewrite Hd in Hch. simpl in Hch.
      apply Ascii.eqb_eq in Hch. subst ch.
      rewrite (expand_position_asterisk account_number k s prefixes Hlen).
      cbn [bind].
      replace (flat_map (fun p => map (fun d => p ++ d :: s) decimal_digits)
                 prefixes)
        with (map (fun p => p ++ s)
                (flat_map (fun p => map (fun d => p ++ [d]) decimal_digits)
                   prefixes)).
      2:{ rewrite map_flat_map. apply flat_map_ext. intros p.
          rewrite map_map. apply map_ext. intros d.
          now rewrite <- app_assoc. }
      apply (IH Hs (S k)).
      * destruct prefixes; [contradiction | discriminate].
      * apply Forall_forall. intros q Hq.
        apply in_flat_map in Hq. destruct Hq as (p & Hp & Hq).
        apply in_map_iff in Hq. destruct Hq as (d & <- & _).
        rewrite Forall_forall in Hlen. rewrite length_app.
        rewrite (Hlen p Hp). simpl. lia.
  - destruct prefixes as [|p prefixes]; [contradiction|].
    inversion Hlen; subst.
    rewrite (expand_position_invalid account_number _ ch s p prefixes
               eq_refl Hch).
    reflexivity.
Qed.

(** X1.  A number pattern that holds a character other than a digit or
    ['*'] is refused: the expansion raises [IOError] with the pattern as
    it was given, wherever the character stands. *)
Theorem expand_asterisk_wildcard_invalid (account_number : string) :
  forallb pattern_char (list_ascii_of_string account_number) = false ->
  expand_asterisk_wildcard account_number = Raise (IOError account_number).
Proof.
  intros H. unfold expand_asterisk_wildcard, range.
  rewrite <- length_list_ascii_of_string.
  pose proof (expand_positions_invalid account_number
                (list_ascii_of_string account_number) H 0 [[]]) as E.
  simpl in E. rewrite E; [reflexivity | discriminate | constructor; auto].
Qed.

Lemma expand_asterisk_wildcard_invalid_letter :
  expand_asterisk_wildcard "12*x" = Raise (IOError "12*x").
Proof.
  apply (expand_asterisk_wildcard_invalid "12*x"). reflexivity.
Defined.

(** X2.  A number of digits only stands for itself: its expansion is the
    one-element list of the number. *)
Theorem expand_asterisk_wildcard_plain (account_number : string) :
  forallb isdigit (list_ascii_of_string account_number) = true ->
  expand_asterisk_wildcard account_number = OK [account_number].
Proof.
  intros H.
  assert (Hp : is_pattern account_number).
  { unfold is_pattern. rewrite forallb_forall in *. intros c Hc.
    unfold pattern_char. now rewrite (H c Hc). }
  rewrite (expand_asterisk_wildcard_expansions _ Hp).
  rewrite expansions_no_asterisk; [| exact Hp |].
  - cbn [map]. now rewrite string_of_list_ascii_of_string.
  - destruct (existsb (Ascii.eqb asterisk)
                (list_ascii_of_string account_number)) eqn:E; [|reflexivity].
    apply existsb_exists in E. destruct E as (c & Hc & Hcs).
    apply Ascii.eqb_eq in Hcs. subst c.
    rewrite forallb_forall in H. specialize (H _ Hc). discriminate H.
Qed.

Lemma expand_asterisk_wildcard_plain_1200 :
  expand_asterisk_wildcard "1200" = OK ["1200"].
Proof.
  apply (expand_asterisk_wildcard_plain "1200"). reflexivity.
Defined.

Lemma decimal_digit_in_digits (c : ascii) :
  is_decimal_digit c = true -> In c decimal_digits.
Proof.
  destruct c as [[] [] [] [] [] [] [] []]; intros H;
    try discriminate H; cbv; tauto.
Qed.

Lemma instance_in_expansions (pattern e : list ascii) :
  forallb pattern_char pattern = true ->
  Forall2 agrees pattern e -> In e (expansions pattern).
Proof.
  intros Hp HF. induction HF as [|pc sc pattern e Hag HF IH].
  - now left.
  - cbn [forallb] in Hp. apply andb_true_iff in Hp. destruct Hp as [Hc Hp].
    specialize (IH Hp). cbn [expansions]. unfold agrees in Hag.
    destruct (isdigit pc) eqn:Hd.
    + destruct (Ascii.eqb_spec pc asterisk) as [->|_].
      * rewrite asterisk_not_digit in Hd. discriminate.
      * subst sc. now apply in_map.
    + unfold pattern_char in Hc. rewrite Hd in Hc. simpl in Hc.
      rewrite Hc in Hag. apply in_flat_map. exists sc.
      split; [now apply decimal_digit_in_digits | now apply in_map].
Qed.

(** X3.  The expansion leaves no number out: every string that carries a
    decimal digit under each wildcard of the pattern and the pattern's own
    character elsewhere is among the numbers returned. *)
Theorem expand_asterisk_wildcard_complete (pattern s : string) :
  is_pattern pattern ->
  instance_of pattern s ->
  exists numbers,
    expand_asterisk_wildcard pattern = OK numbers /\ In s numbers.
Proof.
  intros Hp Hs.
  exists (map string_of_list_ascii (expansions (list_ascii_of_string pattern))).
  split; [now apply expand_asterisk_wildcard_expansions|].
  rewrite <- (string_of_list_ascii_of_string s).
  apply in_map. now apply instance_in_expansions.
Qed.

Lemma expand_asterisk_wildcard_complete_1729 :
  exists numbers,
    expand_asterisk_wildcard "1*2*" = OK numbers /\ In "1729" numbers.
Proof.
  apply (expand_asterisk_wildcard_complete "1*2*" "1729").
  - reflexivity.
  - repeat constructor.
Defined.

(** ** Loading the dictionary: refused and ignored records *)

Lemma has_asterisk_get (a : string) :
  has_asterisk a = true -> exists c, String.get 0 a = Some c.
Proof.
  destruct a as [|c a]; [discriminate | simpl; eauto].
Qed.

Lemma load_account_dictionary_raise (reader : list (list string))
      (aw : bool) (dflt : option string) (e : exn) :
  load_records aw reader (mkdict [] dflt) = Raise e ->
  load_account_dictionary reader aw dflt = Raise e.
Proof.
  intros H. unfold load_account_dictionary. now rewrite H.
Qed.

(** X4.  With wildcards disabled, a record whose number holds ['*'] (and
    is no comment) stops the loading with [IOError], whatever follows it,
    once the records before it are read. *)
Theorem load_account_dictionary_wildcards_disabled
        (pre post : list (list string)) (a b : string)
        (dflt : option string) (dpre : pydict) :
  load_records false pre (mkdict [] dflt) = OK dpre ->
  is_comment a = false ->
  has_asterisk a = true ->
  load_account_dictionary (pre ++ [a; b] :: post) false dflt
  = Raise (IOError "Wildcards not allowed.").
Proof.
  intros Hpre Hc Ha. apply load_account_dictionary_raise.
  rewrite load_records_app, Hpre. cbn [bind load_records].
  destruct (has_asterisk_get a Ha) as [c Hget].
  unfold is_comment in Hc. rewrite Hget in *. rewrite Hc, Ha. reflexivity.
Qed.

Lemma load_account_dictionary_wildcards_disabled_99 :
  load_account_dictionary
    [["1200"; "Assets:Bank"]; ["99*"; "Equity:Opening"];
     ["4650"; "Expenses:Food"]] false None
  = Raise (IOError "Wildcards not allowed.").
Proof.
  apply (load_account_dictionary_wildcards_disabled
           [["1200"; "Assets:Bank"]] [["4650"; "Expenses:Food"]]
           "99*" "Equity:Opening" None _ eq_refl eq_refl eq_refl).
Defined.

(** X5.  A record of two fields whose first field starts with ['#'] is a
    comment: the file loads exactly as it does without that record. *)
Theorem load_account_dictionary_comment (pre post : list (list string))
        (a b : string) (aw : bool) (dflt : option string) :
  is_comment a = true ->
  load_account_dictionary (pre ++ [a; b] :: post) aw dflt
  = load_account_dictionary (pre ++ post) aw dflt.
Proof.
  intros Hc. unfold load_account_dictionary.
  rewrite !load_records_app.
  destruct (load_records aw pre (mkdict [] dflt)) as [d|e]; [|reflexivity].
  cbn [bind load_records]. unfold is_comment in Hc.
  destruct (String.get 0 a) as [c|]; [|discriminate].
  rewrite Hc. reflexivity.
Qed.

Lemma load_account_dictionary_comment_header :
  load_account_dictionary
    [["#account number (datev)"; " account name (beancount)"];
     ["1200"; "Assets:Bank"]] false None
  = load_account_dictionary [["1200"; "Assets:Bank"]] false None.
Proof.
  apply (load_account_dictionary_comment []
           [["1200"; "Assets:Bank"]]
           "#account number (datev)" " account name (beancount)" false None).
  reflexivity.
Defined.

(** X6.  A record that has not exactly two fields (an empty line, a line
    without a comma, a line with two commas) stops the loading with
    [ValueError], and a record whose number field is empty stops it with
    [IndexError], once the records before it are read. *)
Theorem load_account_dictionary_malformed (pre post : list (list string))
        (row : list string) (aw : bool) (dflt : option string)
        (dpre : pydict) :
  load_records aw pre (mkdict [] dflt) = OK dpre ->
  (List.length row <> 2 ->
   exists msg,
     load_account_dictionary (pre ++ row :: post) aw dflt
     = Raise (ValueError msg))
  /\ (forall b, row = [""; b] ->
      load_account_dictionary (pre ++ row :: post) aw dflt
      = Raise IndexError).
Proof.
  intros Hpre. split.
  - intros Hlen. eexists. apply load_account_dictionary_raise.
    rewrite load_records_app, Hpre. cbn [bind].
    destruct row as [|a [|b [|c row]]]; try reflexivity.
    now contradiction Hlen.
  - intros b ->. apply load_account_dictionary_raise.
    rewrite load_records_app, Hpre. reflexivity.
Qed.

Lemma load_account_dictionary_malformed_lines :
  (exists msg,
      load_account_dictionary
        [["1200"; "Assets:Bank"]; ["# a comment without a comma"]] true None
      = Raise (ValueError msg))
  /\ load_account_dictionary
       [["1200"; "Assets:Bank"]; [""; "Expenses:Food"]] true None
     = Raise IndexError.
Proof.
  split.
  - apply (proj1 (load_account_dictionary_malformed
                    [["1200"; "Assets:Bank"]] []
                    ["# a comment without a comma"] true None _ eq_refl)).
    simpl. discriminate.
  - apply (proj2 (load_account_dictionary_malformed
                    [["1200"; "Assets:Bank"]] []
                    [""; "Expenses:Food"] true None _ eq_refl)
             "Expenses:Food").
    reflexivity.
Defined.

(** ** The name->number table *)

Lemma load_account_dictionary_parts (reader : list (list string))
      (aw : bool) (dflt : option string) (d1 d2 : pydict) :
  load_account_dictionary reader aw dflt = OK (d1, d2) ->
  load_records aw reader (mkdict [] dflt) = OK d1
  /\ invert_into d1 (PyDict.keys (table d1)) (mkdict [] None) = OK d2.
Proof.
  unfold load_account_dictionary. intros H.
  inv_bind H. inv_bind H. inversion H; subst. auto.
Qed.

Lemma inverts_of_load (reader : list (list string)) (aw : bool)
      (dflt : option string) (d1 d2 : pydict) :
  load_account_dictionary reader aw dflt = OK (d1, d2) ->
  inverts d1 d2 /\ default_factory d2 = None.
Proof.
  intros H. apply load_account_dictionary_parts in H. destruct H as [_ H].
  apply (invert_into_inverts d1 (PyDict.keys (table d1)) (mkdict [] None));
    auto.
  intros ? ? E. discriminate E.
Qed.

(** X7.  The default account name works in one direction only: the
    name->number table is a plain dictionary, and a name that no number of
    the number->name table carries raises [KeyError], default or not. *)
Theorem name_table_has_no_default (reader : list (list string)) (aw : bool)
        (dflt : option string) (d1 d2 : pydict) (n : string) :
  load_account_dictionary reader aw dflt = OK (d1, d2) ->
  (forall k, PyDict.get (table d1) k <> Some n) ->
  getitem d2 n = Raise (KeyError n).
Proof.
  intros H Hn. destruct (inverts_of_load _ _ _ _ _ H) as [Hinv Hdf].
  unfold getitem. rewrite Hdf.
  destruct (PyDict.get (table d2) n) as [k|] eqn:E; [|reflexivity].
  exfalso. apply (Hn k). now apply Hinv.
Qed.

Lemma name_table_has_no_default_unknown :
  exists d1 d2,
    load_account_dictionary [["1200"; "Assets:Bank"]] true
      (Some "Expenses:Unknown") = OK (d1, d2)
    /\ getitem d1 "9999" = OK "Expenses:Unknown"
    /\ getitem d2 "Expenses:Unknown" = Raise (KeyError "Expenses:Unknown").
Proof.
  exists (mkdict [("1200", "Assets:Bank")] (Some "Expenses:Unknown")).
  eexists. split; [reflexivity|]. split; [reflexivity|].
  apply (name_table_has_no_default [["1200"; "Assets:Bank"]] true
           (Some "Expenses:Unknown")
           (mkdict [("1200", "Assets:Bank")] (Some "Expenses:Unknown"))
           _ "Expenses:Unknown" eq_refl).
  intros k. cbn [table PyDict.get].
  destruct (String.eqb "1200" k); intros E; discriminate E.
Defined.

Lemma get_set_present {V : Type} (d : PyDict.items V) (k k' : string)
      (v v' : V) :
  PyDict.get d k' = Some v' ->
  exists w, PyDict.get (PyDict.set d k v) k' = Some w.
Proof.
  intros H. destruct (string_dec k k') as [->|Hne].
  - rewrite get_set_same. eauto.
  - rewrite get_set_other by assumption. eauto.
Qed.

Lemma invert_into_covers (d1 : pydict) (keys : list string) (n : string) :
  forall d2 d2',
    invert_into d1 keys d2 = OK d2' ->
    (exists k, In k keys /\ PyDict.get (table d1) k = Some n)
    \/ (exists k', PyDict.get (table d2) n = Some k') ->
    exists k', PyDict.get (table d2') n = Some k'.
Proof.
  induction keys as [|key keys IH]; intros d2 d2' H Hn.
  - inversion H; subst. destruct Hn as [(k & [] & _)|Hn]. exact Hn.
  - cbn [invert_into] in H. inv_bind H. rename a into name.
    apply (IH _ _ H). clear IH H.
    destruct Hn as [(k & [->|Hk] & Hget)|(k' & Hk')].
    + right. unfold getitem in Ha. rewrite Hget in Ha.
      inversion Ha; subst name. simpl. rewrite get_set_same. eauto.
    + left. eauto.
    + right. simpl. eapply get_set_present; eauto.
Qed.

(** X8.  Every name of the number->name table is a key of the
    name->number table: whatever name a listed number reads, that name
    resolves to a number which reads the same name. *)
Theorem name_table_covers (reader : list (list string)) (aw : bool)
        (dflt : option string) (d1 d2 : pydict) (k n : string) :
  load_account_dictionary reader aw dflt = OK (d1, d2) ->
  PyDict.get (table d1) k = Some n ->
  exists k', getitem d2 n = OK k' /\ getitem d1 k' = OK n.
Proof.
  intros H Hk. destruct (inverts_of_load _ _ _ _ _ H) as [Hinv _].
  apply load_account_dictionary_parts in H. destruct H as [_ H].
  destruct (invert_into_covers d1 _ n _ _ H) as [k' Hk'].
  { left. exists k. split; [|exact Hk]. eapply get_keys; eauto. }
  exists k'. unfold getitem. rewrite Hk', (Hinv _ _ Hk'). auto.
Qed.

Lemma name_table_covers_wildcard :
  exists d1 d2 k',
    load_account_dictionary
      [["52*"; "Income:Sales"]; ["1200"; "Assets:Bank"]] true None
    = OK (d1, d2)
    /\ getitem d2 "Income:Sales" = OK k'
    /\ getitem d1 k' = OK "Income:Sales".
Proof.
  eexists. eexists.
  destruct (name_table_covers
              [["52*"; "Income:Sales"]; ["1200"; "Assets:Bank"]] true None
              _ _ "523" "Income:Sales" eq_refl eq_refl) as (k' & H1 & H2).
  exists k'. split; [reflexivity|]. split; assumption.
Defined.

(** ** Files of plain records *)

Lemma load_records_plain_record (aw : bool) (a b : string)
      (rest : list (list string)) (d : pydict) :
  plain_number a = true ->
  load_records aw ([a; b] :: rest) d
  = load_records aw rest (setitem d a b).
Proof.
  unfold plain_number. intros H. cbn [load_records].
  destruct (String.get 0 a) as [c|]; [|discriminate].
  apply andb_true_iff in H. destruct H as [Hc Ha].
  apply negb_true_iff in Hc, Ha. now rewrite Hc, Ha.
Qed.

(** X9.  A number without wildcard is stored as it stands, digits or not,
    and a later record of a number replaces an earlier one: after a file
    whose last record is [a, b], the number [a] reads [b]. *)
Theorem load_account_dictionary_last_record (pre : list (list string))
        (a b : string) (aw : bool) (dflt : option string) (dpre : pydict) :
  load_records aw pre (mkdict [] dflt) = OK dpre ->
  plain_number a = true ->
  exists d1 d2,
    load_account_dictionary (pre ++ [[a; b]]) aw dflt = OK (d1, d2)
    /\ getitem d1 a = OK b.
Proof.
  intros Hpre Ha.
  assert (Hload : load_records aw (pre ++ [[a; b]]) (mkdict [] dflt)
                  = OK (setitem dpre a b)).
  { rewrite load_records_app, Hpre. cbn [bind].
    now rewrite load_records_plain_record. }
  destruct (load_account_dictionary_of_records _ _ _ _ Hload) as [d2 Hd2].
  exists (setitem dpre a b), d2. split; [exact Hd2|].
  unfold getitem. simpl. now rewrite get_set_same.
Qed.

Lemma load_account_dictionary_last_record_replaced :
  exists d1 d2,
    load_account_dictionary
      [["12x4"; "Assets:Bank"]; ["4650"; "Expenses:Food"];
       ["12x4"; "Assets:Cash"]] false None = OK (d1, d2)
    /\ getitem d1 "12x4" = OK "Assets:Cash".
Proof.
  apply (load_account_dictionary_last_record
           [["12x4"; "Assets:Bank"]; ["4650"; "Expenses:Food"]]
           "12x4" "Assets:Cash" false None _ eq_refl eq_refl).
Defined.

Lemma set_append {V : Type} (d : PyDict.items V) (k : string) (v : V) :
  ~ In k (PyDict.keys d) -> PyDict.set d k v = d ++ [(k, v)].
Proof.
  induction d as [|[k' v'] d IH]; simpl; intros H; [reflexivity|].
  destruct (String.eqb_spec k' k) as [->|_]; [tauto|].
  rewrite IH; tauto.
Qed.

Lemma load_records_plain (aw : bool) (recs : list (string * string)) :
  forall d,
    forallb plain_number (map fst recs) = true ->
    NoDup (map fst recs) ->
    (forall k, In k (map fst recs) -> ~ In k (PyDict.keys (table d))) ->
    load_records aw (records_of recs) d
    = OK (mkdict (table d ++ recs) (default_factory d)).
Proof.
  induction recs as [|[a b] recs IH]; intros d Hp Hnd Hfresh.
  - simpl. rewrite app_nil_r. now destruct d.
  - cbn [map fst forallb] in Hp. apply andb_true_iff in Hp.
    destruct Hp as [Ha Hp]. cbn [map fst] in Hnd.
    inversion Hnd as [|? ? Hna Hnd']; subst.
    cbn [records_of map fst snd].
    rewrite load_records_plain_record by exact Ha.
    fold (records_of recs). rewrite IH; auto.
    + cbn [setitem table default_factory].
      rewrite set_append by (apply Hfresh; now left).
      now rewrite <- app_assoc.
    + intros k Hk. cbn [setitem table].
      rewrite set_append by (apply Hfresh; now left).
      unfold PyDict.keys. rewrite map_app, in_app_iff. simpl.
      intros [Hin|[->|[]]]; [|contradiction].
      apply (Hfresh k); [now right | exact Hin].
Qed.

Lemma get_of_NoDup {V : Type} (d : PyDict.items V) (k : string) (v : V) :
  NoDup (PyDict.keys d) -> In (k, v) d -> PyDict.get d k = Some v.
Proof.
  induction d as [|[k' v'] d IH]; simpl; intros Hnd Hin; [destruct Hin|].
  inversion Hnd as [|? ? Hnk Hnd']; subst.
  destruct Hin as [E|Hin].
  - inversion E; subst. now rewrite String.eqb_refl.
  - destruct (String.eqb_spec k' k) as [->|_]; [|auto].
    exfalso. apply Hnk. unfold PyDict.keys.
    change k with (fst (k, v)). now apply in_map.
Qed.

Lemma invert_into_items (d1 : pydict) (items : list (string * string)) :
  forall d2,
    (forall k v, In (k, v) items -> PyDict.get (table d1) k = Some v) ->
    invert_into d1 (map fst items) d2 = OK (invert_items items d2).
Proof.
  induction items as [|[k v] items IH]; intros d2 H; [reflexivity|].
  cbn [map fst invert_into]. unfold getitem.
  rewrite (H k v) by now left. cbn [bind].
  rewrite IH; [reflexivity|]. intros k' v' Hin. apply H. now right.
Qed.

Lemma invert_items_other (items : list (string * string)) (n : string) :
  forall d2,
    ~ In n (map snd items) ->
    PyDict.get (table (invert_items items d2)) n = PyDict.get (table d2) n.
Proof.
  unfold invert_items.
  induction items as [|[k v] items IH]; intros d2 H; [reflexivity|].
  cbn [fold_left]. rewrite IH by (simpl in H; tauto).
  simpl. apply get_set_other. simpl in H. tauto.
Qed.

Lemma invert_items_app (l1 l2 : list (string * string)) (d2 : pydict) :
  invert_items (l1 ++ l2) d2 = invert_items l2 (invert_items l1 d2).
Proof.
  unfold invert_items. apply fold_left_app.
Qed.

(** X10.  A file of plain records with pairwise distinct numbers: every
    number reads the name of its record, and a name listed under several
    numbers resolves to the number of its last record. *)
Theorem load_account_dictionary_last_number
        (recs l1 l2 : list (string * string)) (k n : string)
        (aw : bool) (dflt : option string) :
  forallb plain_number (map fst recs) = true ->
  NoDup (map fst recs) ->
  recs = l1 ++ (k, n) :: l2 ->
  ~ In n (map snd l2) ->
  exists d1 d2,
    load_account_dictionary (records_of recs) aw dflt = OK (d1, d2)
    /\ (forall k' n', In (k', n') recs -> getitem d1 k' = OK n')
    /\ getitem d2 n = OK k.
Proof.
  intros Hp Hnd Hrecs Hlast.
  pose proof (load_records_plain aw recs (mkdict [] dflt) Hp Hnd) as Hload.
  cbn [table default_factory app] in Hload.
  specialize (Hload (fun _ _ H => H)).
  assert (Hget : forall k' n', In (k', n') recs ->
                               PyDict.get recs k' = Some n').
  { intros k' n'. now apply get_of_NoDup. }
  exists (mkdict recs dflt), (invert_items recs (mkdict [] None)).
  split; [|split].
  - unfold load_account_dictionary. rewrite Hload. cbn [bind table].
    unfold PyDict.keys. rewrite invert_into_items; [reflexivity|].
    exact Hget.
  - intros k' n' Hin. unfold getitem. cbn [table].
    now rewrite (Hget _ _ Hin).
  - unfold getitem. subst recs.
    rewrite invert_items_app.
    change ((k, n) :: l2) with ([(k, n)] ++ l2).
    rewrite invert_items_app, invert_items_other by exact Hlast.
    unfold invert_items at 1. cbn [fold_left fst snd setitem table].
    now rewrite get_set_same.
Qed.

Lemma load_account_dictionary_last_number_bank :
  exists d1 d2,
    load_account_dictionary
      (records_of [("1000", "Assets:Bank"); ("4650", "Expenses:Food");
                   ("1200", "Assets:Bank"); ("8400", "Income:Sales")])
      false None = OK (d1, d2)
    /\ (forall k' n',
          In (k', n') [("1000", "Assets:Bank"); ("4650", "Expenses:Food");
                       ("1200", "Assets:Bank"); ("8400", "Income:Sales")] ->
          getitem d1 k' = OK n')
    /\ getitem d2 "Assets:Bank" = OK "1200".
Proof.
  apply (load_account_dictionary_last_number
           [("1000", "Assets:Bank"); ("4650", "Expenses:Food");
            ("1200", "Assets:Bank"); ("8400", "Income:Sales")]
           [("1000", "Assets:Bank"); ("4650", "Expenses:Food")]
           [("8400", "Income:Sales")] "1200" "Assets:Bank" false None).
  - reflexivity.
  - repeat (constructor; [simpl; intuition discriminate|]). constructor.
  - reflexivity.
  - simpl. intuition discriminate.
Defined.

(** ** The batch that beancount2datev returns *)

Lemma buchung_of_fields {floats : PyFloat} (conv : converter) (dc : string)
      (t : Transaction) (row : Buchung) :
  buchung_of conv dc t = OK row ->
  belegdatum row = date t /\ soll_haben row = "S" /\ weitere row = [].
Proof.
  unfold buchung_of.
  destruct (postings t) as [|p1 [|p2 [|p3 ps]]]; try discriminate.
  destruct (negative (float (number (units p1)))); intros H;
    inv_bind H; inv_bind H;
    destruct (narration t); try discriminate;
    inversion H; subst; auto.
Qed.

Lemma selected_ordered (entries : list directive) (y : Z)
      (date_start date_stop : option Date) :
  date_ordered (selected entries y date_start date_stop).
Proof.
  apply (sorted_StronglySorted by_date by_date_total by_date_trans).
Qed.

Lemma rows_ordered_transfer (l : list Transaction) (rows : list Buchung) :
  Forall2 (fun t row => belegdatum row = date t) l rows ->
  date_ordered l -> rows_ordered rows.
Proof.
  unfold date_ordered, rows_ordered.
  induction 1 as [|t r l rows Ht HF IH]; intros Hs; [constructor|].
  inversion Hs as [|? ? Hl Hx]; subst.
  constructor; [auto|].
  clear IH Hs Hl. induction HF as [|u r' l rows Hu HF IH]; [constructor|].
  inversion Hx; subst. constructor; [|auto].
  now rewrite Ht, Hu.
Qed.

(** X11.  The rows of the batch are in ascending order of booking date,
    whatever the order of the ledger. *)
Theorem beancount2datev_rows_ordered {floats : PyFloat}
        (entries : list directive)
        (conv : converter) (y : Z) (date_start date_stop : option Date)
        (b : Buchungsstapel) (out : list string) :
  beancount2datev entries conv y date_start date_stop = (OK b, out) ->
  rows_ordered (data b).
Proof.
  intros H. destruct (beancount2datev_OK _ _ _ _ _ _ _ H) as (_ & HF & _).
  apply (rows_ordered_transfer
           (filter has_two (selected entries y date_start date_stop))).
  - eapply Forall2_impl; [|exact HF].
    intros t row Hrow. now apply buchung_of_fields in Hrow.
  - apply StronglySorted_filter, selected_ordered.
Qed.

Lemma beancount2datev_rows_ordered_nine :
  exists b out,
    beancount2datev nine_and_one sample_names 2021 None None = (OK b, out)
    /\ rows_ordered (data b).
Proof.
  destruct nine_and_one_converts as (b & out & H).
  exists b, out. split; [exact H|].
  apply (beancount2datev_rows_ordered nine_and_one sample_names 2021
           None None b out H).
Defined.

(** X12.  The header of the batch carries the date range that was asked
    for (the whole year where a bound was left out), the first of January
    as the start of the business year, and the fixed adviser number 1001,
    client number 1 and account length 4; and every row is booked on a date
    of that range. *)
Theorem beancount2datev_header {floats : PyFloat} (entries : list directive)
        (conv : converter) (y : Z) (date_start date_stop : option Date)
        (b : Buchungsstapel) (out : list string) :
  beancount2datev entries conv y date_start date_stop = (OK b, out) ->
  datum_von b = bound_or date_start (mkdate y 1 1)
  /\ datum_bis b = bound_or date_stop (mkdate y 12 31)
  /\ wirtschaftsjahr_beginn b = mkdate y 1 1
  /\ berater b = 1001%Z /\ mandant b = 1%Z
  /\ sachkontennummernlaenge b = 4%Z
  /\ Forall (fun row =>
               date_leb (datum_von b) (belegdatum row) = true
               /\ date_leb (belegdatum row) (datum_bis b) = true)
       (data b).
Proof.
  intros H. pose proof H as H0.
  destruct (beancount2datev_OK _ _ _ _ _ _ _ H) as (_ & HF & _).
  unfold beancount2datev in H.
  destruct (date_or_default date_start y 1 1) as [start|] eqn:Es;
    [|discriminate].
  destruct (date_or_default date_stop y 12 31) as [stop|] eqn:Ee;
    [|discriminate].
  apply date_or_default_OK in Es, Ee. subst start stop.
  destruct (find_currency _) as [dc|]; [|discriminate].
  destruct (datetime_date y 1 1) as [beginn|] eqn:Eb; [|discriminate].
  assert (beginn = mkdate y 1 1) as ->.
  { unfold datetime_date in Eb.
    repeat match type of Eb with
           | (if ?c then _ else _) = _ => destruct c
           end; now inversion Eb. }
  apply add_transactions_header in H. cbn in H.
  destruct H as (H1 & H2 & H3 & H4 & H5 & H6).
  repeat (split; [assumption|]).
  rewrite H5, H6. apply Forall_forall. intros row Hrow.
  assert (exists t, In t (filter has_two
                            (selected entries y date_start date_stop))
                    /\ belegdatum row = date t) as (t & Ht & Hd).
  { clear - HF Hrow. induction HF as [|t r l rows Hr HF IH];
      [destruct Hrow|].
    destruct Hrow as [->|Hrow].
    - exists t. split; [now left|]. now apply buchung_of_fields in Hr.
    - destruct (IH Hrow) as (u & Hu & Hd). exists u. split; [now right|auto]. }
  apply filter_In in Ht. destruct Ht as [Ht _].
  apply In_selected in Ht. destruct Ht as [_ Ht].
  unfold in_range in Ht. apply andb_true_iff in Ht. now rewrite Hd.
Qed.

Lemma nine_and_one_from_march :
  exists b out,
    beancount2datev nine_and_one sample_names 2021
      (Some (mkdate 2021 3 3)) None = (OK b, out)
    /\ List.length (data b) = 7.
Proof.
  eexists. eexists. split; vm_compute; reflexivity.
Qed.

Lemma beancount2datev_header_march :
  exists b out,
    beancount2datev nine_and_one sample_names 2021
      (Some (mkdate 2021 3 3)) None = (OK b, out)
    /\ datum_von b = mkdate 2021 3 3
    /\ datum_bis b = mkdate 2021 12 31
    /\ wirtschaftsjahr_beginn b = mkdate 2021 1 1
    /\ List.length (data b) = 7.
Proof.
  destruct nine_and_one_from_march as (b & out & H & Hlen).
  exists b, out. split; [exact H|].
  destruct (beancount2datev_header nine_and_one sample_names 2021
              (Some (mkdate 2021 3 3)) None b out H)
    as (H1 & H2 & H3 & _).
  repeat (split; [assumption|]). exact Hlen.
Defined.

(** ** The two sides of a row *)

(** X13.  Only the sign of the first posting's number as a float decides
    the sides of a row.  If [float(p1.units.number) < 0] is false the first
    posting is the primary side and the second the counter side, also when
    both are positive; if it is true the two are exchanged.  The amount is
    the float of the primary posting's number as it stands: it is never
    made absolute, so two negative postings give a row with a negative
    amount. *)
Theorem beancount2datev_sides {floats : PyFloat} (entries : list directive)
        (conv : converter) (y : Z) (date_start date_stop : option Date)
        (b : Buchungsstapel) (out : list string)
        (t : Transaction) (pa pb : Posting) :
  beancount2datev entries conv y date_start date_stop = (OK b, out) ->
  In (Txn t) entries ->
  in_range y date_start date_stop t = true ->
  postings t = [pa; pb] ->
  exists row,
    In row (data b)
    /\ belegdatum row = date t
    /\ (negative (float (number (units pa))) = false ->
        convert conv (account pa) = OK (konto row)
        /\ convert conv (account pb) = OK (gegenkonto row)
        /\ umsatz row = float (number (units pa)))
    /\ (negative (float (number (units pa))) = true ->
        convert conv (account pb) = OK (konto row)
        /\ convert conv (account pa) = OK (gegenkonto row)
        /\ umsatz row = float (number (units pb))).
Proof.
  intros H Hin Hr Hps.
  destruct (row_of_selected _ _ _ _ _ _ _ t H Hin Hr) as (row & Hrow & Hb).
  { unfold has_two. now rewrite Hps. }
  exists row. split; [exact Hrow|].
  split; [now apply buchung_of_fields in Hb|].
  unfold buchung_of in Hb. rewrite Hps in Hb.
  destruct (negative (float (number (units pa))));
    inv_bind Hb; inv_bind Hb;
    destruct (narration t); try discriminate;
    inversion Hb; subst row; cbn; split; intros; try discriminate; auto.
Qed.

Lemma beancount2datev_sides_unbalanced :
  exists b row1 row2,
    beancount2datev [Txn both_negative; Txn both_positive] sample_names
      2021 None None = (OK b, [])
    /\ data b = [row1; row2]
    /\ konto row1 = "1200" /\ gegenkonto row1 = "4650"
    /\ umsatz row1 = Zahl 500
    /\ konto row2 = "4650" /\ gegenkonto row2 = "1200"
    /\ umsatz row2 = Zahl (-300).
Proof.
  assert (Hrun : exists b row1 row2,
             beancount2datev [Txn both_negative; Txn both_positive]
               sample_names 2021 None None = (OK b, [])
             /\ data b = [row1; row2]
             /\ belegdatum row1 = mkdate 2021 4 1
             /\ belegdatum row2 = mkdate 2021 4 2).
  { do 3 eexists. repeat split; vm_compute; reflexivity. }
  destruct Hrun as (b & row1 & row2 & H & Hdata & Hd1 & Hd2).
  exists b, row1, row2. split; [exact H|]. split; [exact Hdata|].
  destruct (beancount2datev_sides _ _ _ _ _ _ _ both_positive
              (posting "Assets:Bank" 500 "EUR")
              (posting "Expenses:Food" 300 "EUR") H)
    as (r1 & Hin1 & Hdate1 & Hpos1 & _);
    [simpl; auto | reflexivity | reflexivity |].
  destruct (beancount2datev_sides _ _ _ _ _ _ _ both_negative
              (posting "Assets:Bank" (-500) "EUR")
              (posting "Expenses:Food" (-300) "EUR") H)
    as (r2 & Hin2 & Hdate2 & _ & Hneg2);
    [simpl; auto | reflexivity | reflexivity |].
  rewrite Hdata in Hin1, Hin2.
  assert (r1 = row1) as ->.
  { destruct Hin1 as [E|[E|[]]]; [auto|]. subst r1.
    rewrite Hd2 in Hdate1. discriminate Hdate1. }
  assert (r2 = row2) as ->.
  { destruct Hin2 as [E|[E|[]]]; [|auto]. subst r2.
    rewrite Hd1 in Hdate2. discriminate Hdate2. }
  destruct Hpos1 as (K1 & G1 & U1); [reflexivity|].
  destruct Hneg2 as (K2 & G2 & U2); [reflexivity|].
  simpl in K1, G1, U1, K2, G2, U2.
  inversion K1; inversion G1; inversion K2; inversion G2.
  repeat split; auto.
Defined.

(** X14.  One account that the converter cannot resolve stops the whole
    conversion: if a transaction of two postings in the date range has such
    an account, no batch is returned. *)
Theorem beancount2datev_unresolved {floats : PyFloat} (entries : list directive)
        (conv : converter) (y : Z) (date_start date_stop : option Date)
        (t : Transaction) (p : Posting) :
  In (Txn t) entries ->
  in_range y date_start date_stop t = true ->
  has_two t = true ->
  In p (postings t) ->
  is_ok (convert conv (account p)) = false ->
  raises (fst (beancount2datev entries conv y date_start date_stop)).
Proof.
  intros Hin Hr H2 Hp Hconv.
  destruct (beancount2datev entries conv y date_start date_stop)
    as [[b|e] out] eqn:H; [|simpl; now exists e].
  exfalso.
  destruct (row_of_selected _ _ _ _ _ _ _ t H Hin Hr H2) as (row & _ & Hb).
  unfold buchung_of in Hb.
  destruct (postings t) as [|p1 [|p2 [|p3 ps]]]; try discriminate.
  assert (Hboth : is_ok (convert conv (account p1)) = true
                  /\ is_ok (convert conv (account p2)) = true).
  { destruct (negative (float (number (units p1))));
      inv_bind Hb; inv_bind Hb; rewrite Ha, Ha0; auto. }
  destruct Hboth as [Hp1 Hp2].
  destruct Hp as [<-|[<-|[]]]; congruence.
Qed.

Lemma beancount2datev_unresolved_rent :
  fst (beancount2datev [Txn (lunch 1); Txn unlisted_account] sample_names
         2021 None None)
  = Raise (KeyError "Expenses:Rent")
  /\ raises (fst (beancount2datev [Txn (lunch 1); Txn unlisted_account]
                    sample_names 2021 None None)).
Proof.
  split; [reflexivity|].
  apply (beancount2datev_unresolved [Txn (lunch 1); Txn unlisted_account]
           sample_names 2021 None None unlisted_account
           (posting "Expenses:Rent" 90000 "EUR")).
  - simpl. auto.
  - reflexivity.
  - reflexivity.
  - simpl. auto.
  - reflexivity.
Defined.

Lemma first_currencies_no_postings (transactions : list Transaction)
      (t : Transaction) :
  In t transactions -> postings t = [] ->
  first_currencies transactions = Raise IndexError.
Proof.
  intros Hin Ht. induction transactions as [|u rest IH]; [destruct Hin|].
  cbn [first_currencies]. destruct Hin as [->|Hin].
  - now rewrite Ht.
  - destruct (postings u); [reflexivity|]. now rewrite (IH Hin).
Qed.

(** X15.  A transaction without postings in the date range stops the
    conversion while the default currency is looked for: with a valid
    year and bounds the result is [IndexError], and nothing is printed. *)
Theorem beancount2datev_no_postings {floats : PyFloat}
        (entries : list directive)
        (conv : converter) (y : Z) (date_start date_stop : option Date)
        (t : Transaction) :
  valid_year y = true ->
  in_year y date_start = true ->
  in_year y date_stop = true ->
  In (Txn t) entries ->
  in_range y date_start date_stop t = true ->
  postings t = [] ->
  beancount2datev entries conv y date_start date_stop
  = (Raise IndexError, []).
Proof.
  intros Hy Hs He Hin Hr Ht.
  destruct (datetime_date_valid y Hy) as [H1 H2].
  unfold beancount2datev.
  rewrite (date_or_default_in_year _ _ _ _ Hs H1).
  rewrite (date_or_default_in_year _ _ _ _ He H2).
  fold (selected entries y date_start date_stop).
  unfold find_currency.
  rewrite (first_currencies_no_postings _ t); [reflexivity | | exact Ht].
  apply In_selected. auto.
Qed.

Lemma beancount2datev_no_postings_note :
  beancount2datev [Txn (lunch 1); Txn no_postings; Txn split_sale]
    sample_names 2021 None None
  = (Raise IndexError, []).
Proof.
  apply (beancount2datev_no_postings
           [Txn (lunch 1); Txn no_postings; Txn split_sale]
           sample_names 2021 None None no_postings);
    try reflexivity.
  simpl. auto.
Defined.

(** ** Nothing is lost, nothing is reordered without need *)

Lemma add_transactions_shapes {floats : PyFloat} (conv : converter)
      (dc : string)
      (transactions : list Transaction) :
  forall b out b' out',
    add_transactions conv dc transactions b out = (OK b', out') ->
    forallb (fun t => more_than_two t || has_two t) transactions = true.
Proof.
  induction transactions as [|t rest IH]; intros b out b' out' H;
    [reflexivity|].
  cbn [add_transactions] in H. cbn [forallb].
  fold (more_than_two t) in H.
  destruct (more_than_two t) eqn:Hm.
  - cbn [orb andb]. eapply IH; eauto.
  - destruct (buchung_of conv dc t) as [row|] eqn:Hrow; [|discriminate].
    rewrite (buchung_of_has_two _ _ _ _ Hrow). cbn [orb andb].
    eapply IH; eauto.
Qed.

Lemma length_two_or_more (l : list Transaction) :
  forallb (fun t => more_than_two t || has_two t) l = true ->
  List.length (filter has_two l) + List.length (filter more_than_two l)
  = List.length l.
Proof.
  induction l as [|t l IH]; intros H; [reflexivity|].
  cbn [forallb] in H. apply andb_true_iff in H. destruct H as [Ht H].
  specialize (IH H). cbn [filter].
  destruct (has_two t) eqn:H2.
  - rewrite (has_two_not_more _ H2). simpl. lia.
  - rewrite orb_false_r in Ht. rewrite Ht. simpl. lia.
Qed.

(** X16.  Every transaction of the date range is accounted for: the
    number of rows of the batch and the number of warnings printed add up
    to the number of transactions of the ledger that lie in the range. *)
Theorem beancount2datev_rows_and_warnings {floats : PyFloat}
        (entries : list directive)
        (conv : converter) (y : Z) (date_start date_stop : option Date)
        (b : Buchungsstapel) (out : list string) :
  beancount2datev entries conv y date_start date_stop = (OK b, out) ->
  List.length (data b) + List.length out
  = List.length (filter (in_range y date_start date_stop)
                   (transactions_of entries)).
Proof.
  intros H.
  destruct (beancount2datev_OK _ _ _ _ _ _ _ H) as (_ & HF & Hout).
  assert (Hshape : forallb (fun t => more_than_two t || has_two t)
                     (selected entries y date_start date_stop) = true).
  { unfold beancount2datev in H.
    destruct (date_or_default date_start y 1 1) as [start|] eqn:Es;
      [|discriminate].
    destruct (date_or_default date_stop y 12 31) as [stop|] eqn:Ee;
      [|discriminate].
    apply date_or_default_OK in Es, Ee. subst start stop.
    destruct (find_currency _) as [dc|]; [|discriminate].
    destruct (datetime_date y 1 1) as [beginn|]; [|discriminate].
    eapply add_transactions_shapes. exact H. }
  rewrite <- (Forall2_length HF), Hout, repeat_length.
  rewrite (length_two_or_more _ Hshape).
  unfold selected, filter_and_sort.
  symmetry. apply Permutation_length, sorted_perm.
Qed.

Lemma beancount2datev_rows_and_warnings_nine :
  exists b out,
    beancount2datev nine_and_one sample_names 2021 None None = (OK b, out)
    /\ List.length (data b) + List.length out = 10.
Proof.
  destruct nine_and_one_converts as (b & out & H).
  exists b, out. split; [exact H|].
  apply (beancount2datev_rows_and_warnings nine_and_one sample_names 2021
           None None b out H).
Defined.

(** X17.  A ledger whose transactions are in order of date is converted
    in its own order, transactions of one day included: the rows are those
    of the ledger's transactions of two postings in the range, one after
    the other. *)
Theorem beancount2datev_keeps_order {floats : PyFloat}
        (entries : list directive)
        (conv : converter) (y : Z) (date_start date_stop : option Date)
        (b : Buchungsstapel) (out : list string) :
  date_ordered (transactions_of entries) ->
  beancount2datev entries conv y date_start date_stop = (OK b, out) ->
  Forall2 (fun t row => buchung_of conv (waehrungskennzeichen b) t = OK row)
    (filter has_two
       (filter (in_range y date_start date_stop) (transactions_of entries)))
    (data b).
Proof.
  intros Hord H.
  destruct (beancount2datev_OK _ _ _ _ _ _ _ H) as (_ & HF & _).
  unfold selected, filter_and_sort in HF.
  rewrite (sorted_fixed (fun a b => date_leb (date a) (date b))) in HF.
  - exact HF.
  - apply StronglySorted_filter. exact Hord.
Qed.

Lemma beancount2datev_keeps_order_same_day :
  exists b row1 row2,
    beancount2datev
      [Txn (sample_txn (mkdate 2021 3 1) "Breakfast"
              [posting "Expenses:Food" 400 "EUR";
               posting "Assets:Bank" (-400) "EUR"]);
       Txn (lunch 1)]
      sample_names 2021 None None = (OK b, [])
    /\ data b = [row1; row2]
    /\ buchungstext row1 = Some "Breakfast"
    /\ buchungstext row2 = Some "Lunch".
Proof.
  assert (Hrun : exists b,
             beancount2datev
               [Txn (sample_txn (mkdate 2021 3 1) "Breakfast"
                       [posting "Expenses:Food" 400 "EUR";
                        posting "Assets:Bank" (-400) "EUR"]);
                Txn (lunch 1)]
               sample_names 2021 None None = (OK b, [])
             /\ waehrungskennzeichen b = "EUR").
  { eexists. split; vm_compute; reflexivity. }
  destruct Hrun as (b & H & Hw).
  assert (Hord : date_ordered
                   (transactions_of
                      [Txn (sample_txn (mkdate 2021 3 1) "Breakfast"
                              [posting "Expenses:Food" 400 "EUR";
                               posting "Assets:Bank" (-400) "EUR"]);
                       Txn (lunch 1)])).
  { repeat constructor. }
  pose proof (beancount2datev_keeps_order _ _ _ _ _ _ _ Hord H) as HF.
  rewrite Hw in HF. cbn in HF.
  inversion HF as [|? row1 ? rows1 Hr1 HF1]; subst.
  inversion HF1 as [|? row2 ? rows2 Hr2 HF2]; subst.
  inversion HF2; subst.
  exists b, row1, row2. split; [exact H|].
  split; [symmetry; assumption|].
  vm_compute in Hr1, Hr2. inversion Hr1; inversion Hr2. split; reflexivity.
Defined.

(** ** The counter of currencies *)

Lemma countv_counter_add (c : list (string * nat)) (x k : string) :
  countv (counter_add c x) k
  = countv c k + (if String.eqb x k then 1 else 0).
Proof.
  unfold countv. induction c as [|[k0 n] c IH]; simpl.
  - destruct (String.eqb x k); reflexivity.
  - destruct (String.eqb_spec k0 x) as [->|Hne]; simpl.
    + destruct (String.eqb x k); lia.
    + destruct (String.eqb_spec k0 k) as [->|_]; [|exact IH].
      destruct (String.eqb_spec x k); [congruence | lia].
Qed.

Lemma countv_fold (l : list string) :
  forall c k,
    countv (fold_left counter_add l c) k = countv c k + occurrences l k.
Proof.
  unfold occurrences.
  induction l as [|x l IH]; intros c k; simpl; [lia|].
  rewrite IH, countv_counter_add.
  destruct (string_dec x k) as [->|Hne].
  - rewrite String.eqb_refl. lia.
  - apply String.eqb_neq in Hne. rewrite Hne. lia.
Qed.

Lemma keys_counter_add (c : list (string * nat)) (x k : string) :
  In k (PyDict.keys (counter_add c x)) <-> In k (PyDict.keys c) \/ k = x.
Proof.
  induction c as [|[k0 n] c IH]; simpl.
  - intuition.
  - destruct (String.eqb_spec k0 x) as [->|Hne]; simpl.
    + intuition.
    + rewrite IH. tauto.
Qed.

Lemma NoDup_counter_add (c : list (string * nat)) (x : string) :
  NoDup (PyDict.keys c) -> NoDup (PyDict.keys (counter_add c x)).
Proof.
  induction c as [|[k0 n] c IH]; simpl; intros H.
  - repeat constructor. intros [].
  - inversion H as [|? ? Hn Hc]; subst.
    destruct (String.eqb_spec k0 x) as [->|Hne]; simpl.
    + now constructor.
    + constructor; [|auto].
      rewrite keys_counter_add. intros [Hin | ->]; [contradiction | congruence].
Qed.

Lemma NoDup_fold_counter (l : list string) :
  forall c, NoDup (PyDict.keys c) ->
            NoDup (PyDict.keys (fold_left counter_add l c)).
Proof.
  induction l as [|x l IH]; intros c Hc; simpl; [exact Hc|].
  apply IH. now apply NoDup_counter_add.
Qed.

Lemma keys_fold_counter (l : list string) :
  forall c k,
    In k (PyDict.keys (fold_left counter_add l c))
    <-> In k (PyDict.keys c) \/ In k l.
Proof.
  induction l as [|x l IH]; intros c k; simpl; [tauto|].
  rewrite IH, keys_counter_add. intuition.
Qed.

Lemma counter_add_fresh (c : list (string * nat)) (x : string) :
  ~ In x (PyDict.keys c) -> counter_add c x = c ++ [(x, 1)].
Proof.
  induction c as [|[k0 n] c IH]; simpl; intros H; [reflexivity|].
  destruct (String.eqb_spec k0 x) as [->|_]; [tauto|].
  rewrite IH; tauto.
Qed.

(** An entry keeps its place, and so do the entries in front of it. *)
Lemma counter_add_middle (c c2 : list (string * nat)) (dc x : string)
      (m : nat) :
  exists c' m' c2',
    counter_add (c ++ (dc, m) :: c2) x = c' ++ (dc, m') :: c2'
    /\ PyDict.keys c' = PyDict.keys c.
Proof.
  induction c as [|[k0 n] c IH]; simpl.
  - destruct (String.eqb dc x).
    + exists [], (S m), c2. auto.
    + exists [], m, (counter_add c2 x). auto.
  - destruct (String.eqb k0 x).
    + exists ((k0, S n) :: c), m, c2. auto.
    + destruct IH as (c' & m' & c2' & E & Hk).
      exists ((k0, n) :: c'), m', c2'. rewrite E. simpl. now rewrite Hk.
Qed.

Lemma fold_counter_middle (l : list string) :
  forall (c c2 : list (string * nat)) (dc : string) (m : nat),
  exists c' m' c2',
    fold_left counter_add l (c ++ (dc, m) :: c2) = c' ++ (dc, m') :: c2'
    /\ PyDict.keys c' = PyDict.keys c.
Proof.
  induction l as [|x l IH]; intros c c2 dc m; simpl.
  - exists c, m, c2. auto.
  - destruct (counter_add_middle c c2 dc x m) as (c' & m' & c2' & E & Hk).
    rewrite E. destruct (IH c' c2' dc m') as (c'' & m'' & c2'' & E' & Hk').
    exists c'', m'', c2''. split; [exact E'|]. now rewrite Hk'.
Qed.

Lemma split_unique (a a' b b' : list (string * nat)) (x y : string * nat) :
  NoDup (PyDict.keys (a ++ x :: b)) ->
  a ++ x :: b = a' ++ y :: b' ->
  fst x = fst y ->
  a = a'.
Proof.
  revert a'. induction a as [|e a IH]; intros a' Hnd E Hxy.
  - destruct a' as [|e' a']; [reflexivity|].
    simpl in E. inversion E; subst. exfalso.
    simpl in Hnd. inversion Hnd as [|? ? Hn _]; subst. apply Hn.
    unfold PyDict.keys. rewrite map_app, in_app_iff. right. simpl. auto.
  - destruct a' as [|e' a'].
    + simpl in E. inversion E; subst. exfalso.
      simpl in Hnd. inversion Hnd as [|? ? Hn _]; subst. apply Hn.
      unfold PyDict.keys. rewrite map_app, in_app_iff. right. simpl. auto.
    + simpl in E. inversion E; subst. f_equal.
      simpl in Hnd. inversion Hnd; subst. eapply IH; eauto.
Qed.

Lemma first_occurrence (l : list string) (x : string) :
  In x l -> exists l1 l2, l = l1 ++ x :: l2 /\ ~ In x l1.
Proof.
  induction l as [|y l IH]; intros Hin; [destruct Hin|].
  destruct (string_dec y x) as [->|Hne].
  - exists [], l. auto.
  - destruct Hin as [E|Hin]; [contradiction|].
    destruct (IH Hin) as (l1 & l2 & -> & Hn).
    exists (y :: l1), l2. split; [reflexivity|].
    simpl. tauto.
Qed.

(** The first entry of [most_common()]: no entry in front of it in the
    counter counts as much, none behind it counts more. *)
Lemma most_common_head (c : list (string * nat)) (h : string * nat)
      (rest : list (string * nat)) :
  most_common c = h :: rest ->
  exists c1 c2,
    c = c1 ++ h :: c2
    /\ Forall (fun e => snd e < snd h) c1
    /\ Forall (fun e => snd e <= snd h) c2.
Proof.
  unfold most_common. revert h rest.
  induction c as [|x c IH]; intros h rest H; [discriminate|].
  cbn [sorted] in H.
  destruct (sorted (fun a b => snd b <=? snd a) c) as [|h' r'] eqn:E.
  - assert (c = []) as ->.
    { apply Permutation_nil. rewrite <- E. apply Permutation_sym, sorted_perm. }
    simpl in H. inversion H; subst. exists [], []. auto.
  - destruct (IH h' r' eq_refl) as (d1 & d2 & -> & H1 & H2).
    cbn [insert_sorted] in H.
    destruct (Nat.leb_spec (snd h') (snd x)) as [Hle|Hlt];
      inversion H; subst.
    + exists [], (d1 ++ h' :: d2). split; [reflexivity|].
      split; [constructor|].
      apply Forall_app. split.
      * eapply Forall_impl; [|exact H1]. simpl. intros; lia.
      * constructor; [exact Hle|].
        eapply Forall_impl; [|exact H2]. simpl. intros; lia.
    + exists (x :: d1), d2. split; [reflexivity|]. split; [|exact H2].
      constructor; assumption.
Qed.

Lemma get_In {V : Type} (d : PyDict.items V) (k : string) (v : V) :
  PyDict.get d k = Some v -> In (k, v) d.
Proof.
  induction d as [|[k' v'] d IH]; simpl; [discriminate|].
  destruct (String.eqb_spec k' k) as [->|_].
  - intros E. inversion E. now left.
  - intros E. right. auto.
Qed.

Lemma In_keys {V : Type} (d : PyDict.items V) (k : string) :
  In k (PyDict.keys d) -> exists v, In (k, v) d.
Proof.
  intros H. destruct (keys_get d k H) as [v Hv].
  exists v. now apply get_In.
Qed.

Lemma Counter_entry (l : list string) (k : string) (n : nat) :
  In (k, n) (Counter l) -> n = occurrences l k.
Proof.
  intros Hin. unfold Counter in *.
  pose proof (countv_fold l [] k) as Hc. unfold countv at 1 in Hc.
  rewrite (get_of_NoDup _ k n) in Hc; [exact Hc | | exact Hin].
  apply NoDup_fold_counter. constructor.
Qed.

(** The currency that is found: a most frequent one, and of several the
    one met first. *)
Lemma find_currency_most_common (transactions : list Transaction)
      (dc : string) :
  find_currency transactions = OK dc ->
  exists firsts l1 l2,
    first_currencies transactions = OK firsts
    /\ firsts = l1 ++ dc :: l2
    /\ ~ In dc l1
    /\ (forall c, occurrences firsts c <= occurrences firsts dc)
    /\ (forall c, In c l1 -> occurrences firsts c < occurrences firsts dc).
Proof.
  unfold find_currency. intros H. inv_bind H. rename a into firsts.
  destruct (most_common (Counter firsts)) as [|[dc' n] rest] eqn:Emc;
    [discriminate|].
  inversion H; subst dc'. clear H.
  destruct (most_common_head _ _ _ Emc) as (c1 & c2 & Ec & Hlt & Hle).
  simpl in Hlt, Hle.
  assert (Hnd : NoDup (PyDict.keys (Counter firsts))).
  { apply NoDup_fold_counter. constructor. }
  assert (Hin : In (dc, n) (Counter firsts)).
  { rewrite Ec. apply in_elt. }
  assert (Hn : n = occurrences firsts dc) by now apply Counter_entry.
  assert (Hdc : In dc firsts).
  { assert (In dc (PyDict.keys (Counter firsts))) as Hk.
    { unfold PyDict.keys. change dc with (fst (dc, n)). now apply in_map. }
    unfold Counter in Hk. apply keys_fold_counter in Hk.
    destruct Hk as [[]|Hk]. exact Hk. }
  destruct (first_occurrence firsts dc Hdc) as (l1 & l2 & Ef & Hfirst).
  exists firsts, l1, l2. split; [exact Ha|].
  split; [exact Ef|]. split; [exact Hfirst|]. split.
  - intros c. destruct (in_dec string_dec c firsts) as [Hc|Hc].
    + assert (In c (PyDict.keys (Counter firsts))) as Hk.
      { unfold Counter. apply keys_fold_counter. now right. }
      destruct (In_keys _ _ Hk) as [m Hm].
      rewrite <- (Counter_entry _ _ _ Hm), <- Hn.
      rewrite Ec in Hm. apply in_app_or in Hm.
      rewrite Forall_forall in Hlt, Hle.
      destruct Hm as [Hm|[E|Hm]].
      * specialize (Hlt _ Hm). simpl in Hlt. lia.
      * inversion E. lia.
      * specialize (Hle _ Hm). simpl in Hle. lia.
    + unfold occurrences. rewrite (count_occ_not_In string_dec) in Hc.
      rewrite Hc. lia.
  - intros c Hc.
    assert (Hsplit : exists c' m' c2',
               Counter firsts = c' ++ (dc, m') :: c2'
               /\ PyDict.keys c' = PyDict.keys (Counter l1)).
    { rewrite Ef. unfold Counter. rewrite fold_left_app. cbn [fold_left].
      rewrite counter_add_fresh.
      - apply fold_counter_middle.
      - intros Hk. apply keys_fold_counter in Hk.
        destruct Hk as [[]|Hk]. contradiction. }
    destruct Hsplit as (c' & m' & c2' & Ec' & Hkeys).
    assert (c1 = c') as ->.
    { eapply (split_unique c1 c' c2 c2' (dc, n) (dc, m')).
      - rewrite <- Ec. exact Hnd.
      - rewrite <- Ec. exact Ec'.
      - reflexivity. }
    assert (In c (PyDict.keys c')) as Hk.
    { rewrite Hkeys. unfold Counter. apply keys_fold_counter. now right. }
    destruct (In_keys _ _ Hk) as [m Hm].
    assert (Hm' : In (c, m) (Counter firsts)).
    { rewrite Ec. apply in_or_app. now left. }
    rewrite <- (Counter_entry _ _ _ Hm'), <- Hn.
    rewrite Forall_forall in Hlt. specialize (Hlt _ Hm). exact Hlt.
Qed.

(** X18.  The default currency of the batch is the currency that most
    transactions of the date range carry on their first posting; where
    several currencies are equally frequent it is the one that comes first
    in the order of the batch. *)
Theorem beancount2datev_default_currency {floats : PyFloat}
        (entries : list directive)
        (conv : converter) (y : Z) (date_start date_stop : option Date)
        (b : Buchungsstapel) (out : list string) :
  beancount2datev entries conv y date_start date_stop = (OK b, out) ->
  exists firsts l1 l2,
    first_currencies (selected entries y date_start date_stop) = OK firsts
    /\ firsts = l1 ++ waehrungskennzeichen b :: l2
    /\ ~ In (waehrungskennzeichen b) l1
    /\ (forall c, occurrences firsts c
                  <= occurrences firsts (waehrungskennzeichen b))
    /\ (forall c, In c l1 ->
                  occurrences firsts c
                  < occurrences firsts (waehrungskennzeichen b)).
Proof.
  intros H. destruct (beancount2datev_OK _ _ _ _ _ _ _ H) as (Hcur & _).
  now apply find_currency_most_common.
Qed.

Lemma tied_currencies_converts :
  exists b out,
    beancount2datev tied_currencies sample_names 2021 None None = (OK b, out)
    /\ waehrungskennzeichen b = "USD".
Proof.
  eexists. eexists. split; vm_compute; reflexivity.
Qed.

Lemma beancount2datev_default_currency_tie :
  exists b out firsts l1 l2,
    beancount2datev tied_currencies sample_names 2021 None None = (OK b, out)
    /\ waehrungskennzeichen b = "USD"
    /\ first_currencies (selected tied_currencies 2021 None None) = OK firsts
    /\ firsts = l1 ++ waehrungskennzeichen b :: l2
    /\ ~ In (waehrungskennzeichen b) l1
    /\ (forall c, occurrences firsts c
                  <= occurrences firsts (waehrungskennzeichen b))
    /\ (forall c, In c l1 ->
                  occurrences firsts c
                  < occurrences firsts (waehrungskennzeichen b)).
Proof.
  destruct tied_currencies_converts as (b & out & H & Hw).
  destruct (beancount2datev_default_currency tied_currencies sample_names
              2021 None None b out H) as (firsts & l1 & l2 & Hrest).
  exists b, out, firsts, l1, l2. split; [exact H|]. split; [exact Hw|].
  exact Hrest.
Defined.

(** ** The transactions that datev2beancount returns *)

Lemma D_signed_opposite (s : bool) (u : betrag) (n1 n2 : Z) :
  D_signed (if s then "" else "-") u = OK n1 ->
  D_signed (if s then "-" else "") u = OK n2 ->
  (n1 + n2 = 0)%Z.
Proof.
  unfold D_signed. destruct s; simpl;
    destruct (minus_sign u); intros H1 H2;
    try discriminate; inversion H1; inversion H2; lia.
Qed.

Lemma transaction_of_entry_shape {datev_file : feld} (conv : converter)
      (dc fl py : string) (metadata : option (PyDict.items string))
      (row : Buchung)
      (txn : Transaction) :
  transaction_of_entry datev_file conv dc fl metadata py row = OK txn ->
  date txn = belegdatum row /\ flag txn = fl /\ payee txn = py
  /\ narration txn = buchungstext row
  /\ exists p q,
      postings txn = [p; q]
      /\ convert conv (konto row) = OK (account p)
      /\ convert conv (gegenkonto row) = OK (account q)
      /\ (number (units p) + number (units q) = 0)%Z
      /\ currency (units p) = currency (units q).
Proof.
  unfold transaction_of_entry. intros H.
  inv_bind H. inv_bind H. inv_bind H. inv_bind H.
  destruct metadata as [md|]; [|discriminate].
  inversion H; subst txn; cbn. repeat (split; [reflexivity|]).
  do 2 eexists. split; [reflexivity|]. cbn.
  repeat (split; [assumption|]).
  split; [|reflexivity].
  eapply (D_signed_opposite (String.eqb (soll_haben row) "S")); eauto.
Qed.

(** X19.  Whatever the rows hold, a list that is returned has one
    transaction for each row, with the flag and the payee that were given,
    and each transaction has exactly two postings in one currency whose
    amounts add up to zero. *)
Theorem datev2beancount_balanced {datev_file : feld} (b : Buchungsstapel)
        (conv : converter)
        (fl py : string) (metadata : option (PyDict.items string))
        (txns : list Transaction) :
  datev2beancount datev_file b conv fl metadata py = OK txns ->
  List.length txns = List.length (data b)
  /\ Forall (fun txn =>
               flag txn = fl /\ payee txn = py
               /\ exists p q,
                   postings txn = [p; q]
                   /\ (number (units p) + number (units q) = 0)%Z
                   /\ currency (units p) = currency (units q))
       txns.
Proof.
  intros H. destruct (datev2beancount_OK _ _ _ _ _ _ H) as (u & HF & ->).
  split.
  - rewrite <- (Permutation_length (sorted_perm by_date u)).
    symmetry. eapply Forall2_length; eauto.
  - eapply Permutation_Forall; [apply sorted_perm|].
    clear H. induction HF as [|row txn rows u Hrow HF IH]; constructor; auto.
    apply transaction_of_entry_shape in Hrow.
    destruct Hrow as (_ & Hf & Hp & _ & p & q & Hps & _ & _ & Hsum & Hc).
    repeat (split; [assumption|]). exists p, q. auto.
Qed.

Lemma datev2beancount_balanced_unsorted :
  exists txns,
    datev2beancount FObjekt unsorted_batch sample_numbers "txn" (Some []) "Shop"
    = OK txns
    /\ List.length txns = 2
    /\ Forall (fun txn =>
                 flag txn = "txn" /\ payee txn = "Shop"
                 /\ exists p q,
                     postings txn = [p; q]
                     /\ (number (units p) + number (units q) = 0)%Z
                     /\ currency (units p) = currency (units q))
         txns.
Proof.
  eexists. split; [reflexivity|].
  apply (datev2beancount_balanced unsorted_batch sample_numbers "txn" "Shop"
           (Some []) _ eq_refl).
Defined.

Lemma transactions_of_entries_raise {datev_file : feld} (conv : converter)
      (dc fl py : string) (md : PyDict.items string) (pre post : list Buchung)
      (row : Buchung)
      (e : exn) :
  forallb (unsigned_and_resolved conv) pre = true ->
  transaction_of_entry datev_file conv dc fl (Some md) py row = Raise e ->
  transactions_of_entries datev_file conv dc fl (Some md) py
    (pre ++ row :: post)
  = Raise e.
Proof.
  intros Hpre Hrow. induction pre as [|r pre IH]; cbn [app].
  - cbn [transactions_of_entries]. now rewrite Hrow.
  - cbn [forallb] in Hpre. apply andb_true_iff in Hpre.
    destruct Hpre as [Hr Hpre].
    destruct (transaction_of_entry_OK (datev_file := datev_file)
                conv dc fl py md r Hr)
      as (k & gk & _ & _ & Hok).
    cbn [transactions_of_entries]. rewrite Hok. cbn [bind].
    now rewrite (IH Hpre).
Qed.

(** X20.  A row with a negative amount cannot be read: whatever its sign
    indicator, one of its two postings gets a second minus sign in front
    of the number that [str()] shows with one, and the conversion stops
    with the [ValueError] of [D] at the first such row. *)
Theorem datev2beancount_negative_amount {datev_file : feld}
        (b : Buchungsstapel) (conv : converter) (fl py : string)
        (md : PyDict.items string) (pre post : list Buchung)
        (row : Buchung) :
  data b = pre ++ row :: post ->
  forallb (unsigned_and_resolved conv) pre = true ->
  is_ok (convert conv (konto row)) = true ->
  is_ok (convert conv (gegenkonto row)) = true ->
  minus_sign (umsatz row) = true ->
  exists msg,
    datev2beancount datev_file b conv fl (Some md) py
    = Raise (ValueError msg).
Proof.
  intros Hdata Hpre Hk Hgk Hneg. exists decimal_error.
  unfold datev2beancount. rewrite Hdata.
  rewrite (transactions_of_entries_raise conv _ fl py md pre post row
             (ValueError decimal_error) Hpre); [reflexivity|].
  unfold transaction_of_entry.
  destruct (convert conv (konto row)); [|discriminate].
  destruct (convert conv (gegenkonto row)); [|discriminate].
  cbn [bind]. unfold D_signed. rewrite Hneg.
  destruct (String.eqb (soll_haben row) "S"); reflexivity.
Qed.

Lemma datev2beancount_negative_amount_both_negative :
  exists b msg,
    beancount2datev [Txn both_negative] sample_names 2021 None None
    = (OK b, [])
    /\ datev2beancount FObjekt b sample_numbers "txn" (Some []) ""
       = Raise (ValueError msg).
Proof.
  assert (Hrun : exists b row,
             beancount2datev [Txn both_negative] sample_names 2021 None None
             = (OK b, [])
             /\ data b = [] ++ row :: []
             /\ is_ok (convert sample_numbers (konto row)) = true
             /\ is_ok (convert sample_numbers (gegenkonto row)) = true
             /\ minus_sign (umsatz row) = true).
  { do 2 eexists. repeat split; vm_compute; reflexivity. }
  destruct Hrun as (b & row & Hrun & Hdata & Hk & Hgk & Hneg).
  destruct (datev2beancount_negative_amount (datev_file := FObjekt)
              b sample_numbers "txn" "" [] [] [] row Hdata eq_refl
              Hk Hgk Hneg) as (msg & H).
  exists b, msg. split; [exact Hrun | exact H].
Defined.

(** X21.  One account number that the converter cannot resolve stops the
    whole conversion: no transaction list is returned, not even for the
    rows before it. *)
Theorem datev2beancount_unresolved {datev_file : feld} (b : Buchungsstapel)
        (conv : converter)
        (fl py : string) (metadata : option (PyDict.items string))
        (row : Buchung) :
  In row (data b) ->
  is_ok (convert conv (konto row)) && is_ok (convert conv (gegenkonto row))
  = false ->
  raises (datev2beancount datev_file b conv fl metadata py).
Proof.
  intros Hin Hconv.
  destruct (datev2beancount datev_file b conv fl metadata py) as [txns|e] eqn:H;
    [|now exists e].
  exfalso. destruct (datev2beancount_OK _ _ _ _ _ _ H) as (u & HF & _).
  destruct (Forall2_In_l _ _ _ _ HF Hin) as (txn & _ & Hrow).
  apply transaction_of_entry_shape in Hrow.
  destruct Hrow as (_ & _ & _ & _ & p & q & _ & Hk & Hgk & _).
  rewrite Hk, Hgk in Hconv. discriminate Hconv.
Qed.

Lemma datev2beancount_unresolved_number :
  datev2beancount FObjekt
    (mkBuchungsstapel 1001 1 (mkdate 2021 1 1) 4 (mkdate 2021 1 1)
       (mkdate 2021 12 31) "EUR"
       [mkBuchung (Zahl 1250) "S" None "4650" "1200" (mkdate 2021 3 2)
          (Some "Lunch") [];
        mkBuchung (Zahl 90000) "S" None "4210" "1200" (mkdate 2021 3 3)
          (Some "Rent") []])
    sample_numbers "txn" (Some []) ""
  = Raise (KeyError "4210")
  /\ raises
       (datev2beancount FObjekt
          (mkBuchungsstapel 1001 1 (mkdate 2021 1 1) 4 (mkdate 2021 1 1)
             (mkdate 2021 12 31) "EUR"
             [mkBuchung (Zahl 1250) "S" None "4650" "1200" (mkdate 2021 3 2)
                (Some "Lunch") [];
              mkBuchung (Zahl 90000) "S" None "4210" "1200" (mkdate 2021 3 3)
                (Some "Rent") []])
          sample_numbers "txn" (Some []) "").
Proof.
  split; [reflexivity|].
  apply (datev2beancount_unresolved _ sample_numbers "txn" "" (Some [])
           (mkBuchung (Zahl 90000) "S" None "4210" "1200" (mkdate 2021 3 3)
              (Some "Rent") [])).
  - simpl. auto.
  - reflexivity.
Defined.

(** ** Metadata *)










(** X23.  A batch whose rows are in order of booking date is converted
    row by row: the transactions returned stand in the order of the rows,
    rows of one day included. *)
Theorem datev2beancount_keeps_order {datev_file : feld} (b : Buchungsstapel)
        (conv : converter)
        (fl py : string) (metadata : option (PyDict.items string))
        (txns : list Transaction) :
  rows_ordered (data b) ->
  datev2beancount datev_file b conv fl metadata py = OK txns ->
  Forall2 (fun row txn =>
             transaction_of_entry datev_file conv (waehrungskennzeichen b) fl
               metadata py row = OK txn)
    (data b) txns.
Proof.
  intros Hord H.
  destruct (datev2beancount_OK _ _ _ _ _ _ H) as (u & HF & ->).
  rewrite (sorted_fixed by_date); [exact HF|].
  clear H. unfold rows_ordered in Hord.
  induction HF as [|row txn rows u Hrow HF IH]; [constructor|].
  inversion Hord as [|? ? Hl Hx]; subst.
  constructor; [auto|].
  apply transaction_of_entry_shape in Hrow. destruct Hrow as (Hd & _).
  clear IH Hord Hl. induction HF as [|r t' rows u Hr HF IH]; [constructor|].
  inversion Hx; subst. constructor; [|auto].
  apply transaction_of_entry_shape in Hr. destruct Hr as (Hd' & _).
  unfold by_date. now rewrite Hd, Hd'.
Qed.

Lemma datev2beancount_keeps_order_same_day :
  exists t1 t2,
    datev2beancount FObjekt
      (mkBuchungsstapel 1001 1 (mkdate 2021 1 1) 4 (mkdate 2021 1 1)
         (mkdate 2021 12 31) "EUR"
         [mkBuchung (Zahl 400) "S" None "4650" "1200" (mkdate 2021 3 2)
            (Some "Breakfast") [];
          mkBuchung (Zahl 1250) "S" None "4650" "1200" (mkdate 2021 3 2)
            (Some "Lunch") []])
      sample_numbers "txn" (Some []) "" = OK [t1; t2]
    /\ Forall2 (fun row txn => narration txn = buchungstext row)
         [mkBuchung (Zahl 400) "S" None "4650" "1200" (mkdate 2021 3 2)
            (Some "Breakfast") [];
          mkBuchung (Zahl 1250) "S" None "4650" "1200" (mkdate 2021 3 2)
            (Some "Lunch") []]
         [t1; t2].
Proof.
  eexists. eexists. split; [reflexivity|].
  eapply Forall2_impl;
    [|apply (datev2beancount_keeps_order
               (mkBuchungsstapel 1001 1 (mkdate 2021 1 1) 4
                  (mkdate 2021 1 1) (mkdate 2021 12 31) "EUR"
                  [mkBuchung (Zahl 400) "S" None "4650" "1200" (mkdate 2021 3 2)
                     (Some "Breakfast") [];
                   mkBuchung (Zahl 1250) "S" None "4650" "1200" (mkdate 2021 3 2)
                     (Some "Lunch") []])
               sample_numbers "txn" "" (Some []) _
               ltac:(repeat constructor) eq_refl)].
  intros row txn Hrow. apply transaction_of_entry_shape in Hrow. tauto.
Defined.

(** ** Splitting strings *)

Lemma str_split_nonempty (sep : ascii) (s : string) :
  exists piece pieces, str_split sep s = piece :: pieces.
Proof.
  destruct s as [|c s]; simpl; [eauto|].
  destruct (Ascii.eqb c sep); [eauto|].
  destruct (str_split sep s); eauto.
Qed.

Lemma length_str_split (sep : ascii) (s : string) :
  List.length (str_split sep s) = S (count_char sep s).
Proof.
  induction s as [|c s IH]; simpl; [reflexivity|].
  destruct (Ascii.eqb c sep); simpl; [now rewrite IH|].
  destruct (str_split sep s) as [|h t]; simpl in *; [discriminate | exact IH].
Qed.

(** A piece in front of a separator is the first piece. *)
Lemma str_split_first (sep : ascii) (a b : string) :
  has_char sep a = false ->
  str_split sep (a ++ String sep b) = a :: str_split sep b.
Proof.
  induction a as [|c a IH]; simpl; intros H.
  - now rewrite Ascii.eqb_refl.
  - apply orb_false_iff in H. destruct H as [Hc Ha].
    rewrite Hc, (IH Ha). reflexivity.
Qed.

Lemma str_split_whole (sep : ascii) (a : string) :
  has_char sep a = false -> str_split sep a = [a].
Proof.
  induction a as [|c a IH]; simpl; intros H; [reflexivity|].
  apply orb_false_iff in H. destruct H as [Hc Ha].
  now rewrite Hc, (IH Ha).
Qed.

(** Characters without a separator in front of a string lengthen its
    first piece. *)
Lemma str_split_prefix (sep : ascii) (a b piece : string)
      (pieces : list string) :
  has_char sep a = false ->
  str_split sep b = piece :: pieces ->
  str_split sep (a ++ b) = (a ++ piece)%string :: pieces.
Proof.
  intros Ha Hb. induction a as [|c a IH]; simpl; [exact Hb|].
  simpl in Ha. apply orb_false_iff in Ha. destruct Ha as [Hc Ha].
  now rewrite Hc, (IH Ha).
Qed.

Lemma str_split_pieces (sep : ascii) (s : string) :
  Forall (fun piece => has_char sep piece = false) (str_split sep s).
Proof.
  induction s as [|c s IH]; simpl; [repeat constructor|].
  destruct (Ascii.eqb c sep) eqn:E; [now constructor|].
  destruct (str_split sep s) as [|h t]; [repeat constructor; simpl|].
  - now rewrite E.
  - inversion IH; subst. constructor; [|assumption].
    simpl. rewrite E. assumption.
Qed.

(** Splitting at one character brings no other character in. *)
Lemma str_split_keeps_out (sep c : ascii) (s : string) :
  has_char c s = false ->
  Forall (fun piece => has_char c piece = false) (str_split sep s).
Proof.
  induction s as [|c' s IH]; simpl; intros H; [repeat constructor|].
  apply orb_false_iff in H. destruct H as [Hc Hs]. specialize (IH Hs).
  destruct (Ascii.eqb c' sep); [now constructor|].
  destruct (str_split sep s) as [|h t]; [repeat constructor; simpl|].
  - now rewrite Hc.
  - inversion IH; subst. constructor; [|assumption].
    simpl. now rewrite Hc.
Qed.

(** ** convert_function *)

(** X24.  The account number is taken from the third component of the
    account name.  A name with fewer than two colons raises [IndexError];
    any other name gives a number, and that number holds neither a colon
    nor a hyphen. *)
Theorem convert_function_defined (account_name : string) :
  (count_char ":"%char account_name < 2 ->
   convert_function account_name = Raise IndexError)
  /\ (2 <= count_char ":"%char account_name ->
      exists number_,
        convert_function account_name = OK number_
        /\ has_char ":"%char number_ = false
        /\ has_char "-"%char number_ = false).
Proof.
  unfold convert_function, subscript.
  pose proof (length_str_split ":"%char account_name) as Hlen.
  pose proof (str_split_pieces ":"%char account_name) as Hpieces.
  destruct (nth_error (str_split ":"%char account_name) 2) as [part|] eqn:E.
  - split.
    + intros Hc. exfalso.
      assert (2 < List.length (str_split ":"%char account_name)).
      { apply nth_error_Some. congruence. }
      lia.
    + intros _. cbn [bind].
      assert (Hpart : has_char ":"%char part = false).
      { rewrite Forall_forall in Hpieces. apply Hpieces.
        eapply nth_error_In; eauto. }
      pose proof (str_split_pieces "-"%char part) as Hh.
      pose proof (str_split_keeps_out "-"%char ":"%char part Hpart) as Hc.
      destruct (str_split_nonempty "-"%char part) as (h & t & Eh).
      rewrite Eh in *. cbn [nth_error].
      exists h. inversion Hh; inversion Hc; subst. auto.
  - split.
    + reflexivity.
    + intros Hc. exfalso. apply nth_error_None in E. lia.
Qed.

Lemma convert_function_defined_examples :
  convert_function "Assets:Bank" = Raise IndexError
  /\ exists number_,
       convert_function "Assets:Bank:1200-Giro:EUR" = OK number_
       /\ has_char ":"%char number_ = false
       /\ has_char "-"%char number_ = false.
Proof.
  split.
  - apply (proj1 (convert_function_defined "Assets:Bank")). simpl. lia.
  - apply (proj2 (convert_function_defined "Assets:Bank:1200-Giro:EUR")).
    simpl. lia.
Defined.

(** X25.  For a name of the form [first:second:number], with or without
    a tail that starts with a hyphen or a colon, the function returns
    [number]: the digits between the second colon and the first hyphen or
    colon after it. *)
Theorem convert_function_number (first second number_ : string) :
  has_char ":"%char first = false ->
  has_char ":"%char second = false ->
  has_char ":"%char number_ = false ->
  has_char "-"%char number_ = false ->
  convert_function (first ++ ":" ++ second ++ ":" ++ number_)%string
  = OK number_
  /\ (forall tail,
        convert_function
          (first ++ ":" ++ second ++ ":" ++ number_ ++ "-" ++ tail)%string
        = OK number_)
  /\ (forall tail,
        convert_function
          (first ++ ":" ++ second ++ ":" ++ number_ ++ ":" ++ tail)%string
        = OK number_).
Proof.
  intros H1 H2 Hn Hh. unfold convert_function.
  assert (Hsplit : forall rest part pieces,
             str_split ":"%char rest = part :: pieces ->
             subscript
               (str_split ":"%char (first ++ ":" ++ second ++ ":" ++ rest))
               2 = OK part).
  { intros rest part pieces E.
    change (first ++ ":" ++ second ++ ":" ++ rest)%string
      with (first ++ String ":"%char (second ++ String ":"%char rest))%string.
    rewrite (str_split_first _ _ _ H1), (str_split_first _ _ _ H2), E.
    reflexivity. }
  split; [|split].
  - rewrite (Hsplit number_ number_ []) by now apply str_split_whole.
    cbn [bind]. now rewrite str_split_whole.
  - intros tail.
    destruct (str_split_nonempty ":"%char tail) as (h & t & Et).
    rewrite (Hsplit (number_ ++ "-" ++ tail)%string
               (number_ ++ String "-"%char h)%string t).
    + cbn [bind]. now rewrite str_split_first.
    + change (number_ ++ "-" ++ tail)%string
        with (number_ ++ String "-"%char tail)%string.
      pose proof (str_split_prefix ":"%char
                    (number_ ++ String "-"%char EmptyString)%string
                    tail h t) as Hp.
      assert (Happ : forall x : string,
                 ((number_ ++ String "-"%char EmptyString) ++ x)%string
                 = (number_ ++ String "-"%char x)%string).
      { intros x. clear. induction number_ as [|c n IH]; simpl;
          [reflexivity | now rewrite IH]. }
      rewrite !Happ in Hp. apply Hp; [|exact Et].
      clear - Hn. induction number_ as [|c n IH]; simpl in *; [reflexivity|].
      apply orb_false_iff in Hn. destruct Hn as [Hc Hn].
      now rewrite Hc, (IH Hn).
  - intros tail.
    rewrite (Hsplit (number_ ++ ":" ++ tail)%string number_
               (str_split ":"%char tail)).
    + cbn [bind]. now rewrite str_split_whole.
    + apply (str_split_first _ _ _ Hn).
Qed.

Lemma convert_function_number_1200 :
  convert_function "Assets:Bank:1200" = OK "1200"
  /\ convert_function "Assets:Bank:1200-Giro:EUR" = OK "1200"
  /\ convert_function "Assets:Bank:1200:Giro-EUR" = OK "1200".
Proof.
  destruct (convert_function_number "Assets" "Bank" "1200"
              eq_refl eq_refl eq_refl eq_refl) as (H1 & H2 & H3).
  split; [exact H1|]. split; [exact (H2 "Giro:EUR") | exact (H3 "Giro-EUR")].
Defined.

(** ** create_account_dictionary *)

Lemma convert_function_raise (account_name : string) (e : exn) :
  convert_function account_name = Raise e -> e = IndexError.
Proof.
  unfold convert_function, subscript.
  destruct (nth_error (str_split ":"%char account_name) 2) as [part|];
    cbn [bind]; [|intros H; now inversion H].
  destruct (str_split_nonempty "-"%char part) as (h & t & ->).
  discriminate.
Qed.

Lemma map_result_raise {A B : Type} (f : A -> result B) (l : list A)
      (a : A) (e : exn) :
  In a l -> f a = Raise e ->
  (forall x e', f x = Raise e' -> e' = e) ->
  map_result f l = Raise e.
Proof.
  intros Hin Ha Hall. induction l as [|x l IH]; [destruct Hin|].
  cbn [map_result]. destruct (f x) as [b|e'] eqn:Ex.
  - destruct Hin as [->|Hin]; [congruence|].
    cbn [bind]. now rewrite (IH Hin).
  - cbn [bind]. f_equal. eapply Hall; eauto.
Qed.

Lemma In_open_accounts (entries : list directive) (a : string) :
  In a (open_accounts entries) <-> In (Open a) entries.
Proof.
  induction entries as [|e entries IH]; simpl; [tauto|].
  destruct e as [t|a'|]; simpl; rewrite IH.
  - split; [auto | intros [H|H]; [discriminate | auto]].
  - split; intros [H|H]; auto; left; congruence.
  - split; [auto | intros [H|H]; [discriminate | auto]].
Qed.

(** X26.  One opened account whose name has fewer than three components
    makes the creation of the dictionary fail with [IndexError] before a
    line is printed or written, whatever the other accounts are. *)
Theorem create_account_dictionary_short_name (isfile : string -> bool)
        (entries : list directive) (dict_filename : option string)
        (a : string) :
  In (Open a) entries ->
  count_char ":"%char a < 2 ->
  create_account_dictionary isfile entries convert_function dict_filename
  = Raise IndexError.
Proof.
  intros Hin Hc. unfold create_account_dictionary.
  rewrite (map_result_raise convert_function _ a IndexError);
    [reflexivity | now apply In_open_accounts | |].
  - unfold convert_function, subscript.
    pose proof (length_str_split ":"%char a) as Hlen.
    destruct (nth_error (str_split ":"%char a) 2) eqn:E; [|reflexivity].
    exfalso.
    assert (2 < List.length (str_split ":"%char a)).
    { apply nth_error_Some. congruence. }
    lia.
  - intros x e'. apply convert_function_raise.
Qed.

Lemma create_account_dictionary_short_name_equity :
  create_account_dictionary (fun _ => false)
    [Open "Assets:Bank:1200-Giro"; Open "Equity:Opening";
     Open "Expenses:Food:4650"]
    convert_function (Some "accounts.csv")
  = Raise IndexError.
Proof.
  apply (create_account_dictionary_short_name (fun _ => false)
           [Open "Assets:Bank:1200-Giro"; Open "Equity:Opening";
            Open "Expenses:Food:4650"]
           (Some "accounts.csv") "Equity:Opening").
  - simpl. auto.
  - simpl. lia.
Defined.

Lemma map_result_length {A B : Type} (f : A -> result B) (l : list A)
      (bs : list B) :
  map_result f l = OK bs -> List.length bs = List.length l.
Proof.
  revert bs. induction l as [|x l IH]; intros bs H.
  - now inversion H.
  - cbn [map_result] in H. inv_bind H. inv_bind H. inversion H; subst.
    simpl. f_equal. auto.
Qed.

Lemma invert_items_last (l1 l2 : list (string * string)) (k n : string)
      (d2 : pydict) :
  ~ In n (map snd l2) ->
  PyDict.get (table (invert_items (l1 ++ (k, n) :: l2) d2)) n = Some k.
Proof.
  intros Hlast. rewrite invert_items_app.
  change ((k, n) :: l2) with ([(k, n)] ++ l2).
  rewrite invert_items_app, invert_items_other by exact Hlast.
  unfold invert_items at 1. cbn [fold_left fst snd setitem table].
  apply get_set_same.
Qed.

Lemma NoDup_snd_last (recs : list (string * string)) (k n : string) :
  NoDup (map snd recs) -> In (k, n) recs ->
  exists l1 l2, recs = l1 ++ (k, n) :: l2 /\ ~ In n (map snd l2).
Proof.
  intros Hnd Hin. destruct (in_split _ _ Hin) as (l1 & l2 & ->).
  exists l1, l2. split; [reflexivity|].
  rewrite map_app in Hnd. cbn [map snd] in Hnd.
  apply NoDup_remove_2 in Hnd. rewrite in_app_iff in Hnd. tauto.
Qed.

Lemma map_fst_combine {A B : Type} (l : list A) :
  forall l' : list B,
    List.length l = List.length l' -> map fst (combine l l') = l.
Proof.
  induction l as [|x l IH]; intros [|y l'] H; simpl in *;
    try discriminate; [reflexivity|]. f_equal. apply IH. lia.
Qed.

Lemma map_snd_combine {A B : Type} (l : list A) :
  forall l' : list B,
    List.length l = List.length l' -> map snd (combine l l') = l'.
Proof.
  induction l as [|x l IH]; intros [|y l'] H; simpl in *;
    try discriminate; [reflexivity|]. f_equal. apply IH. lia.
Qed.

Lemma Forall2_combine {A B : Type} (l : list A) :
  forall l' : list B,
    List.length l = List.length l' ->
    Forall2 (fun y x => In (x, y) (combine l l')) l' l.
Proof.
  induction l as [|x l IH]; intros [|y l'] H; simpl in *;
    try discriminate; constructor; [now left|].
  eapply Forall2_impl; [|apply IH; lia]. simpl. auto.
Qed.

Section CreateThenLoad.

(** The fields the csv reader makes of one line.  All that is asked of it:
    a line of two plain fields with a comma between them gives the two
    fields. *)
Variable csv_fields : string -> list string.
Hypothesis csv_fields_plain :
  forall x y, csv_plain x = true -> csv_plain y = true ->
              csv_fields (format_record x y) = [x; y].

Lemma csv_fields_records (recs : list (string * string)) :
  forallb csv_plain (map fst recs) = true ->
  forallb csv_plain (map snd recs) = true ->
  map csv_fields (map (fun r => format_record (fst r) (snd r)) recs)
  = records_of recs.
Proof.
  induction recs as [|[x y] recs IH]; intros H1 H2; [reflexivity|].
  cbn [map fst snd forallb] in *.
  apply andb_true_iff in H1, H2. destruct H1 as [Hx H1], H2 as [Hy H2].
  cbn [records_of map fst snd]. rewrite csv_fields_plain by assumption.
  f_equal. now apply IH.
Qed.

(** X27.  A dictionary that was created can be loaded.  If the numbers
    that [convert] gives the opened accounts are plain, free of commas and
    quotation marks like the account names, and pairwise distinct like
    the names, then the lines printed, read back, give two tables in which
    every account resolves to its number and every number to its
    account. *)
Theorem create_account_dictionary_loads (isfile : string -> bool)
        (entries : list directive) (convert : string -> result string)
        (numbers : list string) (aw : bool) (dflt : option string) :
  map_result convert (open_accounts entries) = OK numbers ->
  forallb plain_number numbers = true ->
  forallb csv_plain numbers = true ->
  forallb csv_plain (open_accounts entries) = true ->
  NoDup numbers ->
  NoDup (open_accounts entries) ->
  exists lines d1 d2,
    create_account_dictionary isfile entries convert None
    = OK (map Print lines)
    /\ load_account_dictionary (map csv_fields lines) aw dflt = OK (d1, d2)
    /\ Forall2 (fun a n => getitem d2 a = OK n /\ getitem d1 n = OK a)
         (open_accounts entries) numbers.
Proof.
  intros Hconv Hplain Hcsvn Hcsva Hndn Hnda.
  set (accounts := open_accounts entries) in *.
  set (recs := combine numbers accounts).
  assert (Hlen : List.length numbers = List.length accounts)
    by now apply (map_result_length convert).
  assert (Hfst : map fst recs = numbers)
    by now apply map_fst_combine.
  assert (Hsnd : map snd recs = accounts)
    by now apply map_snd_combine.
  exists (header :: map (fun r => format_record (fst r) (snd r)) recs),
    (mkdict recs dflt), (invert_items recs (mkdict [] None)).
  assert (Hget : forall k' n', In (k', n') recs ->
                               PyDict.get recs k' = Some n').
  { intros k' n'. apply get_of_NoDup. unfold PyDict.keys.
    now rewrite Hfst. }
  split; [|split].
  - unfold create_account_dictionary. fold accounts. rewrite Hconv.
    reflexivity.
  - cbn [map].
    change header
      with (format_record "#account number (datev)"
              " account name (beancount)").
    rewrite csv_fields_plain by reflexivity.
    rewrite csv_fields_records by (rewrite ?Hfst, ?Hsnd; assumption).
    unfold load_account_dictionary. cbn [load_records String.get].
    cbn [Ascii.eqb Bool.eqb andb].
    rewrite (load_records_plain aw recs (mkdict [] dflt));
      [| now rewrite Hfst | now rewrite Hfst | intros ? ? H; exact H].
    cbn [bind table default_factory app].
    unfold PyDict.keys. rewrite invert_into_items by exact Hget.
    reflexivity.
  - assert (HF : Forall2 (fun a n => In (n, a) recs) accounts numbers)
      by now apply Forall2_combine.
    eapply Forall2_impl; [|exact HF]. intros a n Hin. split.
    + destruct (NoDup_snd_last recs n a) as (l1 & l2 & E & Hlast);
        [now rewrite Hsnd | exact Hin |].
      unfold getitem. rewrite E, (invert_items_last _ _ _ _ _ Hlast).
      reflexivity.
    + unfold getitem. cbn [table]. now rewrite (Hget _ _ Hin).
Qed.

End CreateThenLoad.

Lemma str_split_comma_plain (x y : string) :
  csv_plain x = true -> csv_plain y = true ->
  str_split ","%char (format_record x y) = [x; y].
Proof.
  unfold csv_plain, format_record. intros Hx Hy.
  apply andb_true_iff in Hx, Hy. destruct Hx as [Hx _], Hy as [Hy _].
  apply negb_true_iff in Hx, Hy.
  change (x ++ "," ++ y)%string with (x ++ String ","%char y)%string.
  rewrite (str_split_first _ _ _ Hx), (str_split_whole _ _ Hy). reflexivity.
Qed.

Lemma create_account_dictionary_loads_two_accounts :
  exists lines d1 d2,
    create_account_dictionary (fun _ => false) two_accounts convert_function
      None = OK (map Print lines)
    /\ load_account_dictionary (map (str_split ","%char) lines) false None
       = OK (d1, d2)
    /\ Forall2 (fun a n => getitem d2 a = OK n /\ getitem d1 n = OK a)
         ["Assets:Bank:1200-Giro"; "Expenses:Food:4650"] ["1200"; "4650"].
Proof.
  apply (create_account_dictionary_loads (str_split ","%char)
           str_split_comma_plain (fun _ => false) two_accounts
           convert_function ["1200"; "4650"] false None);
    try reflexivity.
  - repeat (constructor; [simpl; intuition discriminate|]). constructor.
  - repeat (constructor; [simpl; intuition discriminate|]). constructor.
Defined.

(** ** main *)

Lemma printed_not_written (lines : list string) (e : effect) :
  In e (map Print lines) -> written_path e = None.
Proof.
  intros H. apply in_map_iff in H. destruct H as (l & <- & _). reflexivity.
Qed.

Section MainFacts.

Variable isfile : string -> bool.
Variable splitext : string -> string * string.
Variable load_file : string -> list directive.
Variable csv_reader : string -> result (list (list string)).
Variable read_datev : string -> result Buchungsstapel.
Variable today_year : Z.

Lemma missing_not_written (args : arguments) (e : effect) :
  In e (if negb (isfile (arg_filename args))
        then [Print "Error: Input file not found."] else []) ->
  written_path e = None.
Proof.
  destruct (negb (isfile (arg_filename args))); simpl; [|tauto].
  intros [<-|[]]. reflexivity.
Qed.

(** X28.  The command line never writes over a file: whatever the
    arguments and the files are, every effect of a run that writes names
    the path given as [--out], and no file of that path existed. *)
Theorem main_never_overwrites {floats : PyFloat} (args : arguments) (e : effect)
        (path : string) :
  In e (fst (main isfile splitext load_file csv_reader read_datev
               today_year args)) ->
  written_path e = Some path ->
  arg_out args = Some path /\ isfile path = false.
Proof.
  unfold main. intros Hin Hw.
  assert (Hcases :
            forall effects,
              In e ((if negb (isfile (arg_filename args))
                     then [Print "Error: Input file not found."] else [])
                    ++ effects) ->
              In e effects).
  { intros effects H. apply in_app_or in H. destruct H as [H|H]; [|exact H].
    apply missing_not_written in H. congruence. }
  assert (Hmiss :
            In e (if negb (isfile (arg_filename args))
                  then [Print "Error: Input file not found."] else []) ->
            arg_out args = Some path /\ isfile path = false).
  { intros H. apply missing_not_written in H. congruence. }
  assert (Hprint : forall line, In e [Print line] ->
                                arg_out args = Some path
                                /\ isfile path = false).
  { intros line [<-|[]]. discriminate Hw. }
  destruct (arg_out args) as [out|] eqn:Eout.
  - destruct (isfile out) eqn:Eis.
    { apply Hcases in Hin. eauto. }
    destruct (String.eqb (snd (splitext (arg_filename args))) ".beancount").
    + destruct (arg_create_account_dictionary args).
      * unfold create_account_dictionary in Hin.
        destruct (map_result convert_function _); cbn [bind] in Hin;
          [|now apply Hmiss].
        rewrite Eis in Hin. cbn [fst] in Hin. apply Hcases in Hin.
        destruct Hin as [<-|[]]. simpl in Hw. inversion Hw; subst. auto.
      * destruct (arg_account_dictionary args) as [dictionary|];
          [|apply Hcases in Hin; eauto].
        destruct (load_account_dictionary_file csv_reader dictionary
                    false None) as [[d1 d2]|]; [|now apply Hmiss].
        unfold beancount2datev_files in Hin.
        destruct (beancount2datev _ _ _ _ _) as [[b|err] out'];
          cbn [fst] in Hin; apply Hcases in Hin.
        -- apply in_app_or in Hin. destruct Hin as [Hin|[<-|[]]].
           ++ apply printed_not_written in Hin. congruence.
           ++ simpl in Hw. inversion Hw; subst. auto.
        -- apply printed_not_written in Hin. congruence.
    + destruct (String.eqb (snd (splitext (arg_filename args))) ".csv");
        [|now apply Hmiss].
      destruct (arg_account_dictionary args) as [dictionary|];
        [|apply Hcases in Hin; eauto].
      destruct (load_account_dictionary_file csv_reader dictionary true None)
        as [[d1 d2]|]; [|now apply Hmiss].
      unfold datev2beancount_files in Hin.
      destruct (read_datev (arg_filename args)) as [b|];
        [|cbn [fst] in Hin; apply Hcases in Hin; destruct Hin].
      destruct (datev2beancount _ b (ConvDict d1) "txn" None "")
        as [txns|];
        cbn [fst] in Hin; apply Hcases in Hin; [|destruct Hin].
      destruct Hin as [<-|[<-|[]]]; simpl in Hw; [|discriminate].
      inversion Hw; subst. auto.
  - destruct (String.eqb (snd (splitext (arg_filename args))) ".beancount").
    + destruct (arg_create_account_dictionary args).
      * unfold create_account_dictionary in Hin.
        destruct (map_result convert_function _); cbn [bind] in Hin;
          [|now apply Hmiss].
        cbn [fst] in Hin. apply Hcases in Hin.
        apply printed_not_written in Hin. congruence.
      * apply Hcases in Hin. eauto.
    + destruct (String.eqb (snd (splitext (arg_filename args))) ".csv");
        [|now apply Hmiss].
      destruct (arg_account_dictionary args) as [dictionary|];
        [|apply Hcases in Hin; eauto].
      destruct (load_account_dictionary_file csv_reader dictionary true None)
        as [[d1 d2]|]; [|now apply Hmiss].
      unfold datev2beancount_files in Hin.
      destruct (read_datev (arg_filename args)) as [b|];
        [|cbn [fst] in Hin; apply Hcases in Hin; destruct Hin].
      destruct (datev2beancount _ b (ConvDict d1) "txn" None "")
        as [txns|];
        cbn [fst] in Hin; apply Hcases in Hin; [|destruct Hin].
      destruct Hin as [<-|[]]. discriminate Hw.
Qed.

End MainFacts.

Lemma main_never_overwrites_new_file :
  exists text,
    sample_main (mkarguments (Some "new.csv") "ledger.beancount" true None
                   None)
    = ([WriteFile "new.csv" text], OK (Some 0%Z))
    /\ sample_isfile "new.csv" = false.
Proof.
  eexists. split; [reflexivity|].
  eapply (main_never_overwrites sample_isfile sample_splitext
            sample_load_file sample_csv_reader sample_read_datev 2021
            (mkarguments (Some "new.csv") "ledger.beancount" true None None)
            (WriteFile "new.csv" _) "new.csv").
  - left. reflexivity.
  - reflexivity.
Defined.

(** X29.  Through the command line a batch with a row is never turned
    into a ledger: [main] calls [datev2beancount] without a metadata
    mapping, so once the dictionary and the batch are read the run raises,
    and it writes nothing. *)
Theorem main_datev_input_raises {floats : PyFloat} (isfile : string -> bool)
        (splitext : string -> string * string)
        (load_file : string -> list directive)
        (csv_reader : string -> result (list (list string)))
        (read_datev : string -> result Buchungsstapel) (today_year : Z)
        (args : arguments) (dictionary : string) (d1 d2 : pydict)
        (b : Buchungsstapel) :
  snd (splitext (arg_filename args)) = ".csv" ->
  match arg_out args with
  | Some out => isfile out
  | None => false
  end = false ->
  arg_account_dictionary args = Some dictionary ->
  load_account_dictionary_file csv_reader dictionary true None
  = OK (d1, d2) ->
  read_datev (arg_filename args) = OK b ->
  data b <> [] ->
  raises (snd (main isfile splitext load_file csv_reader read_datev
                 today_year args))
  /\ Forall (fun e => written_path e = None)
       (fst (main isfile splitext load_file csv_reader read_datev
               today_year args)).
Proof.
  intros Hext Hout Hdict Hload Hread Hrows. unfold main.
  rewrite Hout, Hext, Hdict, Hload.
  change (String.eqb ".csv" ".beancount") with false.
  change (String.eqb ".csv" ".csv") with true. cbv iota.
  unfold datev2beancount_files. rewrite Hread.
  assert (Hraise : forall value,
             raises (datev2beancount value b (ConvDict d1) "txn" None "")).
  { intros value. unfold datev2beancount.
    destruct (data b) as [|entry rest]; [contradiction|].
    cbn [transactions_of_entries].
    destruct (transaction_of_entry_None (datev_file := value) (ConvDict d1)
                (waehrungskennzeichen b) "txn" "" entry) as [e He].
    rewrite He. now exists e. }
  destruct (Hraise (FText (arg_filename args))) as [e He].
  rewrite He. cbn [fst snd]. split.
  - now exists e.
  - rewrite app_nil_r. apply Forall_forall. intros x Hx.
    now apply (missing_not_written isfile args).
Qed.

Lemma main_datev_input_raises_batch :
  sample_main (mkarguments (Some "ledger.out") "batch.csv" false
                 (Some "accounts.csv") None)
  = ([], Raise AttributeError)
  /\ raises (snd (sample_main
                    (mkarguments (Some "ledger.out") "batch.csv" false
                       (Some "accounts.csv") None))).
Proof.
  split; [reflexivity|].
  assert (Hrows : data unsorted_batch <> []) by discriminate.
  eapply (proj1 (main_datev_input_raises sample_isfile sample_splitext
                   sample_load_file sample_csv_reader sample_read_datev 2021
                   (mkarguments (Some "ledger.out") "batch.csv" false
                      (Some "accounts.csv") None)
                   "accounts.csv" _ _ unsorted_batch
                   eq_refl eq_refl eq_refl eq_refl eq_refl Hrows)).
Defined.

Lemma load_records_refuses_wildcard (pre post : list (list string))
      (a b : string) (d dpre : pydict) :
  load_records false pre d = OK dpre ->
  is_comment a = false ->
  has_asterisk a = true ->
  load_records false (pre ++ [a; b] :: post) d
  = Raise (IOError "Wildcards not allowed.").
Proof.
  intros Hpre Hc Ha.
  rewrite load_records_app, Hpre. cbn [bind load_records].
  destruct (has_asterisk_get a Ha) as [c Hget].
  unfold is_comment in Hc. rewrite Hget in *. rewrite Hc, Ha. reflexivity.
Qed.

(** X30.  From ledger to batch the command line loads the dictionary
    with wildcards disabled: a dictionary file with a wildcard record stops
    the run with [IOError] before the ledger is converted, and no batch is
    saved. *)
Theorem main_ledger_refuses_wildcards {floats : PyFloat}
        (isfile : string -> bool)
        (splitext : string -> string * string)
        (load_file : string -> list directive)
        (csv_reader : string -> result (list (list string)))
        (read_datev : string -> result Buchungsstapel) (today_year : Z)
        (args : arguments) (out dictionary : string)
        (pre post : list (list string)) (a b : string) (dpre : pydict) :
  snd (splitext (arg_filename args)) = ".beancount" ->
  arg_create_account_dictionary args = false ->
  arg_out args = Some out ->
  isfile out = false ->
  arg_account_dictionary args = Some dictionary ->
  csv_reader dictionary = OK (pre ++ [a; b] :: post) ->
  load_records false pre (mkdict [] None) = OK dpre ->
  is_comment a = false ->
  has_asterisk a = true ->
  main isfile splitext load_file csv_reader read_datev today_year args
  = (if negb (isfile (arg_filename args))
     then [Print "Error: Input file not found."] else [],
     Raise (IOError "Wildcards not allowed.")).
Proof.
  intros Hext Hcreate Hout Hfree Hdict Hcsv Hpre Hc Ha. unfold main.
  rewrite Hout, Hfree, Hext, Hcreate, Hdict.
  change (String.eqb ".beancount" ".beancount") with true. cbv iota.
  unfold load_account_dictionary_file, load_account_dictionary.
  rewrite Hcsv. cbn [bind].
  rewrite (load_records_refuses_wildcard pre post a b _ dpre Hpre Hc Ha).
  reflexivity.
Qed.

Lemma main_ledger_refuses_wildcards_sales :
  sample_main (mkarguments (Some "batch.out") "ledger.beancount" false
                 (Some "accounts.csv") (Some 2021%Z))
  = ([], Raise (IOError "Wildcards not allowed.")).
Proof.
  apply (main_ledger_refuses_wildcards sample_isfile sample_splitext
           sample_load_file sample_csv_reader sample_read_datev 2021
           (mkarguments (Some "batch.out") "ledger.beancount" false
              (Some "accounts.csv") (Some 2021%Z))
           "batch.out" "accounts.csv"
           [["#number"; "name"]; ["1200"; "Assets:Bank"];
            ["4650"; "Expenses:Food"]] []
           "84**" "Income:Sales" _
           eq_refl eq_refl eq_refl eq_refl eq_refl eq_refl eq_refl eq_refl
           eq_refl).
Defined.
